(** * Canteen reservation service: validator, cancellation and slot calculator

    A shallow embedding of the Express controllers
    (reservationController.ts, canteenController.ts, studentController.ts,
    utils/helpers.ts, db.ts, models/types.ts) and the proofs of the
    properties their specification states.

    Conventions of the embedding:
    - a JavaScript value that may be [undefined] is an [option]; a request
      body field is typed as the model interface types it (string fields
      are strings, numeric fields are integers);
    - a string is the sequence of bytes of its UTF-8 encoding;
    - a Number computed from text is NaN, an infinity or a double that
      holds an integer ([JS.number]), with the rounding of doubles;
    - a [Date] is its millisecond time value, [None] being Invalid Date;
    - the imported packages [uuid] and [date-fns] are an interface
      ([Imports]): what they return depends on the random source and on
      the local timeline of the host, clock changes included; the theorems
      hold for every implementation of it, and implementations for UTC and
      for two timelines with a clock change are given to run the
      examples. *)

From Stdlib Require Import ZArith List String Ascii Bool Lia.
From Stdlib Require Import Sorting.Sorted DecimalString DecimalNat.
Import ListNotations.

Local Open Scope string_scope.
Local Open Scope Z_scope.

(* ------------------------------------------------------------------ *)
(** ** JavaScript primitives used by the controllers *)

Module JS.

(** [!s] is false exactly for a present, non-empty string. *)
Definition falsyS (s : option string) : bool :=
  match s with
  | Some s => (s =? "")%string
  | None => true
  end.

(** [!n] is false exactly for a present, non-zero number. *)
Definition falsyN (n : option Z) : bool :=
  match n with
  | Some n => n =? 0
  | None => true
  end.

(** The value of a field once the guard has shown it present. *)
Definition str (s : option string) : string :=
  match s with Some s => s | None => "" end.

Definition num (n : option Z) : Z :=
  match n with Some n => n | None => 0 end.

(** [!a] for an array: every array, also the empty one, is truthy. *)
Definition falsyA {A : Type} (a : option (list A)) : bool :=
  match a with Some _ => false | None => true end.

Definition arr {A : Type} (a : option (list A)) : list A :=
  match a with Some a => a | None => [] end.

(** [a === b] where [a] may be [undefined] and [b] is a string. *)
Definition strictEqS (a : option string) (b : string) : bool :=
  match a with
  | Some a => (a =? b)%string
  | None => false
  end.

(** [s.split(sep)] for a one-character separator: never empty. *)
Fixpoint split (sep : ascii) (s : string) : list string :=
  match s with
  | EmptyString => [EmptyString]
  | String c s' =>
      if Ascii.eqb c sep then EmptyString :: split sep s'
      else match split sep s' with
           | h :: t => String c h :: t
           | [] => [String c EmptyString]
           end
  end.

(** [arr[i]], [undefined] out of range. *)
Definition index {A : Type} (arr : list A) (i : nat) : option A :=
  nth_error arr i.

(** White space, as [parseInt] skips it and as [\s] matches it: the
    characters of WhiteSpace and LineTerminator.  Those of one byte are
    TAB, LF, VT, FF, CR and SP. *)
Definition isWhiteSpace (c : ascii) : bool :=
  let n := nat_of_ascii c in
  ((9 <=? n) && (n <=? 13))%nat || (n =? 32)%nat.

(** The one of two bytes is U+00A0. *)
Definition isWhiteSpace2 (c1 c2 : ascii) : bool :=
  ((nat_of_ascii c1 =? 194) && (nat_of_ascii c2 =? 160))%nat.

(** Those of three bytes are U+1680, U+2000 to U+200A, U+2028, U+2029,
    U+202F, U+205F, U+3000 and U+FEFF. *)
Definition isWhiteSpace3 (c1 c2 c3 : ascii) : bool :=
  let a := nat_of_ascii c1 in
  let b := nat_of_ascii c2 in
  let c := nat_of_ascii c3 in
  (((a =? 225) && (b =? 154) && (c =? 128))
   || ((a =? 226) && (b =? 128)
       && (((128 <=? c) && (c <=? 138)) || (c =? 168) || (c =? 169)
           || (c =? 175)))
   || ((a =? 226) && (b =? 129) && (c =? 159))
   || ((a =? 227) && (b =? 128) && (c =? 128))
   || ((a =? 239) && (b =? 187) && (c =? 191)))%nat.

Fixpoint trimStart (s : string) : string :=
  match s with
  | String c1 s1 =>
      if isWhiteSpace c1 then trimStart s1
      else
        match s1 with
        | String c2 s2 =>
            if isWhiteSpace2 c1 c2 then trimStart s2
            else
              match s2 with
              | String c3 s3 =>
                  if isWhiteSpace3 c1 c2 c3 then trimStart s3 else s
              | EmptyString => s
              end
        | EmptyString => s
        end
  | EmptyString => s
  end.

(** [/\S/.test(s)] is false: every character of [s] is white space. *)
Fixpoint allWhiteSpace (s : string) : bool :=
  match s with
  | String c1 s1 =>
      if isWhiteSpace c1 then allWhiteSpace s1
      else
        match s1 with
        | String c2 s2 =>
            if isWhiteSpace2 c1 c2 then allWhiteSpace s2
            else
              match s2 with
              | String c3 s3 =>
                  isWhiteSpace3 c1 c2 c3 && allWhiteSpace s3
              | EmptyString => false
              end
        | EmptyString => false
        end
  | EmptyString => true
  end.

(** The value of a digit in the given radix (10 or 16). *)
Definition digitValue (radix : Z) (c : ascii) : option Z :=
  let n := Z.of_nat (nat_of_ascii c) in
  let v :=
    if (48 <=? n) && (n <=? 57) then Some (n - 48)
    else if (97 <=? n) && (n <=? 102) then Some (n - 87)
    else if (65 <=? n) && (n <=? 70) then Some (n - 55)
    else None in
  match v with
  | Some d => if d <? radix then Some d else None
  | None => None
  end.

(** The longest prefix of digits, as a number; [acc] is [None] (NaN) until
    the first digit has been read. *)
Fixpoint digits (radix : Z) (s : string) (acc : option Z) : option Z :=
  match s with
  | String c s' =>
      match digitValue radix c with
      | Some d => digits radix s' (Some (num acc * radix + d))
      | None => acc
      end
  | EmptyString => acc
  end.

Definition stripSign (s : string) : Z * string :=
  match s with
  | String "-" s' => (-1, s')
  | String "+" s' => (1, s')
  | _ => (1, s)
  end.

(** The Numbers that the controllers compute from text: NaN, the doubles
    that hold an integer, and the two infinities.  [+0] and [-0], which no
    comparison or sum of the controllers tells apart, are one value. *)
Inductive number :=
| NaN
| Finite (value : Z)
| Infinity (negative : bool).

(** The Number value for an integer: the integer itself below 2^53 in
    magnitude, and otherwise the nearest double, which keeps 53 bits, a tie
    going to the even one; what rounds to 2^1024 or beyond is an
    infinity. *)
Definition toNumber (z : Z) : number :=
  let a := Z.abs z in
  if a <? 2 ^ 53 then Finite z
  else
    let e := Z.log2 a - 52 in
    let q := Z.shiftr a e in
    let r := a - Z.shiftl q e in
    let half := Z.shiftl 1 (e - 1) in
    let q' := if (half <? r) || ((half =? r) && Z.odd q) then q + 1 else q in
    if 2 ^ 1024 <=? Z.shiftl q' e then Infinity (z <? 0)
    else Finite (Z.sgn z * Z.shiftl q' e).

(** [parseInt(x)] without a radix.  [parseInt(undefined)] reads the text
    "undefined" and is NaN.  The digits are read exactly, as V8 reads them
    (the language lets an implementation drop decimal digits after the
    20th), and the integer they write is rounded to a Number. *)
Definition parseInt (x : option string) : number :=
  match x with
  | None => NaN
  | Some s =>
      let (sign, s1) := stripSign (trimStart s) in
      let mathInt :=
        match s1 with
        | String "0" (String "x" s2) => digits 16 s2 None
        | String "0" (String "X" s2) => digits 16 s2 None
        | _ => digits 10 s1 None
        end in
      match mathInt with
      | Some n => toNumber (sign * n)
      | None => NaN
      end
  end.

(** [a * b] and [a + b]: the exact result, rounded. *)
Definition mul (a b : number) : number :=
  match a, b with
  | Finite x, Finite y => toNumber (x * y)
  | Infinity n, Finite y | Finite y, Infinity n =>
      if y =? 0 then NaN else Infinity (xorb n (y <? 0))
  | Infinity n, Infinity m => Infinity (xorb n m)
  | _, _ => NaN
  end.

Definition add (a b : number) : number :=
  match a, b with
  | Finite x, Finite y => toNumber (x + y)
  | Infinity n, Finite _ | Finite _, Infinity n => Infinity n
  | Infinity n, Infinity m => if Bool.eqb n m then Infinity n else NaN
  | _, _ => NaN
  end.

(** [a <= b] and [a >= b] on Numbers: false when either is NaN. *)
Definition leN (a b : number) : bool :=
  match a, b with
  | NaN, _ | _, NaN => false
  | Finite x, Finite y => x <=? y
  | Infinity true, _ | _, Infinity false => true
  | _, _ => false
  end.

Definition geN (a b : number) : bool := leN b a.

(** [a === b] on Numbers: NaN equals nothing. *)
Definition strictEq (a b : number) : bool :=
  match a, b with
  | Finite x, Finite y => x =? y
  | Infinity n, Infinity m => Bool.eqb n m
  | _, _ => false
  end.

(** The integer that a finite Number holds. *)
Definition integer (a : number) : Z :=
  match a with Finite z => z | _ => 0 end.

(** Comparison of the time values of dates, NaN ([None]) for an Invalid
    Date. *)
Definition lt (a b : option Z) : bool :=
  match a, b with Some a, Some b => a <? b | _, _ => false end.

Definition gt (a b : option Z) : bool := lt b a.

Definition le (a b : option Z) : bool :=
  match a, b with Some a, Some b => a <=? b | _, _ => false end.

Definition ge (a b : option Z) : bool := le b a.

(** [+a === +b] on time values: NaN equals nothing. *)
Definition eqN (a b : option Z) : bool :=
  match a, b with Some a, Some b => a =? b | _, _ => false end.

(** [Math.max(a, b)]. *)
Definition max (a b : Z) : Z := Z.max a b.

End JS.

(* ------------------------------------------------------------------ *)
(** ** Dates: the time value of a JavaScript [Date], and the functions of
       date-fns that work on time values alone *)

Definition Date := option Z.

Module DateFns.

Definition millisecondsInMinute : Z := 60000.
Definition millisecondsInDay : Z := 86400000.

Definition addMinutes (d : Date) (amount : Z) : Date :=
  option_map (fun t => t + amount * millisecondsInMinute) d.

Definition isBefore (d c : Date) : bool := JS.lt d c.

Definition isEqual (d c : Date) : bool := JS.eqN d c.

End DateFns.

(* ------------------------------------------------------------------ *)
(** ** Data model (models/types.ts, db.ts) *)

Inductive Meal := breakfast | lunch | dinner.

Module WorkingHour.
Record t := mk { meal : Meal; from : string; to : string }.
End WorkingHour.

Module Canteen.
Record t := mk {
  id : string;
  name : string;
  location : string;
  capacity : Z;
  workingHours : list WorkingHour.t
}.
End Canteen.

Module Student.
Record t := mk {
  id : string;
  name : string;
  email : string;
  isAdmin : bool
}.
End Student.

Inductive Status := Active | Cancelled.

Definition Status_eqb (a b : Status) : bool :=
  match a, b with
  | Active, Active | Cancelled, Cancelled => true
  | _, _ => false
  end.

Module Reservation.
Record t := mk {
  id : string;
  studentId : string;
  canteenId : string;
  date : string;
  time : string;
  duration : Z;
  status : Status
}.

Definition withStatus (s : Status) (r : t) : t :=
  mk (id r) (studentId r) (canteenId r) (date r) (time r) (duration r) s.
End Reservation.

(** The in-memory database, together with the number of identifiers the
    [uuid] package has handed out so far. *)
Record Db := mkDb {
  students : list Student.t;
  canteens : list Canteen.t;
  reservations : list Reservation.t;
  uuids : nat
}.

Definition emptyDb : Db := mkDb [] [] [] 0.


(* ------------------------------------------------------------------ *)
(** ** The imported packages *)

(** What the controllers import from [uuid], and from [date-fns] the
    functions that read or write local time.  The reference date that
    [parse] takes ([new Date()]) plays no part with these two patterns,
    which fix every field down to the minute.  [addDays(d, 1)] sets the
    local date of [d] one day on and keeps its local time, so that how far
    it moves depends on the clock changes of the host; it always moves
    forward, by a length of time that has a positive lower bound. *)
Class Imports := {
  (** the value returned by the n-th call of [uuidv4()] *)
  uuidv4 : nat -> string;
  (** [parse(s, "yyyy-MM-dd'T'HH:mm", new Date())] *)
  parseDateTime : string -> Date;
  (** [parse(s, 'yyyy-MM-dd', new Date())] *)
  parseDate : string -> Date;
  (** [format(d, 'yyyy-MM-dd')] of a valid date *)
  formatDate : Z -> string;
  (** [format(d, 'HH:mm')] of a valid date *)
  formatTime : Z -> string;
  (** [addDays(d, amount)] of a valid date *)
  addDays : Z -> Z -> Z;
  (** a length of time that [addDays(d, 1)] never falls short of *)
  shortestDay : Z;
  shortestDay_positive : 0 < shortestDay;
  addDays_advances : forall d : Z, d + shortestDay <= addDays d 1
}.

(* ------------------------------------------------------------------ *)
(** ** Requests and responses *)

Module StudentBody.
Record t := mk {
  name : option string;
  email : option string;
  isAdmin : option bool
}.
End StudentBody.

Module CanteenBody.
Record t := mk {
  id : option string;
  name : option string;
  location : option string;
  capacity : option Z;
  workingHours : option (list WorkingHour.t)
}.
End CanteenBody.

Module ReservationBody.
Record t := mk {
  studentId : option string;
  canteenId : option string;
  date : option string;
  time : option string;
  duration : option Z
}.
End ReservationBody.

Module StatusQuery.
Record t := mk {
  startDate : option string;
  endDate : option string;
  startTime : option string;
  endTime : option string;
  duration : option string
}.
End StatusQuery.

Module Slot.
Record t := mk {
  date : string;
  meal : Meal;
  startTime : string;
  remainingCapacity : Z
}.
End Slot.

Inductive Body :=
| Text (s : string)
| NoBody
| JsonStudent (s : Student.t)
| JsonCanteen (c : Canteen.t)
| JsonReservation (r : Reservation.t)
| JsonStatus (canteenId : string) (slots : list Slot.t)
| JsonGlobalStatus (groups : list (string * list Slot.t)).

Record Response := mkResponse { statusCode : Z; body : Body }.

(** [res.status(code).send(text)] *)
Definition send (code : Z) (text : string) : Response :=
  mkResponse code (Text text).

(** [res.status(code).send()] *)
Definition sendEmpty (code : Z) : Response := mkResponse code NoBody.

(* ------------------------------------------------------------------ *)
(** ** Array operations on the stored records *)

(** The effect of [f] on the first element that satisfies [p]: what an
    assignment through the object returned by [find], or through the index
    returned by [findIndex], does to the array. *)
Fixpoint mutateFirst {A : Type} (p : A -> bool) (f : A -> A) (l : list A)
  : list A :=
  match l with
  | [] => []
  | x :: l' => if p x then f x :: l' else x :: mutateFirst p f l'
  end.

(** [arr.splice(arr.findIndex(p), 1)] when the index is not -1. *)
Fixpoint removeFirst {A : Type} (p : A -> bool) (l : list A) : list A :=
  match l with
  | [] => []
  | x :: l' => if p x then l' else x :: removeFirst p l'
  end.

(** [arr.map(f)] when [f] may run out of fuel. *)
Fixpoint mapOption {A B : Type} (f : A -> option B) (l : list A)
  : option (list B) :=
  match l with
  | [] => Some []
  | x :: l' =>
      match f x, mapOption f l' with
      | Some y, Some ys => Some (y :: ys)
      | _, _ => None
      end
  end.

(* ------------------------------------------------------------------ *)
(** ** utils/helpers.ts *)

(** [isAdmin(studentId)]: the header is absent, or a string. *)
Definition isAdmin (db : Db) (studentId : option string) : bool :=
  if JS.falsyS studentId then false
  else
    match find (fun s => (Student.id s =? JS.str studentId)%string)
               (students db) with
    | Some student => Student.isAdmin student
    | None => false
    end.

(** [lo <= c <= hi], a character class [[lo-hi]]. *)
Definition inRange (lo hi c : ascii) : bool :=
  ((nat_of_ascii lo <=? nat_of_ascii c)
   && (nat_of_ascii c <=? nat_of_ascii hi))%nat.

(** Validates HH:mm time format:
    [/^([0-1]?[0-9]|2[0-3]):[0-5][0-9]$/.test(time)].  The pattern is
    anchored at both ends, so it accepts the strings of four characters
    [d:dd] and those of five characters [dd:dd] whose hour is [[0-1][0-9]]
    or [2[0-3]]. *)
Definition isValidTimeFormat (time : string) : bool :=
  match list_ascii_of_string time with
  | [h; colon; m1; m2] =>
      inRange "0" "9" h
      && Ascii.eqb colon ":" && inRange "0" "5" m1 && inRange "0" "9" m2
  | [h1; h2; colon; m1; m2] =>
      ((inRange "0" "1" h1 && inRange "0" "9" h2)
       || (Ascii.eqb h1 "2" && inRange "0" "3" h2))
      && Ascii.eqb colon ":" && inRange "0" "5" m1 && inRange "0" "9" m2
  | _ => false
  end.

(* ------------------------------------------------------------------ *)
(** ** controllers/studentController.ts *)

Section Controllers.
Context {imports : Imports}.

Definition createStudent (db : Db) (body : StudentBody.t) : Response * Db :=
  let name := StudentBody.name body in
  let email := StudentBody.email body in
  if JS.falsyS name || JS.falsyS email then
    (send 400 "Missing required fields", db)
  else if existsb (fun s => (Student.email s =? JS.str email)%string)
                  (students db) then
    (send 400 "Email already exists", db)
  else
    let newStudent :=
      Student.mk (uuidv4 (uuids db)) (JS.str name) (JS.str email)
        (match StudentBody.isAdmin body with Some b => b | None => false end) in
    (mkResponse 201 (JsonStudent newStudent),
     mkDb (students db ++ [newStudent]) (canteens db) (reservations db)
          (S (uuids db))).

(* ------------------------------------------------------------------ *)
(** ** controllers/reservationController.ts *)

(** Checks if two time ranges overlap. *)
Definition isOverlapping (startA endA startB endB : Date) : bool :=
  JS.lt startA endB && JS.gt endA startB.

(** [parseInt(t.split(':')[0]) * 60 + parseInt(t.split(':')[1])] *)
Definition minutesOfDay (t : string) : JS.number :=
  JS.add (JS.mul (JS.parseInt (JS.index (JS.split ":" t) 0)) (JS.Finite 60))
         (JS.parseInt (JS.index (JS.split ":" t) 1)).

(** The predicate given to [canteen.workingHours.some]. *)
Definition fitsBlock (time : string) (duration : Z) (wh : WorkingHour.t)
  : bool :=
  let whFromMin := minutesOfDay (WorkingHour.from wh) in
  let whToMin := minutesOfDay (WorkingHour.to wh) in
  let resStartMin := minutesOfDay time in
  let resEndMin := JS.add resStartMin (JS.Finite duration) in
  JS.geN resStartMin whFromMin && JS.leN resEndMin whToMin.

(** The start and end of a stored reservation. *)
Definition startOf (r : Reservation.t) : Date :=
  parseDateTime (Reservation.date r ++ "T" ++ Reservation.time r).

Definition endOf (r : Reservation.t) : Date :=
  DateFns.addMinutes (startOf r) (Reservation.duration r).

(** The predicate given to [db.reservations.some]. *)
Definition overlapsStudent (studentId : string)
  (reservationStart reservationEnd : Date) (r : Reservation.t) : bool :=
  if negb (Reservation.studentId r =? studentId)%string
     || Status_eqb (Reservation.status r) Cancelled
  then false
  else
    let existingStart := startOf r in
    let existingEnd := endOf r in
    isOverlapping reservationStart reservationEnd existingStart existingEnd.

(** The predicate given to [db.reservations.filter]. *)
Definition overlapsCanteen (canteenId : string)
  (reservationStart reservationEnd : Date) (r : Reservation.t) : bool :=
  if negb (Reservation.canteenId r =? canteenId)%string
     || Status_eqb (Reservation.status r) Cancelled
  then false
  else
    let rStart := startOf r in
    let rEnd := endOf r in
    isOverlapping reservationStart reservationEnd rStart rEnd.

(** Creates a reservation.  [now] is the [new Date()] of the past check. *)
Definition createReservation (db : Db) (body : ReservationBody.t) (now : Z)
  : Response * Db :=
  if JS.falsyS (ReservationBody.studentId body)
     || JS.falsyS (ReservationBody.canteenId body)
     || JS.falsyS (ReservationBody.date body)
     || JS.falsyS (ReservationBody.time body)
     || JS.falsyN (ReservationBody.duration body)
  then (send 400 "Missing required fields", db)
  else
    let studentId := JS.str (ReservationBody.studentId body) in
    let canteenId := JS.str (ReservationBody.canteenId body) in
    let date := JS.str (ReservationBody.date body) in
    let time := JS.str (ReservationBody.time body) in
    let duration := JS.num (ReservationBody.duration body) in
    match find (fun s => (Student.id s =? studentId)%string) (students db) with
    | None => (send 400 "Student not found", db)
    | Some student =>
    if negb (duration =? 30) && negb (duration =? 60) then
      (send 400 "Duration must be 30 or 60 minutes", db)
    else
    let minutesPart := JS.index (JS.split ":" time) 1 in
    if negb (JS.strictEqS minutesPart "00")
       && negb (JS.strictEqS minutesPart "30") then
      (send 400 "Time must start on the hour or half hour", db)
    else
    let reservationStart := parseDateTime (date ++ "T" ++ time) in
    if DateFns.isBefore reservationStart (Some now) then
      (send 400 "Cannot create reservations in the past", db)
    else
    match find (fun c => (Canteen.id c =? canteenId)%string) (canteens db) with
    | None => (send 400 "Canteen not found", db)
    | Some canteen =>
    let reservationEnd := DateFns.addMinutes reservationStart duration in
    let fitsInSchedule :=
      existsb (fitsBlock time duration) (Canteen.workingHours canteen) in
    if negb fitsInSchedule then
      (send 400 "Reservation is outside of working hours", db)
    else
    let studentHasOverlap :=
      existsb (overlapsStudent studentId reservationStart reservationEnd)
              (reservations db) in
    if studentHasOverlap then
      (send 400 "Student already has a reservation at this time", db)
    else
    let concurrentReservations :=
      filter (overlapsCanteen canteenId reservationStart reservationEnd)
             (reservations db) in
    if Z.of_nat (List.length concurrentReservations) >=? Canteen.capacity canteen
    then (send 400 "Canteen capacity reached for this slot", db)
    else
    let newReservation :=
      Reservation.mk (uuidv4 (uuids db)) studentId canteenId date time
                     duration Active in
    (mkResponse 201 (JsonReservation newReservation),
     mkDb (students db) (canteens db)
          (reservations db ++ [newReservation]) (S (uuids db)))
    end
    end.

(** Cancels a reservation by setting status to 'Cancelled'. *)
Definition cancelReservation (db : Db) (id : string) : Response * Db :=
  match find (fun r => (Reservation.id r =? id)%string) (reservations db) with
  | None => (send 404 "Reservation not found", db)
  | Some reservation =>
      (mkResponse 200
         (JsonReservation (Reservation.withStatus Cancelled reservation)),
       mkDb (students db) (canteens db)
            (mutateFirst (fun r => (Reservation.id r =? id)%string)
                         (Reservation.withStatus Cancelled)
                         (reservations db))
            (uuids db))
  end.

(* ------------------------------------------------------------------ *)
(** ** controllers/canteenController.ts *)

(** The predicate given to [canteen.workingHours.find]. *)
Definition slotFitsBlock (dateStr : string) (currentSlotTime slotEndTime : Date)
  (wh : WorkingHour.t) : bool :=
  let whStart := parseDateTime (dateStr ++ "T" ++ WorkingHour.from wh) in
  let whEnd := parseDateTime (dateStr ++ "T" ++ WorkingHour.to wh) in
  JS.ge currentSlotTime whStart && JS.le slotEndTime whEnd.

(** The predicate given to [db.reservations.filter]. *)
Definition overlapsSlot (canteen : Canteen.t)
  (currentSlotTime slotEndTime : Date) (r : Reservation.t) : bool :=
  if negb (Reservation.canteenId r =? Canteen.id canteen)%string
     || Status_eqb (Reservation.status r) Cancelled
  then false
  else
    let rStart := startOf r in
    let rEnd := endOf r in
    JS.lt currentSlotTime rEnd && JS.gt slotEndTime rStart.

(** One run of the body of the inner [while]: the slots after it. *)
Definition slotStep (db : Db) (canteen : Canteen.t) (dateStr : string)
  (duration : Z) (cur : Z) (resultSlots : list Slot.t) : list Slot.t :=
  let currentSlotTime := Some cur in
  let slotStartStr := formatTime cur in
  let slotEndTime := DateFns.addMinutes currentSlotTime duration in
  let workingHour :=
    find (slotFitsBlock dateStr currentSlotTime slotEndTime)
         (Canteen.workingHours canteen) in
  match workingHour with
  | Some workingHour =>
      let activeReservations :=
        Z.of_nat (List.length
          (filter (overlapsSlot canteen currentSlotTime slotEndTime)
                  (reservations db))) in
      resultSlots ++
        [Slot.mk dateStr (WorkingHour.meal workingHour) slotStartStr
           (JS.max 0 (Canteen.capacity canteen - activeReservations))]
  | None => resultSlots
  end.

(** [while (isBefore(currentSlotTime, endSlotTime)) { ... }]; the result is
    [None] when [fuel] iterations did not reach the end of the loop.
    [isBefore] is false when either date is invalid. *)
Fixpoint slotLoop (fuel : nat) (db : Db) (canteen : Canteen.t)
  (dateStr : string) (endSlotTime : Date) (duration : Z)
  (currentSlotTime : Date) (resultSlots : list Slot.t)
  : option (list Slot.t) :=
  match currentSlotTime, endSlotTime with
  | Some cur, Some fin =>
      if cur <? fin then
        match fuel with
        | O => None
        | S fuel' =>
            slotLoop fuel' db canteen dateStr endSlotTime duration
              (DateFns.addMinutes currentSlotTime duration)
              (slotStep db canteen dateStr duration cur resultSlots)
        end
      else Some resultSlots
  | _, _ => Some resultSlots
  end.

(** [while (isBefore(currentDay, finalDay) || isEqual(currentDay, finalDay))
    { ... }], with [slotFuel] for each inner loop. *)
Fixpoint dayLoop (fuel slotFuel : nat) (db : Db) (canteen : Canteen.t)
  (finalDay : Date) (startTime endTime : string) (duration : Z)
  (currentDay : Date) (resultSlots : list Slot.t) : option (list Slot.t) :=
  match currentDay, finalDay with
  | Some day, Some fin =>
      if (day <? fin) || (day =? fin) then
        match fuel with
        | O => None
        | S fuel' =>
            let dateStr := formatDate day in
            let currentSlotTime :=
              parseDateTime (dateStr ++ "T" ++ startTime) in
            let endSlotTime := parseDateTime (dateStr ++ "T" ++ endTime) in
            match slotLoop slotFuel db canteen dateStr endSlotTime duration
                           currentSlotTime resultSlots with
            | None => None
            | Some resultSlots' =>
                dayLoop fuel' slotFuel db canteen finalDay startTime endTime
                  duration (Some (addDays day 1)) resultSlots'
            end
        end
      else Some resultSlots
  | _, _ => Some resultSlots
  end.

(** Calculates available time slots for a canteen within a date/time
    range. *)
Definition calculateSlots (fuel : nat) (db : Db) (canteen : Canteen.t)
  (startDate endDate startTime endTime : string) (duration : Z)
  : option (list Slot.t) :=
  let resultSlots := [] in
  let currentDay := parseDate startDate in
  let finalDay := parseDate endDate in
  dayLoop fuel fuel db canteen finalDay startTime endTime duration
          currentDay resultSlots.

(** Creates a new canteen. Admin only. *)
Definition createCanteen (db : Db) (studentId : option string)
  (body : CanteenBody.t) : Response * Db :=
  if negb (isAdmin db studentId) then (send 403 "Unauthorized", db)
  else
    let name := CanteenBody.name body in
    let location := CanteenBody.location body in
    let capacity := CanteenBody.capacity body in
    let workingHours := CanteenBody.workingHours body in
    if JS.falsyS name || JS.falsyS location || JS.falsyN capacity
       || JS.falsyA workingHours then
      (send 400 "Missing fields", db)
    else
      let newCanteen :=
        Canteen.mk (uuidv4 (uuids db)) (JS.str name) (JS.str location)
                   (JS.num capacity) (JS.arr workingHours) in
      (mkResponse 201 (JsonCanteen newCanteen),
       mkDb (students db) (canteens db ++ [newCanteen])
            (reservations db) (S (uuids db))).

(** [{ ...canteen, ...body }] *)
Definition spread (canteen : Canteen.t) (body : CanteenBody.t) : Canteen.t :=
  let pick {A : Type} (new : option A) (old : A) : A :=
    match new with Some v => v | None => old end in
  Canteen.mk
    (pick (CanteenBody.id body) (Canteen.id canteen))
    (pick (CanteenBody.name body) (Canteen.name canteen))
    (pick (CanteenBody.location body) (Canteen.location canteen))
    (pick (CanteenBody.capacity body) (Canteen.capacity canteen))
    (pick (CanteenBody.workingHours body) (Canteen.workingHours canteen)).

(** Updates a canteen. Admin only. *)
Definition updateCanteen (db : Db) (studentId : option string) (id : string)
  (body : CanteenBody.t) : Response * Db :=
  if negb (isAdmin db studentId) then (sendEmpty 403, db)
  else
    match find (fun c => (Canteen.id c =? id)%string) (canteens db) with
    | None => (sendEmpty 404, db)
    | Some canteen =>
        let updatedCanteen := spread canteen body in
        (mkResponse 200 (JsonCanteen updatedCanteen),
         mkDb (students db)
              (mutateFirst (fun c => (Canteen.id c =? id)%string)
                           (fun _ => updatedCanteen) (canteens db))
              (reservations db) (uuids db))
    end.

(** Deletes a canteen and cancels its reservations. Admin only. *)
Definition deleteCanteen (db : Db) (studentId : option string)
  (canteenId : string) : Response * Db :=
  if negb (isAdmin db studentId) then (sendEmpty 403, db)
  else
    match find (fun c => (Canteen.id c =? canteenId)%string) (canteens db) with
    | None => (sendEmpty 404, db)
    | Some _ =>
        (sendEmpty 204,
         mkDb (students db)
              (removeFirst (fun c => (Canteen.id c =? canteenId)%string)
                           (canteens db))
              (map (fun r =>
                      if (Reservation.canteenId r =? canteenId)%string
                         && Status_eqb (Reservation.status r) Active
                      then Reservation.withStatus Cancelled r
                      else r)
                   (reservations db))
              (uuids db))
    end.

(** The guards that the two status handlers share: the response to a
    query that is refused, or the duration of one that is accepted. *)
Definition statusQueryDuration (query : StatusQuery.t) : Response + Z :=
  if JS.falsyS (StatusQuery.startDate query)
     || JS.falsyS (StatusQuery.endDate query)
     || JS.falsyS (StatusQuery.startTime query)
     || JS.falsyS (StatusQuery.endTime query)
     || JS.falsyS (StatusQuery.duration query)
  then inl (send 400 "Missing query parameters")
  else
    let durationNum := JS.parseInt (StatusQuery.duration query) in
    if negb (JS.strictEq durationNum (JS.Finite 30))
       && negb (JS.strictEq durationNum (JS.Finite 60))
    then inl (send 400 "Duration must be 30 or 60 minutes")
    else inr (JS.integer durationNum).

(** Returns availability slots for all canteens. *)
Definition getGlobalStatus (fuel : nat) (db : Db) (query : StatusQuery.t)
  : option Response :=
  match statusQueryDuration query with
  | inl refused => Some refused
  | inr durationNum =>
      option_map (fun response => mkResponse 200 (JsonGlobalStatus response))
        (mapOption
           (fun c =>
              option_map (fun slots => (Canteen.id c, slots))
                (calculateSlots fuel db c
                   (JS.str (StatusQuery.startDate query))
                   (JS.str (StatusQuery.endDate query))
                   (JS.str (StatusQuery.startTime query))
                   (JS.str (StatusQuery.endTime query))
                   durationNum))
           (canteens db))
  end.

(** Returns availability slots for a specific canteen. *)
Definition getCanteenStatus (fuel : nat) (db : Db) (id : string)
  (query : StatusQuery.t) : option Response :=
  match find (fun c => (Canteen.id c =? id)%string) (canteens db) with
  | None => Some (sendEmpty 404)
  | Some canteen =>
      match statusQueryDuration query with
      | inl refused => Some refused
      | inr durationNum =>
          option_map
            (fun slots => mkResponse 200 (JsonStatus (Canteen.id canteen) slots))
            (calculateSlots fuel db canteen
               (JS.str (StatusQuery.startDate query))
               (JS.str (StatusQuery.endDate query))
               (JS.str (StatusQuery.startTime query))
               (JS.str (StatusQuery.endTime query))
               durationNum)
      end
  end.

(* ------------------------------------------------------------------ *)
(** ** Sequences of requests (routes/index.ts) *)

Inductive Op :=
| PostStudent (body : StudentBody.t)
| PostCanteen (studentId : option string) (body : CanteenBody.t)
| PutCanteen (studentId : option string) (id : string) (body : CanteenBody.t)
| DeleteCanteen (studentId : option string) (id : string)
| PostReservation (body : ReservationBody.t) (now : Z)
| DeleteReservation (id : string).

Definition handle (db : Db) (op : Op) : Response * Db :=
  match op with
  | PostStudent body => createStudent db body
  | PostCanteen studentId body => createCanteen db studentId body
  | PutCanteen studentId id body => updateCanteen db studentId id body
  | DeleteCanteen studentId id => deleteCanteen db studentId id
  | PostReservation body now => createReservation db body now
  | DeleteReservation id => cancelReservation db id
  end.

(** The database after the requests [ops], served in order from [db]. *)
Definition serve (db : Db) (ops : list Op) : Db :=
  fold_left (fun db op => snd (handle db op)) ops db.

End Controllers.

(* ------------------------------------------------------------------ *)
(** ** The handlers that only read *)

(** Retrieves a student by ID. Returns 404 if not found. *)
Definition getStudent (db : Db) (id : string) : Response :=
  match find (fun s => (Student.id s =? id)%string) (students db) with
  | None => sendEmpty 404
  | Some student => mkResponse 200 (JsonStudent student)
  end.

(** Returns a canteen by ID. Returns 404 if not found. *)
Definition getCanteenById (db : Db) (id : string) : Response :=
  match find (fun c => (Canteen.id c =? id)%string) (canteens db) with
  | None => sendEmpty 404
  | Some canteen => mkResponse 200 (JsonCanteen canteen)
  end.

(* ------------------------------------------------------------------ *)
(** ** The validator as the specification words it

    The specification names nine rejection reasons, gives each a check of
    its own and fixes their precedence.  These definitions follow its
    words; the theorems compare them with [createReservation]. *)

Inductive RejectionReason :=
| MissingFields
| StudentNotFound
| InvalidDuration
| InvalidTimeSlot
| PastReservation
| CanteenNotFound
| OutsideWorkingHours
| StudentDoubleBooked
| CapacityExceeded.

(** The user-facing message of each reason. *)
Definition message (reason : RejectionReason) : string :=
  match reason with
  | MissingFields => "Missing required fields"
  | StudentNotFound => "Student not found"
  | InvalidDuration => "Duration must be 30 or 60 minutes"
  | InvalidTimeSlot => "Time must start on the hour or half hour"
  | PastReservation => "Cannot create reservations in the past"
  | CanteenNotFound => "Canteen not found"
  | OutsideWorkingHours => "Reservation is outside of working hours"
  | StudentDoubleBooked => "Student already has a reservation at this time"
  | CapacityExceeded => "Canteen capacity reached for this slot"
  end.

(** The response that reports a rejection. *)
Definition reject (reason : RejectionReason) : Response :=
  send 400 (message reason).

(** The order in which the specification lists the checks. *)
Definition precedence : list RejectionReason :=
  [MissingFields; StudentNotFound; InvalidDuration; InvalidTimeSlot;
   PastReservation; CanteenNotFound; OutsideWorkingHours;
   StudentDoubleBooked; CapacityExceeded].

(** [onGrid(time)]: the minute component is exactly "00" or "30". *)
Definition onGrid (time : string) : bool :=
  JS.strictEqS (JS.index (JS.split ":" time) 1) "00"
  || JS.strictEqS (JS.index (JS.split ":" time) 1) "30".

Section ValidatorSpec.
Context {imports : Imports}.

Definition findStudentById (db : Db) (id : string) : option Student.t :=
  find (fun s => (Student.id s =? id)%string) (students db).

Definition findCanteenById (db : Db) (id : string) : option Canteen.t :=
  find (fun c => (Canteen.id c =? id)%string) (canteens db).

Definition requestStart (body : ReservationBody.t) : Date :=
  parseDateTime (JS.str (ReservationBody.date body) ++ "T"
                 ++ JS.str (ReservationBody.time body)).

Definition requestEnd (body : ReservationBody.t) : Date :=
  DateFns.addMinutes (requestStart body)
                     (JS.num (ReservationBody.duration body)).

(** Whether the check that reports [reason] fails for the request, each
    check taken by itself. *)
Definition fails (db : Db) (body : ReservationBody.t) (now : Z)
  (reason : RejectionReason) : bool :=
  let studentId := JS.str (ReservationBody.studentId body) in
  let canteenId := JS.str (ReservationBody.canteenId body) in
  let time := JS.str (ReservationBody.time body) in
  let duration := JS.num (ReservationBody.duration body) in
  match reason with
  | MissingFields =>
      JS.falsyS (ReservationBody.studentId body)
      || JS.falsyS (ReservationBody.canteenId body)
      || JS.falsyS (ReservationBody.date body)
      || JS.falsyS (ReservationBody.time body)
      || JS.falsyN (ReservationBody.duration body)
  | StudentNotFound =>
      match findStudentById db studentId with Some _ => false | None => true end
  | InvalidDuration => negb ((duration =? 30) || (duration =? 60))
  | InvalidTimeSlot => negb (onGrid time)
  | PastReservation => DateFns.isBefore (requestStart body) (Some now)
  | CanteenNotFound =>
      match findCanteenById db canteenId with Some _ => false | None => true end
  | OutsideWorkingHours =>
      match findCanteenById db canteenId with
      | Some canteen =>
          negb (existsb (fitsBlock time duration) (Canteen.workingHours canteen))
      | None => false
      end
  | StudentDoubleBooked =>
      existsb (overlapsStudent studentId (requestStart body) (requestEnd body))
              (reservations db)
  | CapacityExceeded =>
      match findCanteenById db canteenId with
      | Some canteen =>
          Z.of_nat (List.length
            (filter (overlapsCanteen canteenId (requestStart body)
                                     (requestEnd body))
                    (reservations db)))
          >=? Canteen.capacity canteen
      | None => false
      end
  end.

(** The first check, in the order of [precedence], that fails. *)
Definition firstFailure (db : Db) (body : ReservationBody.t) (now : Z)
  : option RejectionReason :=
  find (fails db body now) precedence.

(** The record a successful request creates. *)
Definition created (db : Db) (body : ReservationBody.t) : Reservation.t :=
  Reservation.mk (uuidv4 (uuids db))
    (JS.str (ReservationBody.studentId body))
    (JS.str (ReservationBody.canteenId body))
    (JS.str (ReservationBody.date body))
    (JS.str (ReservationBody.time body))
    (JS.num (ReservationBody.duration body))
    Active.

(** The database after a successful request. *)
Definition appended (db : Db) (body : ReservationBody.t) : Db :=
  mkDb (students db) (canteens db) (reservations db ++ [created db body])
       (S (uuids db)).

End ValidatorSpec.

(* ------------------------------------------------------------------ *)
(** ** Invariants of the store *)

(** [after] is [before], or [before] with status Cancelled. *)
Definition cancelledOrSame (before after : Reservation.t) : Prop :=
  after = before \/ after = Reservation.withStatus Cancelled before.

Section Intervals.
Context {imports : Imports}.


(** The same, decided. *)
Definition spansb (tau : Z) (r : Reservation.t) : bool :=
  JS.le (startOf r) (Some tau) && JS.lt (Some tau) (endOf r).

(** The Active reservations of the canteen whose interval contains [tau]. *)
Definition activeAt (db : Db) (canteen : Canteen.t) (tau : Z)
  : list Reservation.t :=
  filter (fun r =>
            (Reservation.canteenId r =? Canteen.id canteen)%string
            && Status_eqb (Reservation.status r) Active
            && spansb tau r)
         (reservations db).


(** What every stored reservation owes to the validator: a duration of 30
    or 60 minutes, a time on the half-hour grid, fields that are not empty
    and a student who is stored. *)
Definition wellFormed (db : Db) (r : Reservation.t) : Prop :=
  (Reservation.duration r = 30 \/ Reservation.duration r = 60)
  /\ onGrid (Reservation.time r) = true
  /\ Reservation.studentId r <> ""
  /\ Reservation.canteenId r <> ""
  /\ Reservation.date r <> ""
  /\ exists s, In s (students db) /\ Student.id s = Reservation.studentId r.

(** The identifier is one that [uuidv4] has already returned. *)
Definition drawn (db : Db) (id : string) : Prop :=
  exists n, (n < uuids db)%nat /\ id = uuidv4 n.

(** The identifiers of the students and of the reservations. *)
Definition idsOf (db : Db) : list string :=
  (map Student.id (students db) ++ map Reservation.id (reservations db))%list.


(** The request, served on [db], creates a canteen with a capacity that is
    not negative, or updates a canteen without changing its id or lowering
    its capacity, or changes no canteen in another way: a creation that is
    not answered 201 and an update that is not answered 200 change none. *)
Definition keepsCapacity (db : Db) (op : Op) : bool :=
  match op with
  | PostCanteen studentId body =>
      negb (statusCode (fst (createCanteen db studentId body)) =? 201)
      || (0 <=? JS.num (CanteenBody.capacity body))
  | PutCanteen studentId id body =>
      negb (statusCode (fst (updateCanteen db studentId id body)) =? 200)
      || (match CanteenBody.id body with
          | Some newId => (newId =? id)%string
          | None => true
          end
          && match findCanteenById db id, CanteenBody.capacity body with
             | Some canteen, Some capacity =>
                 Canteen.capacity canteen <=? capacity
             | _, _ => true
             end)
  | _ => true
  end.

(** Every request of the sequence, served in order from [db], keeps the
    capacities. *)
Fixpoint keepCapacity (db : Db) (ops : list Op) : bool :=
  match ops with
  | [] => true
  | op :: ops' => keepsCapacity db op && keepCapacity (snd (handle db op)) ops'
  end.

End Intervals.

(* ------------------------------------------------------------------ *)
(** ** The slot calculator as the specification words it *)

(** [n] values from [first], [step] apart. *)
Fixpoint stepping (n : nat) (first step : Z) : list Z :=
  match n with
  | O => []
  | S n' => first :: stepping n' (first + step) step
  end.

(** The values [first], [first + step], ... that are below [bound]. *)
Definition steppingBelow (first bound step : Z) : list Z :=
  stepping (Z.to_nat ((bound - first - 1) / step + 1)) first step.

Section SlotSpec.
Context {imports : Imports}.

(** The days that [addDays] reaches from [day], one after the other, as
    long as they are not after [last]; [n] bounds their number. *)
Fixpoint daysUpTo (n : nat) (day last : Z) : list Z :=
  match n with
  | O => []
  | S n' =>
      if day <=? last then day :: daysUpTo n' (addDays day 1) last else []
  end.

(** The days from [startDate] to [endDate]: those that [addDays] reaches
    from the first without passing the last.  No more of them fit between
    the two than the bound allows. *)
Definition daysOfRange (startDate endDate : string) : list Z :=
  match parseDate startDate, parseDate endDate with
  | Some first, Some last =>
      daysUpTo (Z.to_nat ((last - first) / shortestDay + 1)) first last
  | _, _ => []
  end.

(** The candidate starts of a day: from [startTime], [duration] minutes
    apart, up to [endTime] excluded. *)
Definition candidatesOfDay (day : Z) (startTime endTime : string)
  (duration : Z) : list Z :=
  match parseDateTime (formatDate day ++ "T" ++ startTime),
        parseDateTime (formatDate day ++ "T" ++ endTime) with
  | Some first, Some bound =>
      steppingBelow first bound (duration * DateFns.millisecondsInMinute)
  | _, _ => []
  end.

(** The slot of a candidate: none when the candidate fits no block, and
    otherwise the slot of the first block it fits, with what remains of the
    capacity after the Active reservations that overlap it. *)
Definition slotOfCandidate (db : Db) (canteen : Canteen.t) (day : Z)
  (duration : Z) (candidate : Z) : list Slot.t :=
  let slotStart := Some candidate in
  let slotEnd := Some (candidate + duration * DateFns.millisecondsInMinute) in
  match find (slotFitsBlock (formatDate day) slotStart slotEnd)
             (Canteen.workingHours canteen) with
  | None => []
  | Some block =>
      let count :=
        Z.of_nat (List.length (filter (overlapsSlot canteen slotStart slotEnd)
                                      (reservations db))) in
      [Slot.mk (formatDate day) (WorkingHour.meal block)
               (formatTime candidate)
               (Z.max 0 (Canteen.capacity canteen - count))]
  end.

Definition slotsOfDay (db : Db) (canteen : Canteen.t)
  (startTime endTime : string) (duration : Z) (day : Z) : list Slot.t :=
  flat_map (slotOfCandidate db canteen day duration)
           (candidatesOfDay day startTime endTime duration).

Definition slotsOfRange (db : Db) (canteen : Canteen.t)
  (startDate endDate startTime endTime : string) (duration : Z)
  : list Slot.t :=
  flat_map (slotsOfDay db canteen startTime endTime duration)
           (daysOfRange startDate endDate).

(** Iterations that suffice for every loop of the calculation. *)
Definition enoughFuel (startDate endDate startTime endTime : string)
  (duration : Z) : nat :=
  List.length (daysOfRange startDate endDate)
  + list_max (map (fun day => List.length
                      (candidatesOfDay day startTime endTime duration))
                  (daysOfRange startDate endDate)).

End SlotSpec.

(* ------------------------------------------------------------------ *)
(** ** The working hours as the specification words them *)

(** The value of a decimal digit. *)
Definition digitOf (c : ascii) : Z := Z.of_nat (nat_of_ascii c) - 48.

(** The minute offset within the day of a clock time in the format HH:mm,
    the format that [isValidTimeFormat] accepts: 60 * HH + mm. *)
Definition clockOffset (time : string) : option Z :=
  if isValidTimeFormat time then
    match list_ascii_of_string time with
    | [h; _; m1; m2] =>
        Some (60 * digitOf h + (10 * digitOf m1 + digitOf m2))
    | [h1; h2; _; m1; m2] =>
        Some (60 * (10 * digitOf h1 + digitOf h2)
              + (10 * digitOf m1 + digitOf m2))
    | _ => None
    end
  else None.

(** "Fits entirely": the interval from [time], [duration] minutes long, lies
    within one block of [blocks], in minute offsets of the day. *)
Definition fitsSingleBlock (time : string) (duration : Z)
  (blocks : list WorkingHour.t) : Prop :=
  exists block start from to,
    In block blocks
    /\ clockOffset time = Some start
    /\ clockOffset (WorkingHour.from block) = Some from
    /\ clockOffset (WorkingHour.to block) = Some to
    /\ start >= from /\ start + duration <= to.

(** The same test of one block on whatever the texts are, with the
    Numbers that the controller reads from them. *)
Definition fitsAsRead (time : string) (duration : Z) (block : WorkingHour.t)
  : Prop :=
  JS.geN (minutesOfDay time) (minutesOfDay (WorkingHour.from block)) = true
  /\ JS.leN (JS.add (minutesOfDay time) (JS.Finite duration))
            (minutesOfDay (WorkingHour.to block)) = true.

(** The controller reads the clock time as its offset, a whole number of
    minutes of one day. *)
Definition readsClock (time : string) : bool :=
  match clockOffset time with
  | Some n =>
      JS.strictEq (minutesOfDay time) (JS.Finite n)
      && (0 <=? n) && (n <? 1440)
  | None => false
  end.

(* ------------------------------------------------------------------ *)
(** ** An implementation of the imports: counted identifiers and the
       proleptic Gregorian calendar on a host whose local time is UTC *)

Module Gregorian.

(** At least one and at most [n] decimal digits, read greedily, as date-fns
    reads a numeric token of length [n]. *)
Fixpoint readDigits (n : nat) (s : string) (acc : option Z)
  : option Z * string :=
  match n, s with
  | S n', String c s' =>
      match JS.digitValue 10 c with
      | Some d => readDigits n' s' (Some (JS.num acc * 10 + d))
      | None => (acc, s)
      end
  | _, _ => (acc, s)
  end.

Definition expect (c : ascii) (s : string) : option string :=
  match s with
  | String c' s' => if Ascii.eqb c c' then Some s' else None
  | EmptyString => None
  end.

Definition isLeapYear (y : Z) : bool :=
  ((y mod 4 =? 0) && negb (y mod 100 =? 0)) || (y mod 400 =? 0).

Definition daysInMonth (y m : Z) : Z :=
  if m =? 2 then (if isLeapYear y then 29 else 28)
  else if (m =? 4) || (m =? 6) || (m =? 9) || (m =? 11) then 30
  else 31.

(** Days from 1970-01-01 to the given civil date. *)
Definition daysFromCivil (y m d : Z) : Z :=
  let y' := if m <=? 2 then y - 1 else y in
  let era := y' / 400 in
  let yoe := y' - era * 400 in
  let mp := (m + 9) mod 12 in
  let doy := (153 * mp + 2) / 5 + d - 1 in
  let doe := yoe * 365 + yoe / 4 - yoe / 100 + doy in
  era * 146097 + doe - 719468.

(** The civil date of a day number. *)
Definition civilFromDays (z : Z) : Z * Z * Z :=
  let z' := z + 719468 in
  let era := z' / 146097 in
  let doe := z' - era * 146097 in
  let yoe := (doe - doe / 1460 + doe / 36524 - doe / 146096) / 365 in
  let doy := doe - (365 * yoe + yoe / 4 - yoe / 100) in
  let mp := (5 * doy + 2) / 153 in
  let d := doy - (153 * mp + 2) / 5 + 1 in
  let m := if mp <? 10 then mp + 3 else mp - 9 in
  let y := yoe + era * 400 in
  (if m <=? 2 then y + 1 else y, m, d).

(** Reads [yyyy-MM-dd] at the head of [s]: the day number and the rest.
    The year is at least 1, the month from 1 to 12 and the day one of the
    month. *)
Definition readDate (s : string) : option (Z * string) :=
  match readDigits 4 s None with
  | (Some y, s1) =>
    match expect "-" s1 with
    | Some s2 =>
      match readDigits 2 s2 None with
      | (Some m, s3) =>
        match expect "-" s3 with
        | Some s4 =>
          match readDigits 2 s4 None with
          | (Some d, s5) =>
              if (1 <=? y) && (1 <=? m) && (m <=? 12)
                 && (1 <=? d) && (d <=? daysInMonth y m)
              then Some (daysFromCivil y m d, s5)
              else None
          | _ => None
          end
        | None => None
        end
      | _ => None
      end
    | None => None
    end
  | _ => None
  end.

(** Reads [HH:mm] at the head of [s]: the minute of the day and the rest. *)
Definition readTime (s : string) : option (Z * string) :=
  match readDigits 2 s None with
  | (Some h, s1) =>
    match expect ":" s1 with
    | Some s2 =>
      match readDigits 2 s2 None with
      | (Some m, s3) =>
          if (h <=? 23) && (m <=? 59) then Some (h * 60 + m, s3) else None
      | _ => None
      end
    | None => None
    end
  | _ => None
  end.

Definition parseDate (s : string) : Date :=
  match readDate s with
  | Some (day, rest) =>
      if JS.allWhiteSpace rest then Some (day * DateFns.millisecondsInDay)
      else None
  | None => None
  end.

Definition parseDateTime (s : string) : Date :=
  match readDate s with
  | Some (day, s1) =>
    match expect "T" s1 with
    | Some s2 =>
      match readTime s2 with
      | Some (minute, rest) =>
          if JS.allWhiteSpace rest then
            Some (day * DateFns.millisecondsInDay
                  + minute * DateFns.millisecondsInMinute)
          else None
      | None => None
      end
    | None => None
    end
  | None => None
  end.

Fixpoint zeros (n : nat) : string :=
  match n with
  | O => EmptyString
  | S n' => String "0" (zeros n')
  end.

(** [addLeadingZeros(number, targetLength)] of a number that is not
    negative. *)
Definition addLeadingZeros (number : Z) (targetLength : nat) : string :=
  let output := NilEmpty.string_of_uint (N.to_uint (Z.to_N number)) in
  zeros (targetLength - String.length output) ++ output.

(** The year is written as date-fns writes it: a year before year 1 by
    its count before the era. *)
Definition formatDate (t : Z) : string :=
  let '(y, m, d) := civilFromDays (t / DateFns.millisecondsInDay) in
  addLeadingZeros (if 0 <? y then y else 1 - y) 4
  ++ "-" ++ addLeadingZeros m 2 ++ "-" ++ addLeadingZeros d 2.

Definition formatTime (t : Z) : string :=
  let minute := (t mod DateFns.millisecondsInDay) / DateFns.millisecondsInMinute in
  addLeadingZeros (minute / 60) 2 ++ ":" ++ addLeadingZeros (minute mod 60) 2.

(** [setDate(getDate() + amount)] where local time is UTC. *)
Definition addDays (d amount : Z) : Z :=
  d + amount * DateFns.millisecondsInDay.


(** Identifiers in the order they are drawn. *)
Definition uuidv4 (n : nat) : string :=
  "uuid-" ++ NilEmpty.string_of_uint (Nat.to_uint n).

#[export] Instance imports : Imports :=
  Build_Imports uuidv4 parseDateTime parseDate formatDate formatTime
                addDays DateFns.millisecondsInDay eq_refl
                (fun d => Z.le_refl (d + DateFns.millisecondsInDay)).

End Gregorian.

(* ------------------------------------------------------------------ *)
(** ** The imports on a host whose clock changes once

    Local time is UTC plus [before] up to the instant [change] and UTC
    plus [after] from then on.  The civil fields of a date are those of
    its local time; a local time that the change skips is read with the
    offset of before the change, and so is a local time that the change
    repeats, which is then the first of its two instants.  This is how the
    language reads local fields; [parse] and [addDays] set local fields
    and [format] reads them. *)

Module Zone.

Record t := mk { change : Z; before : Z; after : Z }.

(** LocalTime *)
Definition toLocal (z : t) (u : Z) : Z :=
  u + (if u <? change z then before z else after z).

(** UTC *)
Definition fromLocal (z : t) (l : Z) : Z :=
  if l - before z <? change z then l - before z
  else if change z <=? l - after z then l - after z
  else l - before z.

Definition parseDateTime (z : t) (s : string) : Date :=
  option_map (fromLocal z) (Gregorian.parseDateTime s).

Definition parseDate (z : t) (s : string) : Date :=
  option_map (fromLocal z) (Gregorian.parseDate s).

Definition formatDate (z : t) (u : Z) : string :=
  Gregorian.formatDate (toLocal z u).

Definition formatTime (z : t) (u : Z) : string :=
  Gregorian.formatTime (toLocal z u).

(** [setDate(getDate() + amount)]: the local time of day is kept. *)
Definition addDays (z : t) (d amount : Z) : Z :=
  fromLocal z (toLocal z d + amount * DateFns.millisecondsInDay).


(** A day is shorter than 24 hours by no more than the clock moves. *)
Definition shortestDay (z : t) : Z :=
  DateFns.millisecondsInDay - Z.abs (after z - before z).

Lemma addDays_shortestDay (z : t) (d : Z) :
  d + shortestDay z <= addDays z d 1.
Proof.
  unfold addDays, shortestDay, fromLocal, toLocal,
    DateFns.millisecondsInDay.
  repeat match goal with
         | |- context [if ?b then _ else _] => destruct b eqn:?
         end;
    rewrite ?Z.ltb_lt, ?Z.ltb_ge, ?Z.leb_le, ?Z.leb_gt in *; lia.
Qed.

(** The imports on the timeline [z], whose clock moves by less than a
    day. *)
Definition imports (z : t)
  (Hshift : Z.abs (after z - before z) < DateFns.millisecondsInDay)
  : Imports :=
  Build_Imports Gregorian.uuidv4 (parseDateTime z) (parseDate z)
                (formatDate z) (formatTime z) (addDays z) (shortestDay z)
                (proj2 (Z.lt_0_sub _ _) Hshift) (addDays_shortestDay z).





End Zone.

(* ------------------------------------------------------------------ *)
(** ** A small campus, used by the examples *)

Module Sample.

Definition hours : list WorkingHour.t :=
  [WorkingHour.mk breakfast "07:00" "10:00";
   WorkingHour.mk lunch "11:00" "15:00";
   WorkingHour.mk dinner "17:00" "20:00"].

(** An administrator (uuid-0), a canteen for two (uuid-1) and two students
    (uuid-2 and uuid-3). *)
Definition setup : list Op :=
  [PostStudent (StudentBody.mk (Some "Admin") (Some "admin@test.com") (Some true));
   PostCanteen (Some "uuid-0")
     (CanteenBody.mk None (Some "Velika Menza") (Some "Novi Sad") (Some 2)
                     (Some hours));
   PostStudent (StudentBody.mk (Some "Ana") (Some "ana@test.com") None);
   PostStudent (StudentBody.mk (Some "Boris") (Some "boris@test.com") None)].

Definition campus : Db := serve (imports := Gregorian.imports) emptyDb setup.

(** A request of the given student for the canteen on 2025-12-05. *)
Definition request (studentId time : string) (duration : Z)
  : ReservationBody.t :=
  ReservationBody.mk (Some studentId) (Some "uuid-1") (Some "2025-12-05")
                     (Some time) (Some duration).

(** 2025-12-01T00:00, the clock of the examples. *)
Definition now : Z := 1764547200000.

(** 2025-12-05T11:00. *)
Definition elevenOClock : Z := 1764932400000.

(** Ana and Boris both book 11:00-11:30. *)
Definition booked : list Op :=
  (setup ++ [PostReservation (request "uuid-2" "11:00" 30) now;
             PostReservation (request "uuid-3" "11:00" 30) now])%list.



Definition canteen : Canteen.t :=
  Canteen.mk "uuid-1" "Velika Menza" "Novi Sad" 2 hours.

(** Ana books 11:00-12:00 and then 12:00-12:30. *)
Definition touching : list Op :=
  (setup ++ [PostReservation (request "uuid-2" "11:00" 60) now;
             PostReservation (request "uuid-2" "12:00" 30) now])%list.

Definition anaAt11 : Reservation.t :=
  Reservation.mk "uuid-4" "uuid-2" "uuid-1" "2025-12-05" "11:00" 60 Active.

Definition anaAt12 : Reservation.t :=
  Reservation.mk "uuid-5" "uuid-2" "uuid-1" "2025-12-05" "12:00" 30 Active.

(** Ana has booked 11:00-11:30. *)
Definition anaBooked : Db :=
  serve (imports := Gregorian.imports) campus
        [PostReservation (request "uuid-2" "11:00" 30) now].

Definition anaHalfHour : Reservation.t :=
  Reservation.mk "uuid-4" "uuid-2" "uuid-1" "2025-12-05" "11:00" 30 Active.

(** A canteen for one (uuid-1) and a canteen for two (uuid-2); Ana (uuid-3)
    and Boris (uuid-4) book the second at 11:00; then the first canteen is
    given the id of the second. *)
Definition renumbered : list Op :=
  [PostStudent (StudentBody.mk (Some "Admin") (Some "admin@test.com") (Some true));
   PostCanteen (Some "uuid-0")
     (CanteenBody.mk None (Some "Mala Menza") (Some "Novi Sad") (Some 1)
                     (Some hours));
   PostCanteen (Some "uuid-0")
     (CanteenBody.mk None (Some "Velika Menza") (Some "Novi Sad") (Some 2)
                     (Some hours));
   PostStudent (StudentBody.mk (Some "Ana") (Some "ana@test.com") None);
   PostStudent (StudentBody.mk (Some "Boris") (Some "boris@test.com") None);
   PostReservation
     (ReservationBody.mk (Some "uuid-3") (Some "uuid-2") (Some "2025-12-05")
                         (Some "11:00") (Some 30)) now;
   PostReservation
     (ReservationBody.mk (Some "uuid-4") (Some "uuid-2") (Some "2025-12-05")
                         (Some "11:00") (Some 30)) now;
   PutCanteen (Some "uuid-0") "uuid-1"
     (CanteenBody.mk (Some "uuid-2") None None None None)].

Definition renumberedCanteen : Canteen.t :=
  Canteen.mk "uuid-2" "Mala Menza" "Novi Sad" 1 hours.

(** Ana registers, without the isAdmin flag, and then asks for a canteen
    and for a reservation. *)
Definition adminless : list Op :=
  [PostStudent (StudentBody.mk (Some "Ana") (Some "ana@test.com") None);
   PostCanteen (Some "uuid-0")
     (CanteenBody.mk None (Some "Velika Menza") (Some "Novi Sad") (Some 2)
                     (Some hours));
   PostReservation
     (ReservationBody.mk (Some "uuid-0") (Some "uuid-1") (Some "2025-12-05")
                         (Some "11:00") (Some 30)) now].

Definition vera : Student.t :=
  Student.mk "uuid-4" "Vera" "vera@test.com" false.

(** Ana asks twice for 2025-12-05 at "11:00:00", a time that [parse] does
    not read with the pattern HH:mm. *)
Definition twice : list Op :=
  (setup ++ [PostReservation (request "uuid-2" "11:00:00" 30) now;
             PostReservation (request "uuid-2" "11:00:00" 30) now])%list.

(** And Boris asks for the same, in the canteen for two. *)
Definition thrice : list Op :=
  (twice ++ [PostReservation (request "uuid-3" "11:00:00" 30) now])%list.

Definition withoutInstant (id studentId : string) : Reservation.t :=
  Reservation.mk id studentId "uuid-1" "2025-12-05" "11:00:00" 30 Active.

(** A student who is no administrator asks for the capacity of the
    canteen to be lowered to one, and is refused. *)
Definition refused : list Op :=
  (booked ++ [PutCanteen (Some "uuid-2") "uuid-1"
                (CanteenBody.mk None None None (Some 1) None)])%list.

(** A canteen is created with capacity -1. *)
Definition negative : list Op :=
  [PostStudent (StudentBody.mk (Some "Admin") (Some "admin@test.com") (Some true));
   PostCanteen (Some "uuid-0")
     (CanteenBody.mk None (Some "Mala Menza") (Some "Novi Sad") (Some (-1))
                     (Some hours))].

Definition negativeCanteen : Canteen.t :=
  Canteen.mk "uuid-1" "Mala Menza" "Novi Sad" (-1) hours.

End Sample.

(* ------------------------------------------------------------------ *)
(** ** The stores that the repository's tests set up *)

Module Fixture.

(** The store of reservation.test.ts: three students and two canteens. *)
Definition db : Db :=
  mkDb
    [Student.mk "student-1" "Student 1" "student1@test.com" false;
     Student.mk "student-2" "Student 2" "student2@test.com" false;
     Student.mk "student-3" "Student 3" "student3@test.com" false]
    [Canteen.mk "canteen-1" "Main Canteen" "Location 1" 20
       [WorkingHour.mk breakfast "07:00" "10:00";
        WorkingHour.mk lunch "11:00" "15:00";
        WorkingHour.mk dinner "17:00" "20:00"];
     Canteen.mk "canteen-2" "Small Canteen" "Location 2" 10
       [WorkingHour.mk breakfast "07:00" "09:00";
        WorkingHour.mk lunch "11:00" "14:00"]]
    [] 0.

Definition request (canteenId date time : string) (duration : Z)
  : ReservationBody.t :=
  ReservationBody.mk (Some "student-1") (Some canteenId) (Some date)
                     (Some time) (Some duration).

(** Ten reservations of the small canteen on 2025-12-05 at 11:00. *)
Definition ten (duration : Z) (status : Status) : list Reservation.t :=
  map (fun i =>
         Reservation.mk ("res-" ++ Gregorian.uuidv4 i)
                        ("other-" ++ Gregorian.uuidv4 i) "canteen-2"
                        "2025-12-05" "11:00" duration status)
      (seq 0 10).

Definition withReservations (rs : list Reservation.t) : Db :=
  mkDb (students db) (canteens db) rs 0.

(** The canteen of the status tests of canteen.test.ts. *)
Definition statusCanteen : Canteen.t :=
  Canteen.mk "status-canteen" "Status Canteen" "Location" 20
    [WorkingHour.mk breakfast "07:00" "10:00";
     WorkingHour.mk lunch "11:00" "15:00"].

Definition statusDb (rs : list Reservation.t) : Db :=
  mkDb [] [statusCanteen] rs 0.

Definition query (endDate endTime duration : string) : StatusQuery.t :=
  StatusQuery.mk (Some "2025-12-01") (Some endDate) (Some "11:00")
                 (Some endTime) (Some duration).

End Fixture.

(* ------------------------------------------------------------------ *)
(** * Properties *)

(** ** Numbers that may be NaN *)

Lemma JS_lt_Some (a b : Z) : JS.lt (Some a) (Some b) = true <-> a < b.
Proof. unfold JS.lt. apply Z.ltb_lt. Qed.

Lemma JS_le_Some (a b : Z) : JS.le (Some a) (Some b) = true <-> a <= b.
Proof. unfold JS.le. apply Z.leb_le. Qed.

Lemma JS_lt_true (a b : option Z) :
  JS.lt a b = true <-> exists x y, a = Some x /\ b = Some y /\ x < y.
Proof.
  destruct a as [x|], b as [y|]; simpl; split;
    try discriminate; try (intros (? & ? & ? & ? & ?); discriminate).
  - intros H. exists x, y. repeat split. now apply Z.ltb_lt.
  - intros (x' & y' & [= ->] & [= ->] & H). now apply Z.ltb_lt.
Qed.


(** ** The overlap test *)

Lemma isOverlapping_true (startA endA startB endB : Date) :
  isOverlapping startA endA startB endB = true <->
  exists a b c d,
    startA = Some a /\ endA = Some b /\ startB = Some c /\ endB = Some d
    /\ a < d /\ b > c.
Proof.
  unfold isOverlapping, JS.gt. rewrite andb_true_iff, !JS_lt_true. split.
  - intros ((a & d & -> & -> & H1) & (c & b & -> & -> & H2)).
    exists a, b, c, d. repeat split; lia.
  - intros (a & b & c & d & -> & -> & -> & -> & H1 & H2).
    split; [exists a, d | exists c, b]; repeat split; lia.
Qed.


(** ** The validator *)

Section ValidatorProperties.
Context {imports : Imports}.

(** [createReservation] reports the first failing check of [precedence],
    and creates the record when none fails. *)
Lemma createReservation_firstFailure (db : Db) (body : ReservationBody.t)
  (now : Z) :
  createReservation db body now =
  match firstFailure db body now with
  | Some reason => (reject reason, db)
  | None => (mkResponse 201 (JsonReservation (created db body)),
             appended db body)
  end.
Proof.
  unfold createReservation, firstFailure, precedence.
  cbn [find fails].
  destruct (JS.falsyS (ReservationBody.studentId body)
            || JS.falsyS (ReservationBody.canteenId body)
            || JS.falsyS (ReservationBody.date body)
            || JS.falsyS (ReservationBody.time body)
            || JS.falsyN (ReservationBody.duration body)); [reflexivity|].
  unfold findStudentById, findCanteenById.
  destruct (find _ (students db)); [|reflexivity].
  rewrite negb_orb.
  destruct (negb _ && negb _); [reflexivity|].
  unfold onGrid. rewrite negb_orb.
  destruct (negb _ && negb _); [reflexivity|].
  unfold requestEnd, requestStart.
  destruct (DateFns.isBefore _ _); [reflexivity|].
  destruct (find _ (canteens db)); [|reflexivity].
  destruct (negb (existsb _ _)); [reflexivity|].
  destruct (existsb _ (reservations db)); [reflexivity|].
  destruct (_ >=? _); reflexivity.
Qed.

End ValidatorProperties.

Lemma find_first_failing {A : Type} (f : A -> bool) (before : list A)
  (x : A) (after : list A) :
  (forall y, In y before -> f y = false) ->
  f x = true ->
  find f (before ++ x :: after)%list = Some x.
Proof.
  induction before as [|y before IH]; simpl; intros Hbefore Hx.
  - now rewrite Hx.
  - rewrite (Hbefore y) by now left.
    apply IH; auto.
Qed.

Section ValidatorTheorems.
Context {imports : Imports}.

(** C1. [createReservation] performs the nine checks in the order
    MissingFields, StudentNotFound, InvalidDuration, InvalidTimeSlot,
    PastReservation, CanteenNotFound, OutsideWorkingHours,
    StudentDoubleBooked, CapacityExceeded, each short-circuiting: the
    rejection it reports is the first check of that order that fails, and
    when no check fails a new reservation with status Active is appended
    to the store and returned. *)
Theorem createReservation_checks_in_order (db : Db)
  (body : ReservationBody.t) (now : Z) :
  createReservation db body now =
    match find (fails db body now) precedence with
    | Some reason => (reject reason, db)
    | None => (mkResponse 201 (JsonReservation (created db body)),
               appended db body)
    end
  /\ (forall before reason after,
        precedence = (before ++ reason :: after)%list ->
        (forall earlier, In earlier before ->
                         fails db body now earlier = false) ->
        fails db body now reason = true ->
        createReservation db body now = (reject reason, db))
  /\ ((forall reason, fails db body now reason = false) ->
      createReservation db body now =
        (mkResponse 201 (JsonReservation (created db body)),
         appended db body)
      /\ Reservation.status (created db body) = Active
      /\ reservations (appended db body)
         = (reservations db ++ [created db body])%list).
Proof.
  pose proof (createReservation_firstFailure db body now) as E.
  unfold firstFailure in E.
  split; [exact E|]. split.
  - intros before reason after Hp Hbefore Hreason.
    rewrite E, Hp.
    now rewrite (find_first_failing _ before reason after Hbefore Hreason).
  - intros Hnone. split; [|split; reflexivity].
    rewrite E. unfold precedence. cbn [find].
    now rewrite !Hnone.
Qed.

(** C10. A request that [createReservation] rejects, for whatever reason,
    leaves the store as it was: students, canteens, reservations and the
    identifiers drawn are those of before. *)
Theorem createReservation_rejection_keeps_store (db : Db)
  (body : ReservationBody.t) (now : Z) (reason : RejectionReason)
  (Hrejected : fst (createReservation db body now) = reject reason) :
  snd (createReservation db body now) = db.
Proof.
  rewrite createReservation_firstFailure in *.
  destruct (firstFailure db body now); [reflexivity|].
  destruct reason; discriminate Hrejected.
Qed.

(** Every response of [createReservation] is a rejection that keeps the
    store or the creation of the record. *)
Lemma createReservation_outcome (db : Db) (body : ReservationBody.t)
  (now : Z) :
  (exists reason, createReservation db body now = (reject reason, db))
  \/ createReservation db body now
     = (mkResponse 201 (JsonReservation (created db body)), appended db body).
Proof.
  rewrite createReservation_firstFailure.
  destruct (firstFailure db body now) as [reason|]; [left; now exists reason|now right].
Qed.

(** C9, amended. A request whose duration is 0 is reported as
    MissingFields, like a request with an absent or empty string field,
    because 0 is falsy; a duration other than 0, 30 and 60 in a request
    with every field present and an existing student is reported as
    InvalidDuration. *)
Theorem createReservation_zero_duration_is_missing (db : Db)
  (body : ReservationBody.t) (now : Z) :
  (ReservationBody.duration body = Some 0 ->
   createReservation db body now = (reject MissingFields, db))
  /\ (JS.falsyS (ReservationBody.studentId body) = true
      \/ JS.falsyS (ReservationBody.canteenId body) = true
      \/ JS.falsyS (ReservationBody.date body) = true
      \/ JS.falsyS (ReservationBody.time body) = true ->
      createReservation db body now = (reject MissingFields, db))
  /\ (forall duration,
        ReservationBody.duration body = Some duration ->
        duration <> 0 -> duration <> 30 -> duration <> 60 ->
        JS.falsyS (ReservationBody.studentId body) = false ->
        JS.falsyS (ReservationBody.canteenId body) = false ->
        JS.falsyS (ReservationBody.date body) = false ->
        JS.falsyS (ReservationBody.time body) = false ->
        findStudentById db (JS.str (ReservationBody.studentId body)) <> None ->
        createReservation db body now = (reject InvalidDuration, db)).
Proof.
  rewrite createReservation_firstFailure.
  unfold firstFailure, precedence. cbn [find].
  split; [|split].
  - intros Hd. cbn [fails]. rewrite Hd. cbn [JS.falsyN].
    change (0 =? 0) with true. now rewrite !orb_true_r.
  - intros H. cbn [fails].
    destruct H as [-> | [-> | [-> | ->]]]; now rewrite ?orb_true_r.
  - intros duration Hd H0 H30 H60 Hs Hc Hdate Ht Hstudent.
    cbn [fails]. rewrite Hd, Hs, Hc, Hdate, Ht. cbn [JS.falsyN JS.num orb].
    apply Z.eqb_neq in H0, H30, H60. rewrite H0, H30, H60.
    destruct (findStudentById db _); [reflexivity|contradiction].
Qed.

End ValidatorTheorems.

(** ** Numbers *)

(** An integer below 2^53 in magnitude is a Number as it stands. *)
Lemma toNumber_exact (z : Z) :
  Z.abs z < 2 ^ 53 -> JS.toNumber z = JS.Finite z.
Proof.
  intros H. unfold JS.toNumber.
  destruct (Z.ltb_spec (Z.abs z) (2 ^ 53)); [reflexivity|lia].
Qed.

Lemma strictEq_Finite (a : JS.number) (z : Z) :
  JS.strictEq a (JS.Finite z) = true <-> a = JS.Finite z.
Proof.
  destruct a as [|x|n]; simpl; split; try discriminate.
  - intros H. apply Z.eqb_eq in H. now subst.
  - intros [= ->]. apply Z.eqb_refl.
Qed.

(** ** Working hours *)

Lemma inRange_In (lo hi c : ascii) :
  inRange lo hi c = true ->
  In c (map ascii_of_nat
            (seq (nat_of_ascii lo) (S (nat_of_ascii hi) - nat_of_ascii lo))).
Proof.
  unfold inRange. intros H. apply andb_true_iff in H.
  destruct H as [Hlo Hhi]. apply Nat.leb_le in Hlo, Hhi.
  apply in_map_iff. exists (nat_of_ascii c).
  split; [apply ascii_nat_embedding|]. apply in_seq. lia.
Qed.

Local Ltac each_character :=
  repeat match goal with
         | H : _ \/ _ |- _ => destruct H as [H|H]
         | H : False |- _ => destruct H
         end; subst; vm_compute; reflexivity.

(** A time in the format HH:mm is read by the controller, with [split]
    and [parseInt], as 60 * HH + mm. *)
Lemma readsClock_valid (time : string) :
  isValidTimeFormat time = true -> readsClock time = true.
Proof.
  intros Hvalid. unfold isValidTimeFormat in Hvalid.
  destruct time as [|c1 [|c2 [|c3 [|c4 [|c5 [|c6 rest]]]]]];
    simpl in Hvalid; try discriminate Hvalid.
  - rewrite !andb_true_iff in Hvalid.
    destruct Hvalid as [[[H1 H2] H3] H4].
    apply Ascii.eqb_eq in H2. subst c2.
    apply inRange_In in H1, H3, H4. simpl in H1, H3, H4.
    each_character.
  - rewrite !andb_true_iff, orb_true_iff, !andb_true_iff in Hvalid.
    destruct Hvalid as [[[Hh H3] H4] H5].
    apply Ascii.eqb_eq in H3. subst c3.
    apply inRange_In in H4, H5. simpl in H4, H5.
    destruct Hh as [[H1 H2]|[H1 H2]].
    + apply inRange_In in H1, H2. simpl in H1, H2. each_character.
    + apply Ascii.eqb_eq in H1. subst c1.
      apply inRange_In in H2. simpl in H2. each_character.
Qed.

Lemma clockOffset_valid (time : string) :
  isValidTimeFormat time = true -> exists n, clockOffset time = Some n.
Proof.
  intros Hvalid. pose proof (readsClock_valid time Hvalid) as H.
  unfold readsClock in H.
  destruct (clockOffset time) as [n|]; [now exists n|discriminate].
Qed.

Lemma minutesOfDay_clockOffset (time : string) (n : Z) :
  clockOffset time = Some n ->
  minutesOfDay time = JS.Finite n /\ 0 <= n < 1440.
Proof.
  intros Hn.
  assert (isValidTimeFormat time = true) as Hvalid.
  { unfold clockOffset in Hn.
    destruct (isValidTimeFormat time); [reflexivity|discriminate]. }
  pose proof (readsClock_valid time Hvalid) as H.
  unfold readsClock in H. rewrite Hn in H.
  rewrite !andb_true_iff, strictEq_Finite in H.
  destruct H as [[-> Hlo] Hhi]. split; [reflexivity|lia].
Qed.

(** The test of one block, on the Numbers that the controller reads. *)
Lemma fitsBlock_true (time : string) (duration : Z) (wh : WorkingHour.t) :
  fitsBlock time duration wh = true <-> fitsAsRead time duration wh.
Proof. unfold fitsBlock, fitsAsRead. apply andb_true_iff. Qed.

(** The test of one block on clock times: integer comparisons of minute
    offsets. *)
Lemma fitsBlock_clock (time : string) (duration : Z) (wh : WorkingHour.t)
  (start from to : Z) :
  clockOffset time = Some start ->
  clockOffset (WorkingHour.from wh) = Some from ->
  clockOffset (WorkingHour.to wh) = Some to ->
  Z.abs duration < 2 ^ 52 ->
  fitsBlock time duration wh = true <->
  start >= from /\ start + duration <= to.
Proof.
  intros Hstart Hfrom Hto Hduration.
  apply minutesOfDay_clockOffset in Hstart, Hfrom, Hto.
  destruct Hstart as [Hstart ?], Hfrom as [Hfrom ?], Hto as [Hto ?].
  unfold fitsBlock. rewrite Hstart, Hfrom, Hto. simpl JS.add.
  change (2 ^ 52) with 4503599627370496 in Hduration.
  rewrite toNumber_exact
    by (change (2 ^ 53) with 9007199254740992; lia).
  unfold JS.geN, JS.leN.
  rewrite andb_true_iff, !Z.leb_le. lia.
Qed.

Lemma fitsInSchedule_true (time : string) (duration : Z)
  (blocks : list WorkingHour.t) :
  isValidTimeFormat time = true ->
  Forall (fun block =>
            isValidTimeFormat (WorkingHour.from block) = true
            /\ isValidTimeFormat (WorkingHour.to block) = true) blocks ->
  Z.abs duration < 2 ^ 52 ->
  existsb (fitsBlock time duration) blocks = true <->
  fitsSingleBlock time duration blocks.
Proof.
  intros Htime Hblocks Hduration.
  rewrite existsb_exists. unfold fitsSingleBlock.
  rewrite Forall_forall in Hblocks.
  destruct (clockOffset_valid time Htime) as (start & Hstart).
  split.
  - intros (wh & Hin & Hfits).
    destruct (Hblocks wh Hin) as [Hfrom Hto].
    destruct (clockOffset_valid _ Hfrom) as (from & Hfrom').
    destruct (clockOffset_valid _ Hto) as (to & Hto').
    exists wh, start, from, to.
    rewrite (fitsBlock_clock time duration wh start from to) in Hfits
      by assumption.
    tauto.
  - intros (wh & start' & from & to & Hin & Hstart' & Hfrom & Hto & H).
    exists wh. split; [exact Hin|].
    now apply (fitsBlock_clock time duration wh start' from to).
Qed.

Section WorkingHoursTheorems.
Context {imports : Imports}.

(** C2. A request that reaches the working-hours check is rejected there,
    with OutsideWorkingHours, exactly when no single block of the canteen,
    taken by itself, has start >= block.from and
    start + duration <= block.to, the three being the Numbers that the
    controller reads from the texts.  A time in the format HH:mm is read
    as the minute offset 60 * HH + mm of the day, so that for a request
    and a canteen with times in that format the request is rejected
    exactly when its interval fits entirely within no single block, in
    minute offsets of the day, and passes the check exactly when it fits
    one.  A request that spans two blocks fits neither: with blocks
    07:00-10:00 and 11:00-15:00 a 30-minute request at 10:00 is rejected,
    and with blocks 07:00-10:00 and 10:00-15:00, which leave no gap, so is
    a 60-minute request at 09:30; a 30-minute request at 11:00 passes. *)
Theorem working_hours_single_block (db : Db) (body : ReservationBody.t)
  (now : Z) (canteen : Canteen.t)
  (Hreaches : forall earlier,
      In earlier [MissingFields; StudentNotFound; InvalidDuration;
                  InvalidTimeSlot; PastReservation; CanteenNotFound] ->
      fails db body now earlier = false)
  (Hcanteen : findCanteenById db (JS.str (ReservationBody.canteenId body))
              = Some canteen) :
  (createReservation db body now = (reject OutsideWorkingHours, db) <->
   forall block,
     In block (Canteen.workingHours canteen) ->
     ~ fitsAsRead (JS.str (ReservationBody.time body))
                  (JS.num (ReservationBody.duration body)) block)
  /\ (createReservation db body now <> (reject OutsideWorkingHours, db) <->
      exists block,
        In block (Canteen.workingHours canteen)
        /\ fitsAsRead (JS.str (ReservationBody.time body))
                      (JS.num (ReservationBody.duration body)) block)
  /\ (forall time offset,
        clockOffset time = Some offset ->
        minutesOfDay time = JS.Finite offset /\ 0 <= offset < 1440)
  /\ (isValidTimeFormat (JS.str (ReservationBody.time body)) = true ->
      Forall (fun block =>
                isValidTimeFormat (WorkingHour.from block) = true
                /\ isValidTimeFormat (WorkingHour.to block) = true)
             (Canteen.workingHours canteen) ->
      (createReservation db body now = (reject OutsideWorkingHours, db) <->
       ~ fitsSingleBlock (JS.str (ReservationBody.time body))
                         (JS.num (ReservationBody.duration body))
                         (Canteen.workingHours canteen))
      /\ (createReservation db body now <> (reject OutsideWorkingHours, db)
          <-> fitsSingleBlock (JS.str (ReservationBody.time body))
                              (JS.num (ReservationBody.duration body))
                              (Canteen.workingHours canteen)))
  /\ (Canteen.workingHours canteen
      = [WorkingHour.mk breakfast "07:00" "10:00";
         WorkingHour.mk lunch "11:00" "15:00"] ->
      (ReservationBody.time body = Some "10:00" ->
       ReservationBody.duration body = Some 30 ->
       createReservation db body now = (reject OutsideWorkingHours, db))
      /\ (ReservationBody.time body = Some "11:00" ->
          ReservationBody.duration body = Some 30 ->
          createReservation db body now <> (reject OutsideWorkingHours, db)))
  /\ (Canteen.workingHours canteen
      = [WorkingHour.mk breakfast "07:00" "10:00";
         WorkingHour.mk lunch "10:00" "15:00"] ->
      ReservationBody.time body = Some "09:30" ->
      ReservationBody.duration body = Some 60 ->
      createReservation db body now = (reject OutsideWorkingHours, db)).
Proof.
  assert (createReservation db body now = (reject OutsideWorkingHours, db) <->
          existsb (fitsBlock (JS.str (ReservationBody.time body))
                             (JS.num (ReservationBody.duration body)))
                  (Canteen.workingHours canteen) = false) as Hcheck.
  { rewrite createReservation_firstFailure.
    unfold firstFailure, precedence. cbn [find].
    rewrite !Hreaches by (simpl; tauto).
    cbn [fails]. rewrite Hcanteen.
    destruct (existsb _ (Canteen.workingHours canteen)); cbn [negb].
    - split; [|discriminate].
      intros H.
      destruct (existsb _ (reservations db)); [discriminate H|].
      destruct (_ >=? _); discriminate H.
    - split; reflexivity. }
  assert (Z.abs (JS.num (ReservationBody.duration body)) < 2 ^ 52)
    as Hduration.
  { pose proof (Hreaches InvalidDuration ltac:(simpl; tauto)) as H3.
    cbn [fails] in H3. apply negb_false_iff, orb_true_iff in H3.
    change (2 ^ 52) with 4503599627370496.
    destruct H3 as [H3|H3]; apply Z.eqb_eq in H3; lia. }
  split; [|split; [|split; [|split; [|split]]]].
  - rewrite Hcheck. split.
    + intros Hnone block Hin Hfits. apply fitsBlock_true in Hfits.
      assert (existsb (fitsBlock (JS.str (ReservationBody.time body))
                         (JS.num (ReservationBody.duration body)))
                      (Canteen.workingHours canteen) = true) as Habs
          by (apply existsb_exists; now exists block).
      congruence.
    + intros Hnone.
      destruct (existsb _ (Canteen.workingHours canteen)) eqn:E;
        [|reflexivity].
      apply existsb_exists in E. destruct E as (block & Hin & Hfits).
      apply fitsBlock_true in Hfits. now elim (Hnone block Hin).
  - rewrite Hcheck. split.
    + intros Hsome.
      destruct (existsb _ (Canteen.workingHours canteen)) eqn:E;
        [|congruence].
      apply existsb_exists in E. destruct E as (block & Hin & Hfits).
      apply fitsBlock_true in Hfits. now exists block.
    + intros (block & Hin & Hfits) Hnone. apply fitsBlock_true in Hfits.
      assert (existsb (fitsBlock (JS.str (ReservationBody.time body))
                         (JS.num (ReservationBody.duration body)))
                      (Canteen.workingHours canteen) = true) as Habs
          by (apply existsb_exists; now exists block).
      congruence.
  - exact minutesOfDay_clockOffset.
  - intros Htime Hblocks.
    rewrite <- !(fitsInSchedule_true _ _ _ Htime Hblocks Hduration).
    split.
    + rewrite Hcheck. now destruct (existsb _ _).
    + rewrite Hcheck. destruct (existsb _ _); split; congruence.
  - intros Hhours. split; intros Htime Hd.
    + apply Hcheck. rewrite Hhours, Htime, Hd. vm_compute. reflexivity.
    + rewrite Hcheck, Hhours, Htime, Hd. vm_compute. discriminate.
  - intros Hhours Htime Hd.
    apply Hcheck. rewrite Hhours, Htime, Hd. vm_compute. reflexivity.
Qed.

End WorkingHoursTheorems.

(** ** The overlap test in the validator and in the slot calculator *)

Lemma Status_eqb_Cancelled (s : Status) :
  Status_eqb s Cancelled = false <-> s = Active.
Proof. destruct s; simpl; split; congruence. Qed.

Section OverlapTheorems.
Context {imports : Imports}.

Lemma overlapsStudent_true (studentId : string) (start fin : Date)
  (r : Reservation.t) :
  overlapsStudent studentId start fin r = true <->
  Reservation.studentId r = studentId
  /\ Reservation.status r = Active
  /\ isOverlapping start fin (startOf r) (endOf r) = true.
Proof.
  unfold overlapsStudent.
  destruct (String.eqb_spec (Reservation.studentId r) studentId) as [E|E];
    destruct (Reservation.status r); simpl; split; intros H;
    try discriminate; try tauto;
    try (destruct H as (? & ? & ?); congruence).
Qed.

Lemma overlapsCanteen_true (canteenId : string) (start fin : Date)
  (r : Reservation.t) :
  overlapsCanteen canteenId start fin r = true <->
  Reservation.canteenId r = canteenId
  /\ Reservation.status r = Active
  /\ isOverlapping start fin (startOf r) (endOf r) = true.
Proof.
  unfold overlapsCanteen.
  destruct (String.eqb_spec (Reservation.canteenId r) canteenId) as [E|E];
    destruct (Reservation.status r); simpl; split; intros H;
    try discriminate; try tauto;
    try (destruct H as (? & ? & ?); congruence).
Qed.

Lemma overlapsSlot_overlapsCanteen (canteen : Canteen.t) (start fin : Date)
  (r : Reservation.t) :
  overlapsSlot canteen start fin r
  = overlapsCanteen (Canteen.id canteen) start fin r.
Proof. reflexivity. Qed.

(** C6. On instants, the overlap test is true exactly when
    startA < endB and endA > startB, so intervals that only touch at an
    endpoint do not overlap; the validator's double-booking and capacity
    predicates and the slot calculator's count apply this test to the
    Active reservations, hence a student's Active reservations that end
    at or before the start of a request, or start at or after its end, do
    not make the double-booking check fail. *)
Theorem isOverlapping_half_open :
  (forall startA endA startB endB : Z,
      isOverlapping (Some startA) (Some endA) (Some startB) (Some endB) = true
      <-> startA < endB /\ endA > startB)
  /\ (forall a b c : Z,
        isOverlapping (Some a) (Some b) (Some b) (Some c) = false
        /\ isOverlapping (Some b) (Some c) (Some a) (Some b) = false)
  /\ (forall studentId start fin r,
        overlapsStudent studentId start fin r = true <->
        Reservation.studentId r = studentId /\ Reservation.status r = Active
        /\ isOverlapping start fin (startOf r) (endOf r) = true)
  /\ (forall canteen start fin r,
        overlapsSlot canteen start fin r = true <->
        Reservation.canteenId r = Canteen.id canteen
        /\ Reservation.status r = Active
        /\ isOverlapping start fin (startOf r) (endOf r) = true)
  /\ (forall studentId (start fin : Z) (stored : list Reservation.t),
        (forall r s e,
            In r stored ->
            Reservation.studentId r = studentId ->
            Reservation.status r = Active ->
            startOf r = Some s -> endOf r = Some e ->
            e <= start \/ fin <= s) ->
        existsb (overlapsStudent studentId (Some start) (Some fin)) stored
        = false).
Proof.
  split; [|split; [|split; [|split]]].
  - intros a b c d. rewrite isOverlapping_true. split.
    + intros (a' & b' & c' & d' & [= <-] & [= <-] & [= <-] & [= <-] & H).
      exact H.
    + intros H. exists a, b, c, d. tauto.
  - intros a b c. unfold isOverlapping, JS.gt, JS.lt.
    split; apply andb_false_iff; [right|left]; apply Z.ltb_ge; lia.
  - apply overlapsStudent_true.
  - intros canteen start fin r.
    rewrite overlapsSlot_overlapsCanteen. apply overlapsCanteen_true.
  - intros studentId start fin stored Hfree.
    destruct (existsb _ stored) eqn:E; [|reflexivity].
    apply existsb_exists in E. destruct E as (r & Hin & Hr).
    apply overlapsStudent_true in Hr. destruct Hr as (Hs & Ha & Ho).
    apply isOverlapping_true in Ho.
    destruct Ho as (a & b & c & d & [= <-] & [= <-] & Hc & Hd & H1 & H2).
    destruct (Hfree r c d Hin Hs Ha Hc Hd); lia.
Qed.

End OverlapTheorems.

(** ** Cancellation *)

Lemma find_none_iff {A : Type} (p : A -> bool) (l : list A) :
  find p l = None <-> forall x, In x l -> p x = false.
Proof.
  split; [apply find_none|].
  induction l as [|x l IH]; simpl; intros H; [reflexivity|].
  rewrite (H x) by now left. apply IH. intros y Hy. apply H. now right.
Qed.

(** The first element that satisfies [p] splits the list. *)
Lemma find_some_split {A : Type} (p : A -> bool) (l : list A) (x : A) :
  find p l = Some x <->
  exists before after,
    l = (before ++ x :: after)%list /\ p x = true
    /\ forall y, In y before -> p y = false.
Proof.
  split.
  - revert x. induction l as [|y l IH]; simpl; intros x H; [discriminate|].
    destruct (p y) eqn:Hy.
    + injection H as <-. exists [], l. simpl. tauto.
    + destruct (IH x H) as (before & after & -> & Hx & Hb).
      exists (y :: before), after. simpl. repeat split; auto.
      intros z [<-|Hz]; auto.
  - intros (before & after & -> & Hx & Hb).
    now apply find_first_failing.
Qed.

Lemma mutateFirst_split {A : Type} (p : A -> bool) (f : A -> A)
  (before : list A) (x : A) (after : list A) :
  (forall y, In y before -> p y = false) ->
  p x = true ->
  mutateFirst p f (before ++ x :: after) = (before ++ f x :: after)%list.
Proof.
  induction before as [|y before IH]; simpl; intros Hb Hx.
  - now rewrite Hx.
  - rewrite (Hb y) by now left. f_equal. apply IH; auto.
Qed.

Lemma withStatus_same (r : Reservation.t) :
  Reservation.withStatus (Reservation.status r) r = r.
Proof. now destruct r. Qed.

(** C7. [cancelReservation] answers "Reservation not found" (404) exactly
    when no stored reservation has the id; otherwise it sets the status of
    the first stored reservation with that id to Cancelled, whatever the
    status was, leaves the rest of the store alone and returns the updated
    record; a reservation that was already Cancelled is returned as it is
    and the store does not change. *)
Theorem cancelReservation_contract (db : Db) (id : string) :
  (cancelReservation db id = (send 404 "Reservation not found", db) <->
   forall r, In r (reservations db) -> Reservation.id r <> id)
  /\ (forall r,
        In r (reservations db) -> Reservation.id r = id ->
        exists before found after,
          reservations db = (before ++ found :: after)%list
          /\ Reservation.id found = id
          /\ (forall x, In x before -> Reservation.id x <> id)
          /\ cancelReservation db id =
             (mkResponse 200
                (JsonReservation (Reservation.withStatus Cancelled found)),
              mkDb (students db) (canteens db)
                   (before ++ Reservation.withStatus Cancelled found :: after)
                   (uuids db))
          /\ Reservation.status (Reservation.withStatus Cancelled found)
             = Cancelled
          /\ (Reservation.status found = Cancelled ->
              cancelReservation db id
              = (mkResponse 200 (JsonReservation found), db))).
Proof.
  unfold cancelReservation. split.
  - destruct (find _ (reservations db)) as [found|] eqn:E.
    + split; [discriminate|]. intros H.
      apply find_some in E. destruct E as [Hin Hid].
      apply String.eqb_eq in Hid. now elim (H found Hin).
    + split; [|reflexivity]. intros _ r Hin.
      rewrite find_none_iff in E. apply String.eqb_neq. now apply E.
  - intros r Hin Hid.
    destruct (find _ (reservations db)) as [found|] eqn:E.
    + apply find_some_split in E.
      destruct E as (before & after & Hsplit & Hfound & Hbefore).
      exists before, found, after.
      apply String.eqb_eq in Hfound.
      split; [exact Hsplit|]. split; [exact Hfound|]. split.
      { intros x Hx. apply String.eqb_neq. now apply Hbefore. }
      split.
      { rewrite Hsplit at 1.
        rewrite mutateFirst_split; auto. now apply String.eqb_eq. }
      split; [reflexivity|].
      intros Hc. rewrite <- Hc, withStatus_same.
      f_equal. rewrite Hsplit at 1.
      rewrite mutateFirst_split; auto; [|now apply String.eqb_eq].
      rewrite withStatus_same, <- Hsplit. now destruct db.
    + rewrite find_none_iff in E. specialize (E r Hin).
      apply String.eqb_neq in E. contradiction.
Qed.

(** ** Lists of ordered pairs *)




(** ** Cancelling keeps every record but its status *)

Lemma mutateFirst_cancelledOrSame (p : Reservation.t -> bool)
  (l : list Reservation.t) :
  Forall2 cancelledOrSame l
          (mutateFirst p (Reservation.withStatus Cancelled) l).
Proof.
  induction l as [|r l IH]; simpl; [constructor|].
  destruct (p r).
  - constructor; [now right|].
    clear. induction l; constructor; auto. now left.
  - constructor; [now left|exact IH].
Qed.

Lemma map_cancelledOrSame (p : Reservation.t -> bool)
  (l : list Reservation.t) :
  Forall2 cancelledOrSame l
    (map (fun r => if p r then Reservation.withStatus Cancelled r else r) l).
Proof.
  induction l as [|r l IH]; simpl; constructor; auto.
  destruct (p r); [now right|now left].
Qed.

Lemma Forall2_same {A : Type} (W : A -> A -> Prop) (l : list A) :
  (forall x, W x x) -> Forall2 W l l.
Proof. intros H. induction l; constructor; auto. Qed.

(** ** What each request does to the stored reservations *)

Section Requests.
Context {imports : Imports}.

Lemma createReservation_cases (db : Db) (body : ReservationBody.t) (now : Z) :
  (exists reason, fails db body now reason = true
                  /\ createReservation db body now = (reject reason, db))
  \/ ((forall reason, fails db body now reason = false)
      /\ createReservation db body now
         = (mkResponse 201 (JsonReservation (created db body)),
            appended db body)).
Proof.
  rewrite createReservation_firstFailure. unfold firstFailure.
  destruct (find _ precedence) as [reason|] eqn:E.
  - left. exists reason. apply find_some in E. tauto.
  - right. split; [|reflexivity]. intros reason.
    rewrite find_none_iff in E. apply E.
    destruct reason; simpl; tauto.
Qed.

(** A request appends the created record to the reservations, or cancels
    some of them, or leaves them alone. *)
Lemma handle_reservations (db : Db) (op : Op) :
  Forall2 cancelledOrSame (reservations db) (reservations (snd (handle db op)))
  \/ exists body now,
       op = PostReservation body now
       /\ (forall reason, fails db body now reason = false)
       /\ snd (handle db op) = appended db body.
Proof.
  destruct op as [body|sid body|sid id body|sid id|body now|id]; simpl.
  - left. unfold createStudent.
    destruct (_ || _); [apply Forall2_same; now left|].
    destruct (existsb _ _); apply Forall2_same; now left.
  - left. unfold createCanteen.
    destruct (negb _); [apply Forall2_same; now left|].
    destruct (_ || _); apply Forall2_same; now left.
  - left. unfold updateCanteen.
    destruct (negb _); [apply Forall2_same; now left|].
    destruct (find _ _); apply Forall2_same; now left.
  - left. unfold deleteCanteen.
    destruct (negb _); [apply Forall2_same; now left|].
    destruct (find _ _); [|apply Forall2_same; now left].
    simpl. apply map_cancelledOrSame.
  - destruct (createReservation_cases db body now) as [(reason & _ & ->)|[H ->]].
    + left. apply Forall2_same; now left.
    + right. exists body, now. auto.
  - left. unfold cancelReservation.
    destruct (find _ _); [|apply Forall2_same; now left].
    simpl. apply mutateFirst_cancelledOrSame.
Qed.

(** A property of the database that holds when it is empty and that every
    request keeps holds after any sequence of requests. *)
Lemma serve_invariant (P : Db -> Prop) :
  (forall db op, P db -> P (snd (handle db op))) ->
  forall ops db, P db -> P (serve db ops).
Proof.
  intros Hstep ops. unfold serve.
  induction ops as [|op ops IH]; simpl; intros db Hdb; [exact Hdb|].
  apply IH. now apply Hstep.
Qed.

End Requests.

(** ** No student is booked twice at one time *)

Section DoubleBooking.
Context {imports : Imports}.







End DoubleBooking.

(** ** Counting with [filter] *)


Lemma filter_length_Forall2 {A : Type} (W : A -> A -> Prop) (p : A -> bool)
  (l l' : list A) :
  (forall x x', W x x' -> p x' = true -> p x = true) ->
  Forall2 W l l' ->
  (List.length (filter p l') <= List.length (filter p l))%nat.
Proof.
  intros HW H. induction H as [|x x' l l' Hx Hl IH]; simpl; [lia|].
  destruct (p x') eqn:Hp'.
  - rewrite (HW x x' Hx Hp'). simpl. lia.
  - destruct (p x); simpl; lia.
Qed.

Lemma Forall2_In_r {A : Type} (W : A -> A -> Prop) (l l' : list A) (y : A) :
  Forall2 W l l' -> In y l' -> exists x, In x l /\ W x y.
Proof.
  induction 1 as [|x x' l l' Hx Hl IH]; simpl; [tauto|].
  intros [<-|Hy].
  - exists x. auto.
  - destruct (IH Hy) as (z & Hz & Hw). exists z. auto.
Qed.

(** ** The arrays after [findIndex] and an assignment or a [splice] *)






Lemma NoDup_snoc {A : Type} (l : list A) (x : A) :
  NoDup l -> ~ In x l -> NoDup (l ++ [x]).
Proof.
  induction 1 as [|y l Hy Hl IH]; simpl; intros Hx.
  - constructor; [tauto|constructor].
  - constructor.
    + rewrite in_app_iff. simpl. intros [H|[H|[]]]; [tauto|].
      apply Hx. now left.
    + apply IH. tauto.
Qed.


(** ** Capacity *)

Section Capacity.
Context {imports : Imports}.









End Capacity.

Section CapacityTheorem.
Context {imports : Imports}.
Hypothesis uuidv4_fresh : forall m n : nat, uuidv4 m = uuidv4 n -> m = n.









End CapacityTheorem.

(** ** Stepping through a range *)



(** The list is empty when [first] has reached [bound], and otherwise
    starts with [first] and goes on from [first + step]. *)
Lemma steppingBelow_unfold (first bound step : Z) :
  0 < step ->
  steppingBelow first bound step =
  if first <? bound
  then first :: steppingBelow (first + step) bound step
  else [].
Proof.
  intros Hstep. unfold steppingBelow.
  destruct (Z.ltb_spec first bound) as [Hlt|Hge].
  - replace (bound - (first + step) - 1)
      with (bound - first - 1 + (-1) * step) by lia.
    rewrite Z.div_add by lia.
    assert (0 <= (bound - first - 1) / step) by (apply Z.div_pos; lia).
    replace (Z.to_nat ((bound - first - 1) / step + 1))
      with (S (Z.to_nat ((bound - first - 1) / step + -1 + 1))) by lia.
    reflexivity.
  - assert ((bound - first - 1) / step < 0)
      by (apply Z.div_lt_upper_bound; lia).
    now replace (Z.to_nat ((bound - first - 1) / step + 1)) with 0%nat by lia.
Qed.



(** ** The slot calculator *)

Section SlotCalculator.
Context {imports : Imports}.

Lemma slotStep_slotOfCandidate (db : Db) (canteen : Canteen.t) (day : Z)
  (duration cur : Z) (resultSlots : list Slot.t) :
  slotStep db canteen (formatDate day) duration cur resultSlots
  = (resultSlots ++ slotOfCandidate db canteen day duration cur)%list.
Proof.
  unfold slotStep, slotOfCandidate. simpl.
  destruct (find _ _); [reflexivity|]. now rewrite app_nil_r.
Qed.

(** The inner loop, given fuel for its candidates, appends their slots. *)
Lemma slotLoop_steppingBelow (db : Db) (canteen : Canteen.t) (day : Z)
  (bound duration : Z) :
  0 < duration ->
  forall (fuel : nat) (cur : Z) (resultSlots : list Slot.t),
    (List.length (steppingBelow cur bound
                    (duration * DateFns.millisecondsInMinute)) <= fuel)%nat ->
    slotLoop fuel db canteen (formatDate day) (Some bound) duration
             (Some cur) resultSlots
    = Some (resultSlots ++
            flat_map (slotOfCandidate db canteen day duration)
              (steppingBelow cur bound
                 (duration * DateFns.millisecondsInMinute)))%list.
Proof.
  intros Hduration.
  assert (0 < duration * DateFns.millisecondsInMinute) as Hstep
      by (unfold DateFns.millisecondsInMinute; lia).
  induction fuel as [|fuel IH]; intros cur resultSlots Hfuel;
    rewrite steppingBelow_unfold in * by exact Hstep; simpl;
    destruct (cur <? bound); simpl in *;
    try (now rewrite app_nil_r); try lia.
  rewrite IH by lia.
  rewrite slotStep_slotOfCandidate, <- app_assoc. reflexivity.
Qed.

Lemma slotLoop_candidatesOfDay (db : Db) (canteen : Canteen.t) (day : Z)
  (startTime endTime : string) (duration : Z) (fuel : nat)
  (resultSlots : list Slot.t) :
  0 < duration ->
  (List.length (candidatesOfDay day startTime endTime duration) <= fuel)%nat ->
  slotLoop fuel db canteen (formatDate day)
           (parseDateTime (formatDate day ++ "T" ++ endTime)) duration
           (parseDateTime (formatDate day ++ "T" ++ startTime)) resultSlots
  = Some (resultSlots ++ slotsOfDay db canteen startTime endTime duration day)%list.
Proof.
  intros Hduration. unfold slotsOfDay, candidatesOfDay.
  destruct (parseDateTime (formatDate day ++ "T" ++ startTime)) as [cur|];
    destruct (parseDateTime (formatDate day ++ "T" ++ endTime)) as [bound|];
    intros Hfuel.
  - now apply slotLoop_steppingBelow.
  - destruct fuel; simpl; now rewrite app_nil_r.
  - destruct fuel; simpl; now rewrite app_nil_r.
  - destruct fuel; simpl; now rewrite app_nil_r.
Qed.

Lemma dayLoop_condition (day last : Z) :
  (day <? last) || (day =? last) = (day <=? last).
Proof.
  destruct (Z.ltb_spec day last), (Z.eqb_spec day last),
    (Z.leb_spec day last); simpl; auto; lia.
Qed.

(** After a day that is not after the last, one day fewer is left. *)
Lemma days_left (day last : Z) (n : nat) :
  day <= last ->
  (last - day) / shortestDay + 1 <= Z.of_nat (S n) ->
  (last - addDays day 1) / shortestDay + 1 <= Z.of_nat n.
Proof.
  intros Hday Hn.
  pose proof shortestDay_positive as Hpos.
  pose proof (addDays_advances day) as Hstep.
  assert ((last - addDays day 1) / shortestDay
          <= (last - day + (-1) * shortestDay) / shortestDay) as Hle
      by (apply Z.div_le_mono; lia).
  rewrite Z.div_add in Hle by lia. lia.
Qed.

(** No day is left once the day is after the last. *)
Lemma days_none_left (day last : Z) :
  (last - day) / shortestDay + 1 <= 0 -> last < day.
Proof.
  intros Hn. pose proof shortestDay_positive as Hpos.
  destruct (Z.lt_ge_cases last day) as [H|H]; [exact H|].
  assert (0 <= (last - day) / shortestDay) by (apply Z.div_pos; lia). lia.
Qed.

(** With a bound that is large enough, the days are the first day, when it
    is not after the last, and then the days from the next one. *)
Lemma daysUpTo_unfold (n : nat) (day last : Z) :
  (last - day) / shortestDay + 1 <= Z.of_nat n ->
  daysUpTo n day last
  = (if day <=? last then day :: daysUpTo (pred n) (addDays day 1) last
     else [])
  /\ (day <= last ->
      (last - addDays day 1) / shortestDay + 1 <= Z.of_nat (pred n)).
Proof.
  intros Hn. destruct n as [|n]; simpl.
  - apply days_none_left in Hn.
    destruct (Z.leb_spec day last); [lia|]. split; [reflexivity|lia].
  - split; [reflexivity|]. intros Hday. now apply days_left.
Qed.

(** The outer loop, given fuel for its days and for the candidates of each
    day, appends the slots of the days. *)
Lemma dayLoop_daysUpTo (db : Db) (canteen : Canteen.t)
  (startTime endTime : string) (duration last : Z) (slotFuel : nat) :
  0 < duration ->
  forall (fuel n : nat) (day : Z) (resultSlots : list Slot.t),
    (last - day) / shortestDay + 1 <= Z.of_nat n ->
    (List.length (daysUpTo n day last) <= fuel)%nat ->
    (forall d,
        In d (daysUpTo n day last) ->
        (List.length (candidatesOfDay d startTime endTime duration)
         <= slotFuel)%nat) ->
    dayLoop fuel slotFuel db canteen (Some last) startTime endTime duration
            (Some day) resultSlots
    = Some (resultSlots ++
            flat_map (slotsOfDay db canteen startTime endTime duration)
              (daysUpTo n day last))%list.
Proof.
  intros Hduration.
  induction fuel as [|fuel IH]; intros n day resultSlots Hn Hfuel Hslots;
    destruct (daysUpTo_unfold n day last Hn) as [Hdays Hleft];
    rewrite Hdays in *; simpl; rewrite dayLoop_condition;
    destruct (Z.leb_spec day last) as [Hday|Hday]; simpl in *;
    try (now rewrite app_nil_r); try lia.
  pose proof (slotLoop_candidatesOfDay db canteen day startTime endTime
                duration slotFuel resultSlots Hduration
                (Hslots day (or_introl eq_refl))) as Hinner.
  simpl in Hinner. rewrite Hinner.
  rewrite (IH (pred n)); [|auto|lia|auto].
  now rewrite <- app_assoc.
Qed.




(** ** The days of the calendar

    [dayOf] numbers the calendar days of the local timeline.  On a
    timeline where [addDays] leads from the first instant of a day to the
    first instant of the next day, the days of a range are the first
    instants of the calendar days from that of the first to that of the
    last. *)
Section Calendar.
Variable dayOf : Z -> Z.
Hypothesis dayOf_monotone : forall t t', t <= t' -> dayOf t <= dayOf t'.
Hypothesis dayOf_next : forall t, dayOf (addDays t 1) = dayOf t + 1.
Hypothesis addDays_first :
  forall t, (forall t', dayOf t' = dayOf t -> t <= t') ->
            forall t', dayOf t' = dayOf (addDays t 1) -> addDays t 1 <= t'.


End Calendar.

End SlotCalculator.

Section SlotCalculatorTheorem.
Context {imports : Imports}.


Lemma calculateSlots_slotsOfRange (db : Db) (canteen : Canteen.t)
  (startDate endDate startTime endTime : string) (duration : Z) (fuel : nat) :
  0 < duration ->
  (enoughFuel startDate endDate startTime endTime duration <= fuel)%nat ->
  calculateSlots fuel db canteen startDate endDate startTime endTime duration
  = Some (slotsOfRange db canteen startDate endDate startTime endTime
                       duration).
Proof.
  intros Hduration. unfold calculateSlots, slotsOfRange, enoughFuel, daysOfRange.
  destruct (parseDate startDate) as [first|];
    [destruct (parseDate endDate) as [last|]|]; intros Hfuel.
  - rewrite (dayLoop_daysUpTo db canteen startTime endTime duration last
               fuel Hduration fuel
               (Z.to_nat ((last - first) / shortestDay + 1)));
      [reflexivity|lia|lia|].
    intros d Hd.
    assert (list_max
              (map (fun day => List.length
                      (candidatesOfDay day startTime endTime duration))
                   (daysUpTo (Z.to_nat ((last - first) / shortestDay + 1))
                             first last))
            <= fuel)%nat as Hmax by lia.
    apply list_max_le in Hmax. rewrite Forall_forall in Hmax.
    apply Hmax. apply in_map_iff. now exists d.
  - now destruct fuel.
  - now destruct fuel.
Qed.


End SlotCalculatorTheorem.

(** ** The status handlers *)

Lemma mapOption_map {A B : Type} (f : A -> option B) (g : A -> B)
  (l : list A) :
  (forall x, In x l -> f x = Some (g x)) -> mapOption f l = Some (map g l).
Proof.
  induction l as [|x l IH]; simpl; intros H; [reflexivity|].
  rewrite (H x) by now left. rewrite IH; [reflexivity|].
  intros y Hy. apply H. now right.
Qed.

Section StatusHandlers.
Context {imports : Imports}.

(** A query that the handlers accept has a duration of 30 or 60. *)
Lemma statusQueryDuration_accepts (query : StatusQuery.t) (duration : Z) :
  statusQueryDuration query = inr duration -> duration = 30 \/ duration = 60.
Proof.
  unfold statusQueryDuration.
  destruct (_ || _); [discriminate|].
  destruct (JS.parseInt (StatusQuery.duration query)) as [|d|n]; simpl;
    try discriminate.
  destruct (Z.eqb_spec d 30); [intros [= <-]; now left|].
  destruct (Z.eqb_spec d 60); [intros [= <-]; now right|discriminate].
Qed.

(** The status of one canteen is the slots of the range. *)
Lemma getCanteenStatus_slots (fuel : nat) (db : Db) (id : string)
  (query : StatusQuery.t) (canteen : Canteen.t) (duration : Z) :
  findCanteenById db id = Some canteen ->
  statusQueryDuration query = inr duration ->
  (enoughFuel (JS.str (StatusQuery.startDate query))
              (JS.str (StatusQuery.endDate query))
              (JS.str (StatusQuery.startTime query))
              (JS.str (StatusQuery.endTime query)) duration <= fuel)%nat ->
  getCanteenStatus fuel db id query
  = Some (mkResponse 200
            (JsonStatus (Canteen.id canteen)
               (slotsOfRange db canteen
                  (JS.str (StatusQuery.startDate query))
                  (JS.str (StatusQuery.endDate query))
                  (JS.str (StatusQuery.startTime query))
                  (JS.str (StatusQuery.endTime query)) duration))).
Proof.
  unfold getCanteenStatus, findCanteenById. intros -> Hquery Hfuel.
  rewrite Hquery. rewrite calculateSlots_slotsOfRange; auto.
  destruct (statusQueryDuration_accepts query duration Hquery); lia.
Qed.

(** The global status is the status of each canteen, in the order in which
    the canteens are stored. *)
Lemma getGlobalStatus_slots (fuel : nat) (db : Db) (query : StatusQuery.t)
  (duration : Z) :
  statusQueryDuration query = inr duration ->
  (enoughFuel (JS.str (StatusQuery.startDate query))
              (JS.str (StatusQuery.endDate query))
              (JS.str (StatusQuery.startTime query))
              (JS.str (StatusQuery.endTime query)) duration <= fuel)%nat ->
  getGlobalStatus fuel db query
  = Some (mkResponse 200
            (JsonGlobalStatus
               (map (fun c =>
                       (Canteen.id c,
                        slotsOfRange db c
                          (JS.str (StatusQuery.startDate query))
                          (JS.str (StatusQuery.endDate query))
                          (JS.str (StatusQuery.startTime query))
                          (JS.str (StatusQuery.endTime query)) duration))
                    (canteens db)))).
Proof.
  unfold getGlobalStatus. intros Hquery Hfuel. rewrite Hquery.
  erewrite mapOption_map; [reflexivity|].
  intros c _. simpl. rewrite calculateSlots_slotsOfRange; auto.
  destruct (statusQueryDuration_accepts query duration Hquery); lia.
Qed.

End StatusHandlers.

(** ** Cancelling and booking again *)

Section Rebooking.
Context {imports : Imports}.

Lemma overlapsStudent_cancelled (studentId : string) (start fin : Date)
  (r : Reservation.t) :
  overlapsStudent studentId start fin (Reservation.withStatus Cancelled r)
  = false.
Proof. unfold overlapsStudent. simpl. now rewrite orb_true_r. Qed.

Lemma overlapsCanteen_cancelled (canteenId : string) (start fin : Date)
  (r : Reservation.t) :
  overlapsCanteen canteenId start fin (Reservation.withStatus Cancelled r)
  = false.
Proof. unfold overlapsCanteen. simpl. now rewrite orb_true_r. Qed.

(** For every check, a Cancelled reservation counts as an absent one. *)
Lemma fails_cancelled_absent (students : list Student.t)
  (canteens : list Canteen.t) (before after : list Reservation.t)
  (r : Reservation.t) (n : nat) (body : ReservationBody.t) (now : Z)
  (reason : RejectionReason) :
  fails (mkDb students canteens
              (before ++ Reservation.withStatus Cancelled r :: after) n)
        body now reason
  = fails (mkDb students canteens (before ++ after) n) body now reason.
Proof.
  destruct reason; simpl; try reflexivity.
  - rewrite !existsb_app. simpl. now rewrite overlapsStudent_cancelled.
  - unfold findCanteenById. simpl.
    destruct (find _ canteens); [|reflexivity].
    rewrite !filter_app. simpl. now rewrite overlapsCanteen_cancelled.
Qed.

Lemma createReservation_accepts (db : Db) (body : ReservationBody.t)
  (now : Z) :
  statusCode (fst (createReservation db body now)) = 201 <->
  forall reason, fails db body now reason = false.
Proof.
  destruct (createReservation_cases db body now)
    as [(reason & Hfails & ->)|[Hpass ->]]; simpl.
  - split; [discriminate|]. intros H. rewrite H in Hfails. discriminate.
  - tauto.
Qed.

(** The messages tell the reasons apart. *)
Lemma message_inj (a b : RejectionReason) : message a = message b -> a = b.
Proof. destruct a, b; intros H; try reflexivity; discriminate H. Qed.

Lemma createReservation_rejected (db : Db) (body : ReservationBody.t)
  (now : Z) (reason : RejectionReason) :
  createReservation db body now = (reject reason, db) ->
  fails db body now reason = true.
Proof.
  destruct (createReservation_cases db body now)
    as [(check & Hfails & ->)|[_ ->]]; intros H.
  - injection H as H. apply message_inj in H. now subst.
  - destruct reason; discriminate H.
Qed.

(** Only the past check looks at the clock. *)
Lemma fails_clock (db : Db) (body : ReservationBody.t) (now now' : Z)
  (reason : RejectionReason) :
  reason <> PastReservation ->
  fails db body now reason = fails db body now' reason.
Proof. destruct reason; intros H; try reflexivity. now elim H. Qed.

(** No check but the last two looks at the reservations. *)
Lemma fails_reservations (students : list Student.t)
  (canteens : list Canteen.t) (rs rs' : list Reservation.t) (n n' : nat)
  (body : ReservationBody.t) (now : Z) (reason : RejectionReason) :
  reason <> StudentDoubleBooked -> reason <> CapacityExceeded ->
  fails (mkDb students canteens rs n) body now reason
  = fails (mkDb students canteens rs' n') body now reason.
Proof.
  destruct reason; intros H8 H9; try reflexivity; [now elim H8|now elim H9].
Qed.

(** The check passes, because the rejection it would report is not the one
    reported. *)
Local Ltac passes check Hlate :=
  destruct check eqn:?;
  [let H := fresh in
   let Hreason := fresh in
   intros H Hreason; destruct (Hlate _ H Hreason); discriminate|].

(** A request rejected by one of the last two checks has passed the seven
    checks before them. *)
Lemma createReservation_rejected_late (db : Db) (body : ReservationBody.t)
  (now : Z) (reason : RejectionReason) :
  createReservation db body now = (reject reason, db) ->
  reason = StudentDoubleBooked \/ reason = CapacityExceeded ->
  forall check,
    check <> StudentDoubleBooked -> check <> CapacityExceeded ->
    fails db body now check = false.
Proof.
  rewrite createReservation_firstFailure.
  unfold firstFailure, precedence. cbn [find].
  assert (forall earlier,
             (reject earlier, db) = (reject reason, db) ->
             reason = StudentDoubleBooked \/ reason = CapacityExceeded ->
             earlier = StudentDoubleBooked \/ earlier = CapacityExceeded)
    as Hlate.
  { intros earlier E. injection E as E. apply message_inj in E. now subst. }
  passes (fails db body now MissingFields) Hlate.
  passes (fails db body now StudentNotFound) Hlate.
  passes (fails db body now InvalidDuration) Hlate.
  passes (fails db body now InvalidTimeSlot) Hlate.
  passes (fails db body now PastReservation) Hlate.
  passes (fails db body now CanteenNotFound) Hlate.
  passes (fails db body now OutsideWorkingHours) Hlate.
  intros _ _ check H8 H9.
  destruct check; try assumption; [now elim H8|now elim H9].
Qed.

(** C8. When a request is rejected as StudentDoubleBooked or
    CapacityExceeded and one stored reservation is the only cause, in that
    without it no Active reservation of the student overlaps the request
    and the canteen has room, this reservation is Active, and after
    cancelling it the identical request is accepted: a new Active
    reservation is created, appended and returned.  For each of the nine
    checks a Cancelled reservation counts as an absent one.  The request
    may be submitted again at a later time [now'], as long as its start is
    not before that time. *)
Theorem cancel_then_rebook (db : Db) (body : ReservationBody.t) (now now' : Z)
  (before after : list Reservation.t) (conflict : Reservation.t)
  (reason : RejectionReason)
  (Hstored : reservations db = (before ++ conflict :: after)%list)
  (Hfirst : forall r, In r before ->
                      Reservation.id r <> Reservation.id conflict)
  (Hreason : reason = StudentDoubleBooked \/ reason = CapacityExceeded)
  (Hrejected : createReservation db body now = (reject reason, db))
  (Hclock : DateFns.isBefore (requestStart body) (Some now') = false)
  (Honly : forall check,
      check = StudentDoubleBooked \/ check = CapacityExceeded ->
      fails (mkDb (students db) (canteens db) (before ++ after) (uuids db))
            body now' check = false) :
  let db' := snd (cancelReservation db (Reservation.id conflict)) in
  Reservation.status conflict = Active
  /\ reservations db'
     = (before ++ Reservation.withStatus Cancelled conflict :: after)%list
  /\ createReservation db' body now'
     = (mkResponse 201 (JsonReservation (created db' body)), appended db' body)
  /\ Reservation.status (created db' body) = Active
  /\ reservations (appended db' body)
     = (reservations db' ++ [created db' body])%list
  /\ (forall check,
        fails db' body now' check
        = fails (mkDb (students db) (canteens db) (before ++ after) (uuids db))
                body now' check).
Proof.
  intros db'.
  assert (db' = mkDb (students db) (canteens db)
                  (before ++ Reservation.withStatus Cancelled conflict :: after)
                  (uuids db)) as Hdb'.
  { unfold db', cancelReservation.
    assert (find (fun r => (Reservation.id r =? Reservation.id conflict)%string)
                 (reservations db) = Some conflict) as Hfind.
    { rewrite Hstored. apply find_first_failing.
      - intros r Hr. apply String.eqb_neq. now apply Hfirst.
      - apply String.eqb_refl. }
    rewrite Hfind. simpl. rewrite Hstored.
    rewrite mutateFirst_split; auto.
    - intros r Hr. apply String.eqb_neq. now apply Hfirst.
    - apply String.eqb_refl. }
  assert (forall check,
            fails db' body now' check
            = fails (mkDb (students db) (canteens db) (before ++ after)
                          (uuids db)) body now' check) as Hsame
      by (intros check; rewrite Hdb'; apply fails_cancelled_absent).
  pose proof (createReservation_rejected_late db body now reason
                Hrejected Hreason) as Hearlier.
  assert (forall check, fails db' body now' check = false) as Hpass.
  { intros check.
    assert (check = StudentDoubleBooked \/ check = CapacityExceeded
            \/ check = PastReservation
            \/ (check <> StudentDoubleBooked /\ check <> CapacityExceeded
                /\ check <> PastReservation)) as [E|[E|[E|(H8 & H9 & H5)]]]
        by (destruct check; auto; right; right; right; repeat split; discriminate).
    - rewrite Hsame. apply Honly. now left.
    - rewrite Hsame. apply Honly. now right.
    - subst check. exact Hclock.
    - rewrite Hdb'.
      rewrite (fails_reservations _ _ _ (reservations db) _ (uuids db))
        by assumption.
      rewrite (fails_clock _ body now' now) by assumption.
      replace (mkDb (students db) (canteens db) (reservations db) (uuids db))
        with db by now destruct db.
      now apply Hearlier. }
  assert (Reservation.status conflict = Active) as Hactive.
  { destruct (Reservation.status conflict) eqn:Hs; [reflexivity|].
    assert (db' = db) as Heq.
    { rewrite Hdb', <- Hs, withStatus_same, <- Hstored. now destruct db. }
    apply createReservation_rejected in Hrejected.
    rewrite (fails_clock db body now now') in Hrejected
      by (destruct Hreason as [-> | ->]; discriminate).
    assert (fails db' body now' reason = true) as Hfails
        by (rewrite Heq; exact Hrejected).
    rewrite Hpass in Hfails. discriminate. }
  split; [exact Hactive|]. split; [now rewrite Hdb'|]. split.
  - destruct (createReservation_cases db' body now')
      as [(check & Hfails & _)|[_ E]]; [|exact E].
    rewrite Hpass in Hfails. discriminate.
  - split; [reflexivity|]. split; [reflexivity|exact Hsame].
Qed.

End Rebooking.

(* ------------------------------------------------------------------ *)
(** * The properties on the sample campus *)

Lemma Gregorian_uuidv4_fresh (m n : nat) :
  Gregorian.uuidv4 m = Gregorian.uuidv4 n -> m = n.
Proof.
  unfold Gregorian.uuidv4. simpl. intros H. injection H as H.
  apply (f_equal NilEmpty.uint_of_string) in H.
  rewrite !NilEmpty.usu in H. injection H as H.
  now apply Unsigned.to_uint_inj.
Qed.

(** ** The calendar of Europe/Belgrade

    The clock change of 2026-03-29 skips the local times from 02:00 to
    03:00 and no midnight: the calendar days follow one another, and
    [addDays] leads from the first instant of a day, its local midnight, to
    the first instant of the next day. *)






#[local] Existing Instance Gregorian.imports.

(** Each part of a conjunction of closed facts is computed. *)
Local Ltac computed :=
  repeat match goal with |- _ /\ _ => split end; vm_compute; reflexivity.

Example campus_stored :
  Sample.campus =
  mkDb [Student.mk "uuid-0" "Admin" "admin@test.com" true;
        Student.mk "uuid-2" "Ana" "ana@test.com" false;
        Student.mk "uuid-3" "Boris" "boris@test.com" false]
       [Sample.canteen] [] 4.
Proof. vm_compute. reflexivity. Qed.

(** C1 on the campus: the request of an unknown student passes the first
    check and is rejected by the second. *)
Lemma createReservation_checks_in_order_witness :
  createReservation Sample.campus (Sample.request "nobody" "11:00" 30)
                    Sample.now
  = (reject StudentNotFound, Sample.campus).
Proof.
  apply (proj1 (proj2 (createReservation_checks_in_order Sample.campus
                         (Sample.request "nobody" "11:00" 30) Sample.now))
           [MissingFields] StudentNotFound
           [InvalidDuration; InvalidTimeSlot; PastReservation;
            CanteenNotFound; OutsideWorkingHours; StudentDoubleBooked;
            CapacityExceeded]).
  - reflexivity.
  - intros earlier [<-|[]]. vm_compute. reflexivity.
  - vm_compute. reflexivity.
Defined.

(** C6 on the campus: Ana's reservation 11:00-12:00 does not stand in the
    way of a request for 12:00-12:30. *)
Lemma isOverlapping_half_open_witness :
  existsb (overlapsStudent "uuid-2" (Some (Sample.elevenOClock + 3600000))
                           (Some (Sample.elevenOClock + 5400000)))
          [Sample.anaAt11]
  = false.
Proof.
  apply (proj2 (proj2 (proj2 (proj2 isOverlapping_half_open)))).
  intros r s e [<-|[]] _ _ Hs He.
  vm_compute in Hs, He. injection Hs as <-. injection He as <-.
  left. vm_compute. discriminate.
Defined.

(** C7 on the campus: no reservation is stored, so none is found. *)
Lemma cancelReservation_contract_witness :
  cancelReservation Sample.campus "uuid-4"
  = (send 404 "Reservation not found", Sample.campus).
Proof.
  apply (proj1 (cancelReservation_contract Sample.campus "uuid-4")).
  intros r [].
Defined.

(** C9, amended, on the campus: a duration of 45 is an invalid duration. *)
Lemma createReservation_zero_duration_is_missing_witness :
  createReservation Sample.campus (Sample.request "uuid-2" "11:00" 45)
                    Sample.now
  = (reject InvalidDuration, Sample.campus).
Proof.
  apply (proj2 (proj2 (createReservation_zero_duration_is_missing
                         Sample.campus (Sample.request "uuid-2" "11:00" 45)
                         Sample.now)) 45);
    try reflexivity; discriminate.
Defined.

(** C2 on the campus: a 30-minute request at 11:00 fits the lunch block,
    from minute 660 to minute 900, and passes the check; a 30-minute
    request at 10:00 falls between breakfast and lunch. *)
Lemma working_hours_single_block_witness :
  fitsSingleBlock "11:00" 30 Sample.hours
  /\ createReservation Sample.campus (Sample.request "uuid-2" "11:00" 30)
                       Sample.now
     <> (reject OutsideWorkingHours, Sample.campus)
  /\ createReservation Sample.campus (Sample.request "uuid-2" "10:00" 30)
                       Sample.now
     = (reject OutsideWorkingHours, Sample.campus).
Proof.
  assert (fitsSingleBlock "11:00" 30 Sample.hours) as Hfits.
  { exists (WorkingHour.mk lunch "11:00" "15:00"), 660, 660, 900.
    repeat split; try (vm_compute; reflexivity); try lia.
    simpl. tauto. }
  split; [exact Hfits|]. split.
  - apply (proj1 (proj2 (proj2 (proj2 (working_hours_single_block
                     Sample.campus
                     (Sample.request "uuid-2" "11:00" 30) Sample.now
                     Sample.canteen
                     ltac:(intros earlier [<-|[<-|[<-|[<-|[<-|[<-|[]]]]]]];
                           vm_compute; reflexivity)
                     ltac:(vm_compute; reflexivity)))))).
    + vm_compute. reflexivity.
    + repeat constructor.
    + exact Hfits.
  - apply (proj1 (working_hours_single_block Sample.campus
                    (Sample.request "uuid-2" "10:00" 30) Sample.now
                    Sample.canteen
                    ltac:(intros earlier [<-|[<-|[<-|[<-|[<-|[<-|[]]]]]]];
                          vm_compute; reflexivity)
                    ltac:(vm_compute; reflexivity))).
    intros block [<-|[<-|[<-|[]]]]; intros [H1 H2]; vm_compute in H1, H2;
      discriminate.
Defined.

(** C10 on the campus: a request at 12:15 is rejected and changes nothing. *)
Lemma createReservation_rejection_keeps_store_witness :
  snd (createReservation Sample.campus (Sample.request "uuid-2" "12:15" 30)
                         Sample.now)
  = Sample.campus.
Proof.
  apply (createReservation_rejection_keeps_store Sample.campus
           (Sample.request "uuid-2" "12:15" 30) Sample.now InvalidTimeSlot).
  vm_compute. reflexivity.
Defined.

(** C9 as stated fails: with every string field present, a duration of 0
    is reported as missing fields, not as an invalid duration. *)
Lemma zero_duration_counterexample :
  fst (createReservation Sample.campus (Sample.request "uuid-2" "11:00" 0)
                         Sample.now)
  = reject MissingFields
  /\ fst (createReservation Sample.campus (Sample.request "uuid-2" "11:00" 0)
                            Sample.now)
     <> reject InvalidDuration.
Proof.
  split; [vm_compute; reflexivity|]. vm_compute. discriminate.
Qed.


(** The two other ways past the capacity, which the amended statement
    excludes as well: an update that gives a canteen the id of another, and
    a canteen created with a negative capacity. *)
Example capacity_exceeded_after_id_change :
  In Sample.renumberedCanteen (canteens (serve emptyDb Sample.renumbered))
  /\ Z.of_nat (List.length (activeAt (serve emptyDb Sample.renumbered)
                                     Sample.renumberedCanteen
                                     Sample.elevenOClock))
     > Canteen.capacity Sample.renumberedCanteen.
Proof. split; vm_compute; auto. Qed.

Example capacity_exceeded_by_negative_capacity :
  In Sample.negativeCanteen (canteens (serve emptyDb Sample.negative))
  /\ Z.of_nat (List.length (activeAt (serve emptyDb Sample.negative)
                                     Sample.negativeCanteen
                                     Sample.elevenOClock))
     > Canteen.capacity Sample.negativeCanteen.
Proof. split; vm_compute; auto. Qed.

(** The validator counts only the reservations whose date and time parse:
    the canteen for two holds three Active reservations for 2025-12-05 at
    "11:00:00", a time that the working-hours check reads as minute 660
    and that [parse] does not read, in a sequence of requests that keeps
    the capacities. *)
Example capacity_not_checked_without_instant :
  keepCapacity emptyDb Sample.thrice = true
  /\ canteens (serve emptyDb Sample.thrice) = [Sample.canteen]
  /\ reservations (serve emptyDb Sample.thrice)
     = [Sample.withoutInstant "uuid-4" "uuid-2";
        Sample.withoutInstant "uuid-5" "uuid-2";
        Sample.withoutInstant "uuid-6" "uuid-3"]
  /\ minutesOfDay "11:00:00" = JS.Finite 660
  /\ parseDateTime "2025-12-05T11:00:00" = None.
Proof. computed. Qed.

(** An update that is refused changes no canteen and keeps the
    capacities. *)
Example refused_update_keeps_capacity :
  keepCapacity emptyDb Sample.refused = true
  /\ serve emptyDb Sample.refused = serve emptyDb Sample.booked.
Proof. computed. Qed.




(** Both of Ana's reservations, the one that ends at 12:00 and the one
    that starts at 12:00, are stored as Active. *)
Example touching_reservations_both_active :
  reservations (serve emptyDb Sample.touching)
  = [Sample.anaAt11; Sample.anaAt12].
Proof. vm_compute. reflexivity. Qed.



(** C8 on the campus: Ana's second request for 11:00 is rejected; once her
    reservation is cancelled the same request creates a new one. *)
Lemma cancel_then_rebook_witness :
  createReservation Sample.anaBooked (Sample.request "uuid-2" "11:00" 30)
                    Sample.now
  = (reject StudentDoubleBooked, Sample.anaBooked)
  /\ fst (createReservation
            (snd (cancelReservation Sample.anaBooked "uuid-4"))
            (Sample.request "uuid-2" "11:00" 30) Sample.now)
     = mkResponse 201
         (JsonReservation
            (Reservation.mk "uuid-5" "uuid-2" "uuid-1" "2025-12-05" "11:00"
                            30 Active)).
Proof.
  assert (createReservation Sample.anaBooked
            (Sample.request "uuid-2" "11:00" 30) Sample.now
          = (reject StudentDoubleBooked, Sample.anaBooked)) as Hrejected
      by (vm_compute; reflexivity).
  split; [exact Hrejected|].
  destruct (cancel_then_rebook Sample.anaBooked
              (Sample.request "uuid-2" "11:00" 30) Sample.now Sample.now
              [] [] Sample.anaHalfHour StudentDoubleBooked)
    as (_ & _ & Hcreated & _).
  - vm_compute. reflexivity.
  - intros r [].
  - now left.
  - exact Hrejected.
  - vm_compute. reflexivity.
  - intros check [-> | ->]; vm_compute; reflexivity.
  - change (Reservation.id Sample.anaHalfHour) with "uuid-4" in Hcreated.
    rewrite Hcreated. vm_compute. reflexivity.
Defined.

(* ------------------------------------------------------------------ *)
(** * The primitives at the edges *)

(** [parseInt] gives the nearest double: beyond 2^53 an odd integer is
    rounded, a tie to the even significand, and 10^309 is an
    infinity. *)
Example parseInt_rounds :
  JS.parseInt (Some "9007199254740992") = JS.Finite 9007199254740992
  /\ JS.parseInt (Some "9007199254740993") = JS.Finite 9007199254740992
  /\ JS.parseInt (Some "9007199254740995") = JS.Finite 9007199254740996
  /\ JS.parseInt (Some ("1" ++ Gregorian.zeros 309)) = JS.Infinity false
  /\ JS.parseInt (Some ("-1" ++ Gregorian.zeros 309)) = JS.Infinity true.
Proof. computed. Qed.

(** [parseInt] skips white space, U+00A0 included, reads a sign and a
    hexadecimal prefix, and stops at the first character that is no digit;
    without a digit the result is NaN. *)
Example parseInt_reads :
  map JS.parseInt
      [Some " 11"; Some (String (ascii_of_nat 194) (String (ascii_of_nat 160) "11"));
       Some "0xB"; Some "-7"; Some "11:00"; Some "1e3"; Some ""; Some "x";
       None]
  = [JS.Finite 11; JS.Finite 11; JS.Finite 11; JS.Finite (-7); JS.Finite 11;
     JS.Finite 1; JS.NaN; JS.NaN; JS.NaN].
Proof. computed. Qed.

(** The working-hours check computes in doubles: beyond 2^54 the end of a
    30-minute request is rounded to a multiple of four, here downwards, to
    the end of the block. *)
Example working_hours_in_doubles :
  minutesOfDay "300239975158035:00" = JS.Finite 18014398509482100
  /\ JS.add (minutesOfDay "300239975158035:00") (JS.Finite 30)
     = JS.Finite 18014398509482128
  /\ fitsBlock "300239975158035:00" 30
               (WorkingHour.mk lunch "0:00" "300239975158035:28") = true.
Proof. computed. Qed.

(** [parse] takes years from 1 on, the days of the month, and white space,
    U+00A0 included, after the last field, and nothing else there. *)
Example parse_reads :
  map parseDate
      ["2025-12-05"; "2025-12-05 ";
       "2025-12-05" ++ String (ascii_of_nat 194) (String (ascii_of_nat 160) "");
       "0000-01-01"; "2025-02-30"; "2025-13-01"; "2025-12-05x"; " 2025-12-05"]
  = [Some 1764892800000; Some 1764892800000; Some 1764892800000;
     None; None; None; None; None]
  /\ map parseDateTime
         ["2025-12-05T11:00"; "2025-12-05T9:30"; "2025-12-05T11:00:00";
          "2025-12-05T24:00"; "2025-12-05 11:00"]
     = [Some 1764932400000; Some 1764927000000; None; None; None].
Proof. computed. Qed.

(** [format] writes a year beyond 9999 with all its digits. *)
Example format_writes :
  formatDate 1764932400000 = "2025-12-05"
  /\ formatTime 1764927000000 = "09:30"
  /\ formatDate 253402300800000 = "10000-01-01".
Proof. computed. Qed.

(* ------------------------------------------------------------------ *)
(** * The repository's tests, run on the embedding *)

Example allows_exact_working_hour_start :
  statusCode (fst (createReservation Fixture.db
    (Fixture.request "canteen-1" "2025-12-01" "07:00" 30) Sample.now)) = 201.
Proof. vm_compute. reflexivity. Qed.

Example allows_30_min_before_working_hour_ends :
  statusCode (fst (createReservation Fixture.db
    (Fixture.request "canteen-1" "2025-12-01" "09:30" 30) Sample.now)) = 201.
Proof. vm_compute. reflexivity. Qed.

Example rejects_60_min_beyond_working_hours :
  fst (createReservation Fixture.db
    (Fixture.request "canteen-1" "2025-12-01" "19:30" 60) Sample.now)
  = reject OutsideWorkingHours.
Proof. vm_compute. reflexivity. Qed.

Example rejects_between_meal_periods :
  fst (createReservation Fixture.db
    (Fixture.request "canteen-1" "2025-12-01" "10:30" 30) Sample.now)
  = reject OutsideWorkingHours.
Proof. vm_compute. reflexivity. Qed.

Example rejects_past_date :
  fst (createReservation Fixture.db
    (Fixture.request "canteen-1" "2020-01-01" "12:00" 30) Sample.now)
  = reject PastReservation.
Proof. vm_compute. reflexivity. Qed.

Example rejects_duration_45 :
  fst (createReservation Fixture.db
    (Fixture.request "canteen-1" "2025-12-01" "12:00" 45) Sample.now)
  = reject InvalidDuration.
Proof. vm_compute. reflexivity. Qed.

Example rejects_quarter_past :
  fst (createReservation Fixture.db
    (Fixture.request "canteen-1" "2025-12-01" "12:15" 30) Sample.now)
  = reject InvalidTimeSlot.
Proof. vm_compute. reflexivity. Qed.

Example rejects_unknown_canteen :
  fst (createReservation Fixture.db
    (Fixture.request "non-existent-canteen" "2025-12-01" "12:00" 30)
    Sample.now)
  = reject CanteenNotFound.
Proof. vm_compute. reflexivity. Qed.

Example does_not_count_cancelled_towards_capacity :
  statusCode (fst (createReservation
    (Fixture.withReservations (Fixture.ten 30 Cancelled))
    (Fixture.request "canteen-2" "2025-12-05" "11:00" 30) Sample.now)) = 201.
Proof. vm_compute. reflexivity. Qed.

Example checks_capacity_with_overlapping_reservations :
  fst (createReservation
    (Fixture.withReservations (Fixture.ten 60 Active))
    (Fixture.request "canteen-2" "2025-12-05" "11:30" 30) Sample.now)
  = reject CapacityExceeded.
Proof. vm_compute. reflexivity. Qed.

Example generates_slots_60_minutes_apart :
  getCanteenStatus 10 (Fixture.statusDb []) "status-canteen"
                   (Fixture.query "2025-12-01" "14:00" "60")
  = Some (mkResponse 200
            (JsonStatus "status-canteen"
               [Slot.mk "2025-12-01" lunch "11:00" 20;
                Slot.mk "2025-12-01" lunch "12:00" 20;
                Slot.mk "2025-12-01" lunch "13:00" 20])).
Proof. vm_compute. reflexivity. Qed.

Example calculates_remaining_capacity :
  getCanteenStatus 10
    (Fixture.statusDb
       [Reservation.mk "res-1" "student-1" "status-canteen" "2025-12-01"
                       "11:00" 30 Active])
    "status-canteen" (Fixture.query "2025-12-01" "12:00" "30")
  = Some (mkResponse 200
            (JsonStatus "status-canteen"
               [Slot.mk "2025-12-01" lunch "11:00" 19;
                Slot.mk "2025-12-01" lunch "11:30" 20])).
Proof. vm_compute. reflexivity. Qed.

Example returns_slots_for_multiple_days :
  getCanteenStatus 10 (Fixture.statusDb []) "status-canteen"
                   (Fixture.query "2025-12-03" "12:00" "30")
  = Some (mkResponse 200
            (JsonStatus "status-canteen"
               [Slot.mk "2025-12-01" lunch "11:00" 20;
                Slot.mk "2025-12-01" lunch "11:30" 20;
                Slot.mk "2025-12-02" lunch "11:00" 20;
                Slot.mk "2025-12-02" lunch "11:30" 20;
                Slot.mk "2025-12-03" lunch "11:00" 20;
                Slot.mk "2025-12-03" lunch "11:30" 20])).
Proof. vm_compute. reflexivity. Qed.

Example rejects_status_duration_45 :
  getCanteenStatus 10 (Fixture.statusDb []) "status-canteen"
                   (Fixture.query "2025-12-01" "12:00" "45")
  = Some (send 400 "Duration must be 30 or 60 minutes").
Proof. vm_compute. reflexivity. Qed.

(* ------------------------------------------------------------------ *)
(** * Further properties of the controllers *)

(** ** Students *)

Section Students.
Context {imports : Imports}.

(** The student that a registration stores. *)
Lemma createStudent_cases (db : Db) (body : StudentBody.t) :
  snd (createStudent db body) = db
  \/ (JS.falsyS (StudentBody.name body) = false
      /\ JS.falsyS (StudentBody.email body) = false
      /\ (forall s, In s (students db) ->
                    Student.email s <> JS.str (StudentBody.email body))
      /\ exists student,
           Student.id student = uuidv4 (uuids db)
           /\ Student.name student = JS.str (StudentBody.name body)
           /\ Student.email student = JS.str (StudentBody.email body)
           /\ createStudent db body
              = (mkResponse 201 (JsonStudent student),
                 mkDb (students db ++ [student]) (canteens db)
                      (reservations db) (S (uuids db)))).
Proof.
  unfold createStudent.
  destruct (JS.falsyS (StudentBody.name body)) eqn:Hname; [now left|].
  destruct (JS.falsyS (StudentBody.email body)) eqn:Hemail; [now left|].
  simpl.
  destruct (existsb _ (students db)) eqn:Hdup; [now left|].
  right. repeat split; auto.
  - intros s Hin E.
    assert (existsb (fun s => (Student.email s
                               =? JS.str (StudentBody.email body))%string)
                    (students db) = true) as Habs; [|congruence].
    apply existsb_exists. exists s. split; [exact Hin|].
    now apply String.eqb_eq.
  - exists (Student.mk (uuidv4 (uuids db)) (JS.str (StudentBody.name body))
              (JS.str (StudentBody.email body))
              (match StudentBody.isAdmin body with
               | Some b => b
               | None => false
               end)).
    repeat split; reflexivity.
Qed.

(** A request changes the students only by appending a registration. *)
Lemma handle_students (db : Db) (op : Op) :
  students (snd (handle db op)) = students db
  \/ exists student,
       students (snd (handle db op)) = (students db ++ [student])%list
       /\ Student.id student = uuidv4 (uuids db)
       /\ Student.name student <> ""
       /\ Student.email student <> ""
       /\ forall s, In s (students db) ->
                    Student.email s <> Student.email student.
Proof.
  destruct op as [body|sid body|sid id body|sid id|body now|id]; simpl.
  - destruct (createStudent_cases db body)
      as [->|(Hname & Hemail & Hnew & student & Hid & Hn & He & ->)];
      [now left|].
    right. exists student. simpl. rewrite Hn, He. repeat split; auto.
    + destruct (StudentBody.name body) as [n|]; [|discriminate].
      simpl in *. now apply String.eqb_neq.
    + destruct (StudentBody.email body) as [e|]; [|discriminate].
      simpl in *. now apply String.eqb_neq.
  - left. unfold createCanteen.
    destruct (negb _); [reflexivity|]. now destruct (_ || _).
  - left. unfold updateCanteen.
    destruct (negb _); [reflexivity|]. now destruct (find _ _).
  - left. unfold deleteCanteen.
    destruct (negb _); [reflexivity|]. now destruct (find _ _).
  - left. now destruct (createReservation_cases db body now)
      as [(reason & _ & ->)|[_ ->]].
  - left. unfold cancelReservation. now destruct (find _ _).
Qed.

(** X1. After any sequence of requests served from the empty store, every
    stored student has a name and an email that are not empty, and no two
    stored students have the same email. *)
Theorem student_emails_distinct (ops : list Op) :
  NoDup (map Student.email (students (serve emptyDb ops)))
  /\ Forall (fun s => Student.name s <> "" /\ Student.email s <> "")
            (students (serve emptyDb ops)).
Proof.
  apply (serve_invariant
           (fun db =>
              NoDup (map Student.email (students db))
              /\ Forall (fun s => Student.name s <> ""
                                  /\ Student.email s <> "") (students db))).
  - intros db op [Hnodup Hall].
    destruct (handle_students db op)
      as [->|(student & -> & _ & Hname & Hemail & Hnew)]; [now split|].
    split.
    + rewrite map_app. simpl. apply NoDup_snoc; [exact Hnodup|].
      intros Hin. apply in_map_iff in Hin. destruct Hin as (s & E & Hin).
      now apply (Hnew s Hin).
    + apply Forall_app. split; [exact Hall|]. now repeat constructor.
  - split; constructor.
Qed.

End Students.

(** ** What the store keeps *)

Lemma cancelledOrSame_trans (a b c : Reservation.t) :
  cancelledOrSame a b -> cancelledOrSame b c -> cancelledOrSame a c.
Proof.
  intros [->| ->] [->| ->]; [now left|now right|now right|now right].
Qed.

Lemma Forall2_trans {A : Type} (W : A -> A -> Prop) :
  (forall a b c, W a b -> W b c -> W a c) ->
  forall l1 l2 l3, Forall2 W l1 l2 -> Forall2 W l2 l3 -> Forall2 W l1 l3.
Proof.
  intros HW l1 l2 l3 H12. revert l3.
  induction H12 as [|a b l1 l2 Hab _ IH]; intros l3 H23;
    inversion H23; subst; constructor; eauto.
Qed.

Section History.
Context {imports : Imports}.

Lemma falsyS_false (s : option string) :
  JS.falsyS s = false -> JS.str s <> "".
Proof.
  destruct s as [s|]; simpl; [|discriminate]. apply String.eqb_neq.
Qed.

Lemma students_kept (db : Db) (op : Op) (s : Student.t) :
  In s (students db) -> In s (students (snd (handle db op))).
Proof.
  intros Hin.
  destruct (handle_students db op) as [->|(student & -> & _)]; [exact Hin|].
  apply in_app_iff. now left.
Qed.

Lemma wellFormed_cancelledOrSame (db db' : Db) (r r' : Reservation.t) :
  (forall s, In s (students db) -> In s (students db')) ->
  cancelledOrSame r r' -> wellFormed db r -> wellFormed db' r'.
Proof.
  intros Hkept [->| ->] (Hd & Hg & Hs & Hc & Hdate & s & Hin & Hid);
    repeat split; auto; exists s; auto.
Qed.

Lemma wellFormed_created (db : Db) (body : ReservationBody.t) (now : Z) :
  (forall reason, fails db body now reason = false) ->
  wellFormed db (created db body).
Proof.
  intros Hpass.
  pose proof (Hpass MissingFields) as H1.
  pose proof (Hpass StudentNotFound) as H2.
  pose proof (Hpass InvalidDuration) as H3.
  pose proof (Hpass InvalidTimeSlot) as H4.
  cbn [fails] in H1, H2, H3, H4.
  rewrite !orb_false_iff in H1. destruct H1 as [[[[Hs Hc] Hd] Ht] _].
  unfold wellFormed. simpl. repeat split.
  - apply negb_false_iff, orb_true_iff in H3.
    destruct H3 as [H3|H3]; apply Z.eqb_eq in H3; auto.
  - now apply negb_false_iff in H4.
  - now apply falsyS_false.
  - now apply falsyS_false.
  - now apply falsyS_false.
  - unfold findStudentById in H2.
    destruct (find _ (students db)) as [s|] eqn:Hfind; [|discriminate].
    apply find_some in Hfind. destruct Hfind as [Hin Hid].
    exists s. split; [exact Hin|]. now apply String.eqb_eq.
Qed.

Lemma handle_wellFormed (db : Db) (op : Op) :
  Forall (wellFormed db) (reservations db) ->
  Forall (wellFormed (snd (handle db op))) (reservations (snd (handle db op))).
Proof.
  intros Hall. rewrite Forall_forall in *.
  destruct (handle_reservations db op) as [H|(body & now & -> & Hpass & E)].
  - intros r' Hin.
    destruct (Forall2_In_r _ _ _ r' H Hin) as (r & Hr & Hw).
    apply (wellFormed_cancelledOrSame db _ r r'); auto.
    intros s. apply students_kept.
  - rewrite E. intros r Hin. simpl in Hin. apply in_app_iff in Hin.
    destruct Hin as [Hin|[<-|[]]].
    + apply (wellFormed_cancelledOrSame db _ r r); auto. now left.
    + apply (wellFormed_cancelledOrSame db _ _ _ (fun s H => H)
               (or_introl eq_refl)).
      now apply (wellFormed_created db body now).
Qed.

(** X2. After any sequence of requests served from the empty store, every
    stored reservation, Active or Cancelled, has a duration of 30 or 60
    minutes, a time whose minute part is "00" or "30", a student id, a
    canteen id and a date that are not empty, and its student is stored. *)
Theorem stored_reservations_well_formed (ops : list Op) (r : Reservation.t)
  (Hstored : In r (reservations (serve emptyDb ops))) :
  (Reservation.duration r = 30 \/ Reservation.duration r = 60)
  /\ onGrid (Reservation.time r) = true
  /\ Reservation.studentId r <> ""
  /\ Reservation.canteenId r <> ""
  /\ Reservation.date r <> ""
  /\ exists s, In s (students (serve emptyDb ops))
               /\ Student.id s = Reservation.studentId r.
Proof.
  revert r Hstored. apply Forall_forall.
  apply (serve_invariant
           (fun db => Forall (wellFormed db) (reservations db))).
  - apply handle_wellFormed.
  - constructor.
Qed.

(** One request keeps the stored reservations in place, at most cancelling
    some, and may append one. *)
Lemma handle_history (db : Db) (op : Op) :
  exists kept added,
    reservations (snd (handle db op)) = (kept ++ added)%list
    /\ Forall2 cancelledOrSame (reservations db) kept.
Proof.
  destruct (handle_reservations db op) as [H|(body & now & _ & _ & ->)].
  - exists (reservations (snd (handle db op))), []. now rewrite app_nil_r.
  - exists (reservations db), [created db body]. split; [reflexivity|].
    apply Forall2_same. now left.
Qed.

(** X3. Requests never remove a student or a reservation and never
    rewrite one: after any sequence of requests the students of before
    are the first students of the store, unchanged, and the reservations
    of before are its first reservations, each one unchanged or with its
    status set to Cancelled; so a Cancelled reservation stays as it is. *)
Theorem records_are_kept (db : Db) (ops : list Op) :
  (exists registered,
      students (serve db ops) = (students db ++ registered)%list)
  /\ (exists kept added,
        reservations (serve db ops) = (kept ++ added)%list
        /\ Forall2 cancelledOrSame (reservations db) kept
        /\ Forall2 (fun before after =>
                      Reservation.status before = Cancelled ->
                      after = before)
                   (reservations db) kept).
Proof.
  assert (forall l l', Forall2 cancelledOrSame l l' ->
            Forall2 (fun before after =>
                       Reservation.status before = Cancelled ->
                       after = before) l l') as Hfinal.
  { induction 1 as [|r r' l l' Hr _ IH]; constructor; auto.
    intros Hc. destruct Hr as [->| ->]; [reflexivity|].
    now rewrite <- Hc, withStatus_same. }
  unfold serve. revert db.
  induction ops as [|op ops IH]; intros db; simpl.
  - split.
    + exists []. now rewrite app_nil_r.
    + exists (reservations db), []. rewrite app_nil_r.
      assert (Forall2 cancelledOrSame (reservations db) (reservations db))
        by (apply Forall2_same; now left).
      auto.
  - destruct (IH (snd (handle db op)))
      as [(registered & Hs) (kept & added & Hr & Hkept & _)].
    split.
    + rewrite Hs.
      destruct (handle_students db op) as [->|(student & -> & _)].
      * now exists registered.
      * exists (student :: registered). now rewrite <- app_assoc.
    + destruct (handle_history db op) as (kept0 & added0 & E & Hkept0).
      rewrite E in Hkept. apply Forall2_app_inv_l in Hkept.
      destruct Hkept as (kept1 & added1 & Hk1 & _ & ->).
      exists kept1, (added1 ++ added)%list.
      rewrite Hr, <- app_assoc.
      assert (Forall2 cancelledOrSame (reservations db) kept1)
        by (eapply Forall2_trans; eauto using cancelledOrSame_trans).
      auto.
Qed.

(** X4. As long as no administrator is registered nothing can be booked:
    after any sequence of requests served from the empty store, a store
    without a student whose isAdmin flag is set has no canteen and no
    reservation. *)
Theorem no_canteen_without_admin (ops : list Op)
  (Hnone : forall s, In s (students (serve emptyDb ops)) ->
                     Student.isAdmin s = false) :
  canteens (serve emptyDb ops) = []
  /\ reservations (serve emptyDb ops) = [].
Proof.
  revert Hnone.
  apply (serve_invariant
           (fun db =>
              (forall s, In s (students db) -> Student.isAdmin s = false) ->
              canteens db = [] /\ reservations db = [])); [|now split].
  intros db op IH Hnone.
  assert (forall s, In s (students db) -> Student.isAdmin s = false) as Hbefore
      by (intros s Hin; apply Hnone; now apply students_kept).
  destruct (IH Hbefore) as [Hc Hr].
  assert (forall studentId, isAdmin db studentId = false) as Hadmin.
  { intros studentId. unfold isAdmin.
    destruct (JS.falsyS studentId); [reflexivity|].
    destruct (find _ (students db)) as [s|] eqn:Hfind; [|reflexivity].
    apply find_some in Hfind. now apply Hbefore. }
  destruct op as [body|sid body|sid id body|sid id|body now|id]; simpl.
  - destruct (createStudent_cases db body)
      as [->|(_ & _ & _ & student & _ & _ & _ & ->)]; auto.
  - unfold createCanteen. rewrite Hadmin. auto.
  - unfold updateCanteen. rewrite Hadmin. auto.
  - unfold deleteCanteen. rewrite Hadmin. auto.
  - destruct (createReservation_cases db body now)
      as [(reason & _ & ->)|[Hpass _]]; [auto|].
    specialize (Hpass CanteenNotFound). cbn [fails] in Hpass.
    unfold findCanteenById in Hpass. rewrite Hc in Hpass. discriminate.
  - unfold cancelReservation. rewrite Hr. auto.
Qed.

End History.

(** ** Cancelling twice, and in either order *)

Lemma mutateFirst_none {A : Type} (p : A -> bool) (f : A -> A) (l : list A) :
  find p l = None -> mutateFirst p f l = l.
Proof.
  induction l as [|x l IH]; simpl; [reflexivity|].
  destruct (p x); [discriminate|]. intros H. now rewrite IH.
Qed.

Lemma mutateFirst_comm {A : Type} (p q : A -> bool) (f : A -> A)
  (l : list A) :
  (forall x, p (f x) = p x) -> (forall x, q (f x) = q x) ->
  (forall x, f (f x) = f x) ->
  mutateFirst p f (mutateFirst q f l) = mutateFirst q f (mutateFirst p f l).
Proof.
  intros Hp Hq Hf. induction l as [|x l IH]; simpl; [reflexivity|].
  destruct (p x) eqn:Epx, (q x) eqn:Eqx; simpl;
    rewrite ?Hp, ?Hq, ?Epx, ?Eqx, ?Hf; try reflexivity.
  now rewrite IH.
Qed.

(** The store after a cancellation, found or not. *)
Lemma cancelReservation_store (db : Db) (id : string) :
  snd (cancelReservation db id)
  = mkDb (students db) (canteens db)
         (mutateFirst (fun r => (Reservation.id r =? id)%string)
                      (Reservation.withStatus Cancelled) (reservations db))
         (uuids db).
Proof.
  unfold cancelReservation.
  destruct (find _ (reservations db)) eqn:E; [reflexivity|].
  rewrite mutateFirst_none by exact E. now destruct db.
Qed.

(** X5. Cancelling is idempotent: a second cancellation of the same id
    gives the response of the first one, found or not, and leaves the store
    as the first one left it. *)
Theorem cancelReservation_idempotent (db : Db) (id : string) :
  cancelReservation (snd (cancelReservation db id)) id
  = (fst (cancelReservation db id), snd (cancelReservation db id)).
Proof.
  destruct (find (fun r => (Reservation.id r =? id)%string) (reservations db))
    as [r|] eqn:E.
  - assert (cancelReservation db id
            = (mkResponse 200
                 (JsonReservation (Reservation.withStatus Cancelled r)),
               mkDb (students db) (canteens db)
                    (mutateFirst (fun r => (Reservation.id r =? id)%string)
                                 (Reservation.withStatus Cancelled)
                                 (reservations db))
                    (uuids db))) as Hfirst
        by (unfold cancelReservation; now rewrite E).
    rewrite Hfirst. simpl.
    apply find_some_split in E.
    destruct E as (before & after & Hsplit & Hr & Hbefore).
    rewrite Hsplit, mutateFirst_split by auto.
    unfold cancelReservation. simpl.
    rewrite (find_first_failing _ before
               (Reservation.withStatus Cancelled r) after Hbefore Hr).
    rewrite mutateFirst_split by auto. reflexivity.
  - assert (cancelReservation db id
            = (send 404 "Reservation not found", db)) as Hfirst
        by (unfold cancelReservation; now rewrite E).
    rewrite Hfirst. simpl. exact Hfirst.
Qed.

(** X6. Two cancellations commute: cancelling [a] and then [b] leaves the
    store that cancelling [b] and then [a] leaves. *)
Theorem cancelReservation_commutes (db : Db) (a b : string) :
  snd (cancelReservation (snd (cancelReservation db a)) b)
  = snd (cancelReservation (snd (cancelReservation db b)) a).
Proof.
  rewrite !cancelReservation_store. simpl.
  f_equal. apply mutateFirst_comm; reflexivity.
Qed.

(** ** Deleting a canteen *)

Lemma removeFirst_length {A : Type} (p : A -> bool) (l : list A) (x : A) :
  find p l = Some x ->
  S (List.length (removeFirst p l)) = List.length l.
Proof.
  induction l as [|y l IH]; simpl; [discriminate|].
  destruct (p y); [reflexivity|]. intros H. simpl. now rewrite IH.
Qed.

Lemma removeFirst_find_none {A B : Type} (p : A -> bool) (g : A -> B)
  (l : list A) :
  NoDup (map g l) ->
  (forall x y, p x = true -> p y = true -> g x = g y) ->
  find p (removeFirst p l) = None.
Proof.
  intros Hnodup Hp.
  induction l as [|x l IH]; simpl; [reflexivity|].
  inversion Hnodup as [|? ? Hx Hl]; subst.
  destruct (p x) eqn:Epx.
  - apply find_none_iff. intros y Hy.
    destruct (p y) eqn:Epy; [|reflexivity].
    elim Hx. rewrite (Hp x y Epx Epy). now apply in_map.
  - simpl. rewrite Epx. now apply IH.
Qed.

(** X7. When an administrator deletes a stored canteen, the answer is 204,
    one canteen fewer is stored, every reservation for the deleted id is
    Cancelled afterwards, the reservations for other canteens and the
    students are untouched, and, the canteen ids being distinct, a canteen
    with that id is no longer found. *)
Theorem deleteCanteen_cascade (db : Db) (studentId : option string)
  (id : string) (canteen : Canteen.t)
  (Hadmin : isAdmin db studentId = true)
  (Hfound : findCanteenById db id = Some canteen) :
  let db' := snd (deleteCanteen db studentId id) in
  fst (deleteCanteen db studentId id) = sendEmpty 204
  /\ S (List.length (canteens db')) = List.length (canteens db)
  /\ (forall r, In r (reservations db') ->
                Reservation.canteenId r = id ->
                Reservation.status r = Cancelled)
  /\ Forall2 (fun before after =>
                after = before
                \/ (Reservation.canteenId before = id
                    /\ after = Reservation.withStatus Cancelled before))
             (reservations db) (reservations db')
  /\ students db' = students db
  /\ (NoDup (map Canteen.id (canteens db)) ->
      findCanteenById db' id = None
      /\ getCanteenById db' id = sendEmpty 404).
Proof.
  unfold deleteCanteen, findCanteenById, getCanteenById in *.
  rewrite Hadmin, Hfound. simpl.
  split; [reflexivity|]. split; [now apply (removeFirst_length _ _ canteen)|].
  split; [|split; [|split]].
  - intros r' Hin Hid. apply in_map_iff in Hin. destruct Hin as (r & <- & _).
    destruct (String.eqb_spec (Reservation.canteenId r) id) as [E|E];
      destruct (Reservation.status r) eqn:Hs; simpl in *; congruence.
  - induction (reservations db) as [|r l IH]; simpl; constructor; auto.
    destruct (String.eqb_spec (Reservation.canteenId r) id) as [E|E];
      destruct (Reservation.status r); simpl; auto.
  - reflexivity.
  - intros Hnodup.
    rewrite (removeFirst_find_none _ Canteen.id _ Hnodup); [now split|].
    intros x y Hx Hy. apply String.eqb_eq in Hx, Hy. congruence.
Qed.

(** ** Edges and bounds of the slot calculator *)

Lemma Forall2_flat_map {A B : Type} (R : B -> B -> Prop) (f g : A -> list B)
  (l : list A) :
  (forall x, In x l -> Forall2 R (f x) (g x)) ->
  Forall2 R (flat_map f l) (flat_map g l).
Proof.
  induction l as [|x l IH]; simpl; intros H; [constructor|].
  apply Forall2_app; [apply H; now left|].
  apply IH. intros y Hy. apply H. now right.
Qed.

Section SlotEdges.
Context {imports : Imports}.

Lemma slotLoop_no_candidate (fuel : nat) (db : Db) (canteen : Canteen.t)
  (dateStr : string) (endSlotTime currentSlotTime : Date) (duration : Z)
  (resultSlots : list Slot.t) :
  (forall first bound, currentSlotTime = Some first ->
                       endSlotTime = Some bound -> bound <= first) ->
  slotLoop fuel db canteen dateStr endSlotTime duration currentSlotTime
           resultSlots
  = Some resultSlots.
Proof.
  intros H.
  destruct fuel; simpl; destruct currentSlotTime as [first|];
    try reflexivity; destruct endSlotTime as [bound|]; try reflexivity;
    specialize (H first bound eq_refl eq_refl);
    destruct (Z.ltb_spec first bound); try reflexivity; lia.
Qed.

Lemma dayLoop_no_candidate (db : Db) (canteen : Canteen.t)
  (startTime endTime : string) (duration last : Z) (slotFuel : nat) :
  (forall day first bound,
      parseDateTime (formatDate day ++ "T" ++ startTime) = Some first ->
      parseDateTime (formatDate day ++ "T" ++ endTime) = Some bound ->
      bound <= first) ->
  forall (fuel n : nat) (day : Z) (resultSlots : list Slot.t),
    (last - day) / shortestDay + 1 <= Z.of_nat n ->
    (List.length (daysUpTo n day last) <= fuel)%nat ->
    dayLoop fuel slotFuel db canteen (Some last) startTime endTime duration
            (Some day) resultSlots
    = Some resultSlots.
Proof.
  intros Hnone.
  induction fuel as [|fuel IH]; intros n day resultSlots Hn Hfuel;
    destruct (daysUpTo_unfold n day last Hn) as [Hdays Hleft];
    rewrite Hdays in Hfuel; simpl; rewrite dayLoop_condition;
    destruct (Z.leb_spec day last) as [Hday|Hday]; simpl in *;
    try reflexivity; try lia.
  pose proof (slotLoop_no_candidate slotFuel db canteen (formatDate day)
                (parseDateTime (formatDate day ++ "T" ++ endTime))
                (parseDateTime (formatDate day ++ "T" ++ startTime))
                duration resultSlots (Hnone day)) as Hinner.
  simpl in Hinner. rewrite Hinner.
  apply (IH (pred n)); [auto|lia].
Qed.

(** X8. The slot calculator answers with no slot, and needs no iteration
    for it, when a date of the range is not a date or when endDate comes
    before startDate, whatever the duration; and it answers with no slot
    when on no day endTime comes after startTime, given an iteration for
    each day of the range. *)
Theorem calculateSlots_empty_range (db : Db) (canteen : Canteen.t)
  (startDate endDate startTime endTime : string) (duration : Z) :
  (parseDate startDate = None \/ parseDate endDate = None ->
   forall fuel,
     calculateSlots fuel db canteen startDate endDate startTime endTime
                    duration = Some [])
  /\ (forall first last,
        parseDate startDate = Some first -> parseDate endDate = Some last ->
        last < first ->
        forall fuel,
          calculateSlots fuel db canteen startDate endDate startTime endTime
                         duration = Some [])
  /\ ((forall day first bound,
          parseDateTime (formatDate day ++ "T" ++ startTime) = Some first ->
          parseDateTime (formatDate day ++ "T" ++ endTime) = Some bound ->
          bound <= first) ->
      forall fuel,
        (List.length (daysOfRange startDate endDate) <= fuel)%nat ->
        calculateSlots fuel db canteen startDate endDate startTime endTime
                       duration = Some []).
Proof.
  unfold calculateSlots, daysOfRange. split; [|split].
  - intros [H|H] fuel; rewrite H.
    + now destruct fuel.
    + destruct fuel; simpl; now destruct (parseDate startDate).
  - intros first last -> -> Hlt fuel.
    destruct fuel; simpl;
      destruct (Z.ltb_spec first last), (Z.eqb_spec first last);
      simpl; try reflexivity; lia.
  - intros Hnone fuel.
    destruct (parseDate startDate) as [first|];
      [destruct (parseDate endDate) as [last|]|]; intros Hfuel.
    + apply (dayLoop_no_candidate db canteen startTime endTime duration
               last fuel Hnone fuel
               (Z.to_nat ((last - first) / shortestDay + 1)));
        [lia|exact Hfuel].
    + now destruct fuel.
    + now destruct fuel.
Qed.

(** The property of a slot that the calculator gives for the canteen. *)
Lemma slotStep_bounds (P : Slot.t -> Prop) (db : Db) (canteen : Canteen.t)
  (dateStr : string) (duration cur : Z) (resultSlots : list Slot.t) :
  (forall slot,
      0 <= Slot.remainingCapacity slot <= Z.max 0 (Canteen.capacity canteen) ->
      (exists block, In block (Canteen.workingHours canteen)
                     /\ Slot.meal slot = WorkingHour.meal block) ->
      P slot) ->
  Forall P resultSlots ->
  Forall P (slotStep db canteen dateStr duration cur resultSlots).
Proof.
  intros HP Hall. unfold slotStep.
  destruct (find _ (Canteen.workingHours canteen)) as [block|] eqn:Hfind;
    [|exact Hall].
  apply Forall_app. split; [exact Hall|]. repeat constructor.
  apply HP; simpl.
  - unfold JS.max. lia.
  - exists block. split; [|reflexivity]. now apply find_some in Hfind.
Qed.

Lemma slotLoop_bounds (P : Slot.t -> Prop) (db : Db) (canteen : Canteen.t)
  (dateStr : string) (endSlotTime : Date) (duration : Z) :
  (forall slot,
      0 <= Slot.remainingCapacity slot <= Z.max 0 (Canteen.capacity canteen) ->
      (exists block, In block (Canteen.workingHours canteen)
                     /\ Slot.meal slot = WorkingHour.meal block) ->
      P slot) ->
  forall fuel currentSlotTime resultSlots slots,
    Forall P resultSlots ->
    slotLoop fuel db canteen dateStr endSlotTime duration currentSlotTime
             resultSlots = Some slots ->
    Forall P slots.
Proof.
  intros HP.
  induction fuel as [|fuel IH]; intros cur acc slots Hacc; simpl;
    destruct cur as [cur|]; try (now intros [= <-]);
    destruct endSlotTime as [fin|]; try (now intros [= <-]);
    destruct (cur <? fin); try (now intros [= <-]); try discriminate.
  apply IH. now apply slotStep_bounds.
Qed.

Lemma dayLoop_bounds (P : Slot.t -> Prop) (db : Db) (canteen : Canteen.t)
  (finalDay : Date) (startTime endTime : string) (duration : Z)
  (slotFuel : nat) :
  (forall slot,
      0 <= Slot.remainingCapacity slot <= Z.max 0 (Canteen.capacity canteen) ->
      (exists block, In block (Canteen.workingHours canteen)
                     /\ Slot.meal slot = WorkingHour.meal block) ->
      P slot) ->
  forall fuel currentDay resultSlots slots,
    Forall P resultSlots ->
    dayLoop fuel slotFuel db canteen finalDay startTime endTime duration
            currentDay resultSlots = Some slots ->
    Forall P slots.
Proof.
  intros HP.
  induction fuel as [|fuel IH]; intros day acc slots Hacc; simpl;
    destruct day as [day|]; try (now intros [= <-]);
    destruct finalDay as [fin|]; try (now intros [= <-]);
    destruct ((day <? fin) || (day =? fin)); try (now intros [= <-]);
    try discriminate.
  destruct (slotLoop _ _ _ _ _ _ _ _) as [acc'|] eqn:Hinner; [|discriminate].
  apply IH. eapply slotLoop_bounds; eauto.
Qed.

(** X9. Whatever the fuel, the duration and the stored reservations, every
    slot that the calculator returns for a canteen carries a remaining
    capacity between 0 and the capacity of the canteen (0 when that
    capacity is negative) and the meal of one of its working-hour blocks;
    a canteen without working hours has no slot. *)
Theorem calculateSlots_bounds (fuel : nat) (db : Db) (canteen : Canteen.t)
  (startDate endDate startTime endTime : string) (duration : Z)
  (slots : list Slot.t)
  (Hslots : calculateSlots fuel db canteen startDate endDate startTime
                           endTime duration = Some slots) :
  (forall slot, In slot slots ->
      0 <= Slot.remainingCapacity slot <= Z.max 0 (Canteen.capacity canteen)
      /\ exists block, In block (Canteen.workingHours canteen)
                       /\ Slot.meal slot = WorkingHour.meal block)
  /\ (Canteen.workingHours canteen = [] -> slots = []).
Proof.
  assert (Forall (fun slot =>
            0 <= Slot.remainingCapacity slot
              <= Z.max 0 (Canteen.capacity canteen)
            /\ exists block, In block (Canteen.workingHours canteen)
                             /\ Slot.meal slot = WorkingHour.meal block)
            slots) as Hall.
  { unfold calculateSlots in Hslots.
    eapply dayLoop_bounds; [|constructor|exact Hslots]. auto. }
  rewrite Forall_forall in Hall. split; [exact Hall|].
  intros Hnone. destruct slots as [|slot slots]; [reflexivity|].
  destruct (Hall slot (or_introl eq_refl)) as (_ & block & Hin & _).
  rewrite Hnone in Hin. destruct Hin.
Qed.

Lemma slotOfCandidate_cancelledOrSame (db db' : Db) (canteen : Canteen.t)
  (day duration candidate : Z) :
  Forall2 cancelledOrSame (reservations db) (reservations db') ->
  Forall2 (fun before after =>
             Slot.date after = Slot.date before
             /\ Slot.meal after = Slot.meal before
             /\ Slot.startTime after = Slot.startTime before
             /\ Slot.remainingCapacity before <= Slot.remainingCapacity after)
          (slotOfCandidate db canteen day duration candidate)
          (slotOfCandidate db' canteen day duration candidate).
Proof.
  intros Hr. unfold slotOfCandidate.
  destruct (find _ (Canteen.workingHours canteen)); constructor;
    [|constructor].
  simpl. repeat split.
  match goal with
  | |- Z.max 0 (_ - Z.of_nat (List.length (filter ?p _)))
       <= Z.max 0 (_ - Z.of_nat (List.length (filter _ _))) =>
      pose proof (filter_length_Forall2 cancelledOrSame p
                    (reservations db) (reservations db')) as Hle
  end.
  assert (forall r r', cancelledOrSame r r' ->
            overlapsSlot canteen (Some candidate)
              (Some (candidate + duration * DateFns.millisecondsInMinute)) r'
            = true ->
            overlapsSlot canteen (Some candidate)
              (Some (candidate + duration * DateFns.millisecondsInMinute)) r
            = true) as Himp.
  { intros r r' [->| ->]; [auto|].
    rewrite overlapsSlot_overlapsCanteen, overlapsCanteen_cancelled.
    discriminate. }
  specialize (Hle Himp Hr). lia.
Qed.

(** X10. A cancellation never lowers availability: with a positive
    duration and enough iterations, the slots of a canteen after a
    cancellation are the slots of before, in the same order and with the
    same date, meal and start time, each with a remaining capacity that is
    at least what it was. *)
Theorem cancellation_never_lowers_availability (fuel : nat) (db : Db)
  (id : string) (canteen : Canteen.t)
  (startDate endDate startTime endTime : string) (duration : Z)
  (Hduration : 0 < duration)
  (Hfuel : (enoughFuel startDate endDate startTime endTime duration
            <= fuel)%nat) :
  exists before after,
    calculateSlots fuel db canteen startDate endDate startTime endTime
                   duration = Some before
    /\ calculateSlots fuel (snd (cancelReservation db id)) canteen
                      startDate endDate startTime endTime duration
       = Some after
    /\ Forall2 (fun slot slot' =>
                  Slot.date slot' = Slot.date slot
                  /\ Slot.meal slot' = Slot.meal slot
                  /\ Slot.startTime slot' = Slot.startTime slot
                  /\ Slot.remainingCapacity slot
                     <= Slot.remainingCapacity slot')
               before after.
Proof.
  rewrite !calculateSlots_slotsOfRange by assumption.
  eexists. eexists. split; [reflexivity|]. split; [reflexivity|].
  unfold slotsOfRange, slotsOfDay.
  apply Forall2_flat_map. intros day _.
  apply Forall2_flat_map. intros candidate _.
  apply slotOfCandidate_cancelledOrSame.
  rewrite cancelReservation_store. simpl.
  apply mutateFirst_cancelledOrSame.
Qed.

(** X11. The capacity check and the slot calculator agree: for a request
    that passes the eight checks before the capacity check and starts at
    the instant of a slot that the calculator shows for the same canteen
    and duration, the request is rejected for capacity exactly when the
    remaining capacity of the slot is 0, and accepted exactly when it is
    positive. *)
Theorem capacity_check_agrees_with_slot (db : Db) (body : ReservationBody.t)
  (now : Z) (canteen : Canteen.t) (dateStr : string) (cur : Z)
  (slot : Slot.t)
  (Hcanteen : findCanteenById db (JS.str (ReservationBody.canteenId body))
              = Some canteen)
  (Hstart : parseDateTime (JS.str (ReservationBody.date body) ++ "T"
                           ++ JS.str (ReservationBody.time body)) = Some cur)
  (Hslot : slotStep db canteen dateStr
                    (JS.num (ReservationBody.duration body)) cur [] = [slot])
  (Hreaches : forall earlier, earlier <> CapacityExceeded ->
                              fails db body now earlier = false) :
  (createReservation db body now = (reject CapacityExceeded, db)
   <-> Slot.remainingCapacity slot = 0)
  /\ (statusCode (fst (createReservation db body now)) = 201
      <-> 0 < Slot.remainingCapacity slot).
Proof.
  rewrite createReservation_firstFailure.
  unfold firstFailure, precedence. cbn [find].
  rewrite !Hreaches by discriminate.
  cbn [fails]. rewrite Hcanteen.
  unfold findCanteenById in Hcanteen. apply find_some in Hcanteen.
  destruct Hcanteen as [_ Hid]. apply String.eqb_eq in Hid.
  unfold requestEnd, requestStart. rewrite Hstart.
  unfold slotStep in Hslot. simpl in Hslot.
  destruct (find _ (Canteen.workingHours canteen)); [|discriminate].
  injection Hslot as <-. simpl.
  assert (forall r,
            overlapsSlot canteen (Some cur)
              (Some (cur + JS.num (ReservationBody.duration body)
                           * DateFns.millisecondsInMinute)) r
            = overlapsCanteen (JS.str (ReservationBody.canteenId body))
                (Some cur)
                (DateFns.addMinutes (Some cur)
                   (JS.num (ReservationBody.duration body))) r) as Hsame
      by (intros r; rewrite overlapsSlot_overlapsCanteen, Hid; reflexivity).
  rewrite (filter_ext _ _ Hsame).
  unfold JS.max. simpl.
  match goal with
  | |- context [Z.of_nat (List.length (filter ?p ?l)) >=? _] =>
      set (count := Z.of_nat (List.length (filter p l)))
  end.
  destruct (Z.geb_spec count (Canteen.capacity canteen)) as [Hfull|Hroom];
    simpl.
  - split; split; try reflexivity; try discriminate; lia.
  - split; split; try reflexivity; try discriminate; lia.
Qed.

End SlotEdges.

(** ** Identifiers *)

Lemma cancelledOrSame_ids (l l' : list Reservation.t) :
  Forall2 cancelledOrSame l l' ->
  map Reservation.id l' = map Reservation.id l.
Proof.
  induction 1 as [|r r' l l' Hr _ IH]; simpl; [reflexivity|].
  rewrite IH. now destruct Hr as [->| ->].
Qed.

Lemma find_app_found {A : Type} (p : A -> bool) (l l' : list A) (x : A) :
  In x l -> p x = true -> find p (l ++ l') = find p l.
Proof.
  induction l as [|y l IH]; simpl; [tauto|].
  destruct (p y) eqn:Hy; [reflexivity|].
  intros [->|Hin] Hx; [congruence|]. now apply IH.
Qed.

Lemma find_mutateFirst {A : Type} (p : A -> bool) (f : A -> A) (l : list A)
  (x : A) :
  find p l = Some x -> p (f x) = true ->
  find p (mutateFirst p f l) = Some (f x).
Proof.
  induction l as [|y l IH]; simpl; [discriminate|].
  destruct (p y) eqn:Hy.
  - intros [= ->] Hfx. simpl. now rewrite Hfx.
  - intros H Hfx. simpl. rewrite Hy. now apply IH.
Qed.

Section Identifiers.
Context {imports : Imports}.
Hypothesis uuidv4_fresh : forall m n : nat, uuidv4 m = uuidv4 n -> m = n.

(** A request leaves the identifiers of students and reservations alone
    or inserts the next one that [uuidv4] returns. *)
Lemma handle_ids (db : Db) (op : Op) :
  (idsOf (snd (handle db op)) = idsOf db
   /\ (uuids db <= uuids (snd (handle db op)))%nat)
  \/ exists l1 l2,
       idsOf db = (l1 ++ l2)%list
       /\ idsOf (snd (handle db op)) = (l1 ++ uuidv4 (uuids db) :: l2)%list
       /\ uuids (snd (handle db op)) = S (uuids db).
Proof.
  unfold idsOf.
  destruct op as [body|sid body|sid id body|sid id|body now|id]; simpl.
  - destruct (createStudent_cases db body)
      as [->|(_ & _ & _ & student & Hid & _ & _ & ->)]; [left; auto|].
    right. exists (map Student.id (students db)),
             (map Reservation.id (reservations db)).
    simpl. rewrite map_app, <- app_assoc. simpl. rewrite Hid. auto.
  - left. unfold createCanteen.
    destruct (negb _); [auto|]. destruct (_ || _); simpl; auto.
  - left. unfold updateCanteen.
    destruct (negb _); [auto|]. destruct (find _ _); simpl; auto.
  - left. unfold deleteCanteen.
    destruct (negb _); [auto|]. destruct (find _ _); simpl; auto.
    split; [|lia]. f_equal. apply cancelledOrSame_ids.
    apply map_cancelledOrSame.
  - destruct (createReservation_cases db body now)
      as [(reason & _ & ->)|[_ ->]]; [left; auto|].
    right. exists (map Student.id (students db)
                   ++ map Reservation.id (reservations db))%list, [].
    simpl. rewrite map_app, app_nil_r, app_assoc. auto.
  - left. rewrite cancelReservation_store. simpl. split; [|lia].
    f_equal. apply cancelledOrSame_ids. apply mutateFirst_cancelledOrSame.
Qed.

Lemma ids_invariant (ops : list Op) :
  Forall (drawn (serve emptyDb ops)) (idsOf (serve emptyDb ops))
  /\ NoDup (idsOf (serve emptyDb ops)).
Proof.
  apply (serve_invariant
           (fun db => Forall (drawn db) (idsOf db) /\ NoDup (idsOf db)));
    [|split; constructor].
  intros db op [Hdrawn Hnodup].
  assert (forall db', (uuids db <= uuids db')%nat ->
            forall id, drawn db id -> drawn db' id) as Hmono.
  { intros db' Hle id (n & Hn & ->). exists n. split; [lia|reflexivity]. }
  destruct (handle_ids db op) as [[-> Hle]|(l1 & l2 & E & -> & Hu)].
  - split; [|exact Hnodup].
    eapply Forall_impl; [|exact Hdrawn]. intros id. now apply Hmono.
  - rewrite E in *.
    assert (forall id, In id (l1 ++ l2) -> drawn db id) as Hall
        by (now apply Forall_forall).
    assert (uuids db <= uuids (snd (handle db op)))%nat as Hle by lia.
    split.
    + apply Forall_forall. intros id Hin.
      apply in_app_iff in Hin. simpl in Hin.
      destruct Hin as [Hin|[<-|Hin]].
      * apply (Hmono _ Hle). apply Hall, in_app_iff. now left.
      * exists (uuids db). split; [lia|reflexivity].
      * apply (Hmono _ Hle). apply Hall, in_app_iff. now right.
    + apply (NoDup_Add (a := uuidv4 (uuids db)) (l := (l1 ++ l2)%list));
        [apply Add_app|].
      split; [exact Hnodup|].
      intros Hin. destruct (Hall _ Hin) as (n & Hn & En).
      apply uuidv4_fresh in En. lia.
Qed.

(** X12. With identifiers that [uuidv4] never repeats, after any sequence
    of requests served from the empty store the ids of the stored students
    and of the stored reservations are pairwise distinct, also between the
    two collections. *)
Theorem ids_distinct (ops : list Op) :
  NoDup (map Student.id (students (serve emptyDb ops))
         ++ map Reservation.id (reservations (serve emptyDb ops))).
Proof. exact (proj2 (ids_invariant ops)). Qed.

Lemma next_uuid_new (ops : list Op) (id : string) :
  In id (idsOf (serve emptyDb ops)) ->
  id <> uuidv4 (uuids (serve emptyDb ops)).
Proof.
  intros Hin E.
  pose proof (proj1 (ids_invariant ops)) as Hdrawn.
  rewrite Forall_forall in Hdrawn.
  destruct (Hdrawn id Hin) as (n & Hn & En).
  rewrite En in E. apply uuidv4_fresh in E. lia.
Qed.

Lemma createStudent_registered (db : Db) (body : StudentBody.t)
  (student : Student.t) :
  fst (createStudent db body) = mkResponse 201 (JsonStudent student) ->
  Student.id student = uuidv4 (uuids db)
  /\ snd (createStudent db body)
     = mkDb (students db ++ [student]) (canteens db) (reservations db)
            (S (uuids db)).
Proof.
  unfold createStudent.
  destruct (_ || _); [discriminate|].
  destruct (existsb _ _); [discriminate|].
  simpl. intros [= <-]. split; reflexivity.
Qed.

(** X13. With identifiers that [uuidv4] never repeats, a student who has
    just been registered in a store reached from the empty one is read
    back by [getStudent] under the id of the response, and the students
    registered before are read back as before. *)
Theorem createStudent_then_getStudent (ops : list Op) (body : StudentBody.t)
  (student : Student.t)
  (Hregistered : fst (createStudent (serve emptyDb ops) body)
                 = mkResponse 201 (JsonStudent student)) :
  let db' := snd (createStudent (serve emptyDb ops) body) in
  getStudent db' (Student.id student) = mkResponse 200 (JsonStudent student)
  /\ forall s, In s (students (serve emptyDb ops)) ->
               getStudent db' (Student.id s)
               = getStudent (serve emptyDb ops) (Student.id s).
Proof.
  intros db'. unfold db'. clear db'.
  destruct (createStudent_registered _ _ _ Hregistered) as [Hid ->].
  unfold getStudent. simpl. split.
  - rewrite (find_first_failing _ (students (serve emptyDb ops)) student []);
      [reflexivity| |apply String.eqb_refl].
    intros s Hin. apply String.eqb_neq. rewrite Hid.
    apply next_uuid_new. unfold idsOf. apply in_app_iff. left.
    now apply in_map.
  - intros s Hin.
    rewrite (find_app_found _ _ _ s Hin); [reflexivity|].
    apply String.eqb_refl.
Qed.

(** X14. With identifiers that [uuidv4] never repeats, cancelling a
    reservation that has just been created in a store reached from the
    empty one, under the id of the response, cancels this reservation and
    no other: the answer carries it with status Cancelled and the
    reservations stored before are as they were. *)
Theorem createReservation_then_cancel (ops : list Op)
  (body : ReservationBody.t) (now : Z) (r : Reservation.t)
  (Hcreated : fst (createReservation (serve emptyDb ops) body now)
              = mkResponse 201 (JsonReservation r)) :
  let db := serve emptyDb ops in
  cancelReservation (snd (createReservation db body now)) (Reservation.id r)
  = (mkResponse 200 (JsonReservation (Reservation.withStatus Cancelled r)),
     mkDb (students db) (canteens db)
          (reservations db ++ [Reservation.withStatus Cancelled r])
          (S (uuids db))).
Proof.
  intros db. unfold db. clear db.
  destruct (createReservation_cases (serve emptyDb ops) body now)
    as [(reason & _ & E)|[_ E]]; rewrite E in *; simpl in *.
  - destruct reason; discriminate Hcreated.
  - injection Hcreated as <-.
    unfold cancelReservation. simpl.
    assert (forall x, In x (reservations (serve emptyDb ops)) ->
              (Reservation.id x =? uuidv4 (uuids (serve emptyDb ops)))%string
              = false) as Hold.
    { intros x Hin. apply String.eqb_neq. apply next_uuid_new.
      unfold idsOf. apply in_app_iff. right. now apply in_map. }
    rewrite (find_first_failing _ (reservations (serve emptyDb ops))
               (created (serve emptyDb ops) body) []);
      [|exact Hold|apply String.eqb_refl].
    rewrite mutateFirst_split; [reflexivity|exact Hold|apply String.eqb_refl].
Qed.

End Identifiers.

(** ** Updating a canteen *)

Lemma mutateFirst_length {A : Type} (p : A -> bool) (f : A -> A)
  (l : list A) :
  List.length (mutateFirst p f l) = List.length l.
Proof.
  induction l as [|x l IH]; simpl; [reflexivity|].
  destruct (p x); simpl; [reflexivity|now rewrite IH].
Qed.

Lemma mutateFirst_idem {A : Type} (p : A -> bool) (f : A -> A) (l : list A) :
  (forall x, p x = true -> p (f x) = true) -> (forall x, f (f x) = f x) ->
  mutateFirst p f (mutateFirst p f l) = mutateFirst p f l.
Proof.
  intros Hp Hf. induction l as [|x l IH]; simpl; [reflexivity|].
  destruct (p x) eqn:Hx; simpl.
  - now rewrite (Hp x Hx), Hf.
  - now rewrite Hx, IH.
Qed.

Lemma mutateFirst_same {A : Type} (p : A -> bool) (f : A -> A) (l : list A)
  (x : A) :
  find p l = Some x -> f x = x -> mutateFirst p f l = l.
Proof.
  induction l as [|y l IH]; simpl; [discriminate|].
  destruct (p y).
  - intros [= ->] Hf. now rewrite Hf.
  - intros H Hf. now rewrite IH.
Qed.

Lemma spread_idem (canteen : Canteen.t) (body : CanteenBody.t) :
  spread (spread canteen body) body = spread canteen body.
Proof.
  unfold spread. simpl.
  destruct (CanteenBody.id body), (CanteenBody.name body),
    (CanteenBody.location body), (CanteenBody.capacity body),
    (CanteenBody.workingHours body); reflexivity.
Qed.

(** X15. When an administrator updates a stored canteen without giving a
    new id, the answer carries the stored canteen with the fields of the
    body written over it, [getCanteenById] reads that canteen back, the
    same update made again changes nothing more, the number of canteens,
    the students and the reservations are as before, and an update with
    an empty body leaves the whole store as it was. *)
Theorem updateCanteen_merges (db : Db) (studentId : option string)
  (id : string) (body : CanteenBody.t) (canteen : Canteen.t)
  (Hadmin : isAdmin db studentId = true)
  (Hfound : findCanteenById db id = Some canteen)
  (Hid : CanteenBody.id body = None) :
  let db' := snd (updateCanteen db studentId id body) in
  let updated := spread canteen body in
  fst (updateCanteen db studentId id body)
  = mkResponse 200 (JsonCanteen updated)
  /\ getCanteenById db' id = mkResponse 200 (JsonCanteen updated)
  /\ updateCanteen db' studentId id body
     = (mkResponse 200 (JsonCanteen updated), db')
  /\ List.length (canteens db') = List.length (canteens db)
  /\ students db' = students db
  /\ reservations db' = reservations db
  /\ (body = CanteenBody.mk None None None None None -> db' = db).
Proof.
  intros db' updated. unfold db', updated. clear db' updated.
  unfold findCanteenById in Hfound.
  pose proof (find_some _ _ Hfound) as [_ Hp].
  assert ((Canteen.id (spread canteen body) =? id)%string = true) as Hp'
      by (unfold spread; simpl; now rewrite Hid).
  assert (updateCanteen db studentId id body
          = (mkResponse 200 (JsonCanteen (spread canteen body)),
             mkDb (students db)
                  (mutateFirst (fun c => (Canteen.id c =? id)%string)
                               (fun _ => spread canteen body) (canteens db))
                  (reservations db) (uuids db))) as Hupdate
      by (unfold updateCanteen; now rewrite Hadmin, Hfound).
  rewrite Hupdate. simpl.
  pose proof (find_mutateFirst _ (fun _ => spread canteen body) _ _
                Hfound Hp') as Hread.
  split; [reflexivity|]. split; [|split; [|split; [|split; [|split]]]].
  - unfold getCanteenById. simpl. now rewrite Hread.
  - unfold updateCanteen.
    change (isAdmin (mkDb (students db) _ (reservations db) (uuids db))
                    studentId)
      with (isAdmin db studentId).
    rewrite Hadmin. simpl. rewrite Hread, spread_idem.
    rewrite mutateFirst_idem; auto.
  - apply mutateFirst_length.
  - reflexivity.
  - reflexivity.
  - intros ->.
    rewrite (mutateFirst_same _ _ _ canteen Hfound);
      [now destruct db|now destruct canteen].
Qed.

(** ** The status handlers *)

Section StatusAgreement.
Context {imports : Imports}.

(** X16. The two status handlers answer one query alike.  A query with a
    missing parameter, or whose duration does not read as 30 or 60, is
    refused by both with the same answer, except that the handler of one
    canteen answers 404 first when the canteen is not stored.  A query
    that is accepted, given enough iterations, gets from the global
    handler one group per stored canteen, in the order of the store, and
    the group of a canteen holds the slots that the handler of one canteen
    returns for its id. *)
Theorem status_handlers_agree (fuel : nat) (db : Db) (query : StatusQuery.t) :
  (forall id, findCanteenById db id = None ->
              getCanteenStatus fuel db id query = Some (sendEmpty 404))
  /\ (forall refused,
        statusQueryDuration query = inl refused ->
        getGlobalStatus fuel db query = Some refused
        /\ forall id canteen,
             findCanteenById db id = Some canteen ->
             getCanteenStatus fuel db id query = Some refused)
  /\ (forall duration,
        statusQueryDuration query = inr duration ->
        (enoughFuel (JS.str (StatusQuery.startDate query))
                    (JS.str (StatusQuery.endDate query))
                    (JS.str (StatusQuery.startTime query))
                    (JS.str (StatusQuery.endTime query)) duration
         <= fuel)%nat ->
        JS.parseInt (StatusQuery.duration query) = JS.Finite duration
        /\ (duration = 30 \/ duration = 60)
        /\ exists groups,
             getGlobalStatus fuel db query
             = Some (mkResponse 200 (JsonGlobalStatus groups))
             /\ map fst groups = map Canteen.id (canteens db)
             /\ forall canteen,
                  findCanteenById db (Canteen.id canteen) = Some canteen ->
                  exists slots,
                    In (Canteen.id canteen, slots) groups
                    /\ getCanteenStatus fuel db (Canteen.id canteen) query
                       = Some (mkResponse 200
                                 (JsonStatus (Canteen.id canteen) slots))).
Proof.
  split; [|split].
  - intros id Hnone. unfold getCanteenStatus.
    unfold findCanteenById in Hnone. now rewrite Hnone.
  - intros refused Hrefused. split.
    + unfold getGlobalStatus. now rewrite Hrefused.
    + intros id canteen Hfound. unfold getCanteenStatus.
      unfold findCanteenById in Hfound. now rewrite Hfound, Hrefused.
  - intros duration Hquery Hfuel. split; [|split].
    + revert Hquery. unfold statusQueryDuration.
      destruct (_ || _); [discriminate|].
      destruct (JS.parseInt (StatusQuery.duration query)) as [|d|n];
        simpl; try discriminate.
      destruct (negb _ && negb _); [discriminate|].
      now intros [= <-].
    + now apply (statusQueryDuration_accepts query).
    + rewrite (getGlobalStatus_slots fuel db query duration Hquery Hfuel).
      eexists. split; [reflexivity|]. split.
      * rewrite map_map. simpl. reflexivity.
      * intros canteen Hfound.
        rewrite (getCanteenStatus_slots fuel db _ query canteen duration
                   Hfound Hquery Hfuel).
        eexists. split; [|reflexivity].
        apply in_map_iff. exists canteen. split; [reflexivity|].
        unfold findCanteenById in Hfound. now apply find_some in Hfound.
Qed.

End StatusAgreement.

(** ** What an accepted reservation satisfies *)

Section Accepted.
Context {imports : Imports}.

(** X17. A request that [createReservation] accepts and whose date and
    time parse to an instant names a stored student and a stored canteen,
    has a duration of 30 or 60 minutes and a time on the half-hour grid,
    does not start before the clock, passes the working-hours test of one
    block of the canteen, lies apart from every Active reservation of the
    student whose date and time parse (one of the two ends at or before
    the start of the other), and finds fewer Active reservations of the
    canteen that the overlap test counts than the capacity; the store then
    holds one reservation more, the created one. *)
Theorem accepted_reservation_is_valid (db : Db) (body : ReservationBody.t)
  (now start : Z)
  (Haccepted : statusCode (fst (createReservation db body now)) = 201)
  (Hstart : requestStart body = Some start) :
  exists student canteen,
    findStudentById db (JS.str (ReservationBody.studentId body))
    = Some student
    /\ In student (students db)
    /\ findCanteenById db (JS.str (ReservationBody.canteenId body))
       = Some canteen
    /\ In canteen (canteens db)
    /\ (JS.num (ReservationBody.duration body) = 30
        \/ JS.num (ReservationBody.duration body) = 60)
    /\ onGrid (JS.str (ReservationBody.time body)) = true
    /\ now <= start
    /\ (exists block,
          In block (Canteen.workingHours canteen)
          /\ fitsBlock (JS.str (ReservationBody.time body))
                       (JS.num (ReservationBody.duration body)) block = true)
    /\ (forall r s,
          In r (reservations db) ->
          Reservation.studentId r = JS.str (ReservationBody.studentId body) ->
          Reservation.status r = Active ->
          startOf r = Some s ->
          s + Reservation.duration r * DateFns.millisecondsInMinute <= start
          \/ start + JS.num (ReservationBody.duration body)
                     * DateFns.millisecondsInMinute <= s)
    /\ Z.of_nat (List.length
         (filter (overlapsCanteen (JS.str (ReservationBody.canteenId body))
                    (Some start)
                    (Some (start + JS.num (ReservationBody.duration body)
                                   * DateFns.millisecondsInMinute)))
                 (reservations db)))
       < Canteen.capacity canteen
    /\ reservations (snd (createReservation db body now))
       = (reservations db ++ [created db body])%list.
Proof.
  pose proof (proj1 (createReservation_accepts db body now) Haccepted)
    as Hpass.
  pose proof (Hpass StudentNotFound) as H2.
  pose proof (Hpass InvalidDuration) as H3.
  pose proof (Hpass InvalidTimeSlot) as H4.
  pose proof (Hpass PastReservation) as H5.
  pose proof (Hpass CanteenNotFound) as H6.
  pose proof (Hpass OutsideWorkingHours) as H7.
  pose proof (Hpass StudentDoubleBooked) as H8.
  pose proof (Hpass CapacityExceeded) as H9.
  cbn [fails] in H2, H3, H4, H5, H6, H7, H8, H9.
  unfold requestEnd in H8, H9. rewrite Hstart in H5, H8, H9.
  simpl DateFns.addMinutes in H8, H9.
  destruct (findStudentById db _) as [student|] eqn:Hstudent; [|discriminate].
  destruct (findCanteenById db _) as [canteen|] eqn:Hcanteen; [|discriminate].
  exists student, canteen.
  split; [reflexivity|]. split.
  { unfold findStudentById in Hstudent. now apply find_some in Hstudent. }
  split; [reflexivity|]. split.
  { unfold findCanteenById in Hcanteen. now apply find_some in Hcanteen. }
  split.
  { apply negb_false_iff, orb_true_iff in H3.
    destruct H3 as [H3|H3]; apply Z.eqb_eq in H3; auto. }
  split; [now apply negb_false_iff in H4|]. split.
  { simpl in H5. now apply Z.ltb_ge in H5. }
  split.
  { apply negb_false_iff, existsb_exists in H7.
    destruct H7 as (block & Hin & Hfits). now exists block. }
  split.
  { intros r s Hin Hs Ha Hrs.
    destruct (isOverlapping
                (Some start)
                (Some (start + JS.num (ReservationBody.duration body)
                               * DateFns.millisecondsInMinute))
                (startOf r) (endOf r)) eqn:E.
    - assert (existsb (overlapsStudent
                         (JS.str (ReservationBody.studentId body))
                         (Some start)
                         (Some (start + JS.num (ReservationBody.duration body)
                                        * DateFns.millisecondsInMinute)))
                      (reservations db) = true) as Habs; [|congruence].
      apply existsb_exists. exists r. split; [exact Hin|].
      apply overlapsStudent_true. auto.
    - unfold endOf in E. rewrite Hrs in E. simpl in E.
      unfold isOverlapping, JS.gt, JS.lt in E.
      apply andb_false_iff in E. rewrite !Z.ltb_ge in E. tauto. }
  split.
  { rewrite Z.geb_leb in H9. now apply Z.leb_gt in H9. }
  destruct (createReservation_cases db body now)
    as [(reason & Hfails & _)|[_ ->]]; [|reflexivity].
  rewrite Hpass in Hfails. discriminate.
Qed.

End Accepted.

(** ** The time format *)

(** X18. Every time that [isValidTimeFormat] accepts has a minute offset
    as the reservation controller computes it, with [split] and
    [parseInt], and the offset lies within a day: at least 0 and below
    1440. *)
Theorem isValidTimeFormat_minutes (time : string)
  (Hvalid : isValidTimeFormat time = true) :
  exists minutes,
    minutesOfDay time = JS.Finite minutes /\ 0 <= minutes < 1440.
Proof.
  destruct (clockOffset_valid time Hvalid) as (minutes & Hminutes).
  exists minutes. now apply minutesOfDay_clockOffset.
Qed.

(** ** Booking and availability *)

Section Booking.
Context {imports : Imports}.


End Booking.

(* ------------------------------------------------------------------ *)
(** * The further properties on the sample campus *)

(** X2 on the campus: Ana's reservation of 11:00 for an hour. *)
Lemma stored_reservations_well_formed_witness :
  (Reservation.duration Sample.anaAt11 = 30
   \/ Reservation.duration Sample.anaAt11 = 60)
  /\ onGrid (Reservation.time Sample.anaAt11) = true
  /\ Reservation.studentId Sample.anaAt11 <> ""
  /\ Reservation.canteenId Sample.anaAt11 <> ""
  /\ Reservation.date Sample.anaAt11 <> ""
  /\ exists s, In s (students (serve emptyDb Sample.touching))
               /\ Student.id s = Reservation.studentId Sample.anaAt11.
Proof.
  apply (stored_reservations_well_formed Sample.touching Sample.anaAt11).
  vm_compute. left. reflexivity.
Defined.

(** X4 on a campus without an administrator: Ana gets neither a canteen
    nor a reservation. *)
Lemma no_canteen_without_admin_witness :
  canteens (serve emptyDb Sample.adminless) = []
  /\ reservations (serve emptyDb Sample.adminless) = [].
Proof.
  apply (no_canteen_without_admin Sample.adminless).
  intros s Hin. vm_compute in Hin. destruct Hin as [<-|[]]. reflexivity.
Defined.

(** X7 on the campus: the administrator deletes the canteen that Ana and
    Boris have booked. *)
Lemma deleteCanteen_cascade_witness :
  fst (deleteCanteen (serve emptyDb Sample.booked) (Some "uuid-0") "uuid-1")
  = sendEmpty 204.
Proof.
  apply (deleteCanteen_cascade (serve emptyDb Sample.booked) (Some "uuid-0")
           "uuid-1" Sample.canteen); vm_compute; reflexivity.
Defined.

(** X9 on the campus: the two slots between 11:00 and 12:00. *)
Lemma calculateSlots_bounds_witness :
  (forall slot,
      In slot [Slot.mk "2025-12-05" lunch "11:00" 1;
               Slot.mk "2025-12-05" lunch "11:30" 2] ->
      0 <= Slot.remainingCapacity slot
        <= Z.max 0 (Canteen.capacity Sample.canteen)
      /\ exists block, In block (Canteen.workingHours Sample.canteen)
                       /\ Slot.meal slot = WorkingHour.meal block)
  /\ (Canteen.workingHours Sample.canteen = [] ->
      [Slot.mk "2025-12-05" lunch "11:00" 1;
       Slot.mk "2025-12-05" lunch "11:30" 2] = []).
Proof.
  apply (calculateSlots_bounds 3 Sample.anaBooked Sample.canteen
           "2025-12-05" "2025-12-05" "11:00" "12:00" 30).
  vm_compute. reflexivity.
Defined.

(** X10 on the campus: cancelling Ana's reservation. *)
Lemma cancellation_never_lowers_availability_witness :
  exists before after,
    calculateSlots 3 Sample.anaBooked Sample.canteen
                   "2025-12-05" "2025-12-05" "11:00" "12:00" 30 = Some before
    /\ calculateSlots 3 (snd (cancelReservation Sample.anaBooked "uuid-4"))
                      Sample.canteen
                      "2025-12-05" "2025-12-05" "11:00" "12:00" 30
       = Some after
    /\ Forall2 (fun slot slot' =>
                  Slot.date slot' = Slot.date slot
                  /\ Slot.meal slot' = Slot.meal slot
                  /\ Slot.startTime slot' = Slot.startTime slot
                  /\ Slot.remainingCapacity slot
                     <= Slot.remainingCapacity slot')
               before after.
Proof.
  apply (cancellation_never_lowers_availability 3 Sample.anaBooked "uuid-4"
           Sample.canteen "2025-12-05" "2025-12-05" "11:00" "12:00" 30).
  - reflexivity.
  - vm_compute. lia.
Defined.

(** X11 on the campus: one place is left at 11:00, and Boris gets it. *)
Lemma capacity_check_agrees_with_slot_witness :
  statusCode (fst (createReservation Sample.anaBooked
                     (Sample.request "uuid-3" "11:00" 30) Sample.now)) = 201.
Proof.
  apply (proj2 (capacity_check_agrees_with_slot Sample.anaBooked
                  (Sample.request "uuid-3" "11:00" 30) Sample.now
                  Sample.canteen "2025-12-05" Sample.elevenOClock
                  (Slot.mk "2025-12-05" lunch "11:00" 1)
                  ltac:(vm_compute; reflexivity)
                  ltac:(vm_compute; reflexivity)
                  ltac:(vm_compute; reflexivity)
                  ltac:(intros earlier H; destruct earlier;
                        try (vm_compute; reflexivity); now elim H))).
  reflexivity.
Defined.

(** X12 on the campus, with Ana's two reservations. *)
Lemma ids_distinct_witness :
  NoDup (map Student.id (students (serve emptyDb Sample.touching))
         ++ map Reservation.id (reservations (serve emptyDb Sample.touching))).
Proof.
  exact (ids_distinct (imports := Gregorian.imports) Gregorian_uuidv4_fresh
           Sample.touching).
Defined.

(** X13 on the campus: Vera registers and is read back. *)
Lemma createStudent_then_getStudent_witness :
  getStudent
    (snd (createStudent (serve emptyDb Sample.setup)
            (StudentBody.mk (Some "Vera") (Some "vera@test.com") None)))
    "uuid-4"
  = mkResponse 200 (JsonStudent Sample.vera).
Proof.
  apply (createStudent_then_getStudent (imports := Gregorian.imports)
           Gregorian_uuidv4_fresh Sample.setup
           (StudentBody.mk (Some "Vera") (Some "vera@test.com") None)
           Sample.vera).
  vm_compute. reflexivity.
Defined.

(** X14 on the campus: Ana books 11:00 and cancels at once. *)
Lemma createReservation_then_cancel_witness :
  fst (cancelReservation
         (snd (createReservation (serve emptyDb Sample.setup)
                 (Sample.request "uuid-2" "11:00" 30) Sample.now))
         "uuid-4")
  = mkResponse 200
      (JsonReservation (Reservation.withStatus Cancelled Sample.anaHalfHour)).
Proof.
  pose proof (createReservation_then_cancel (imports := Gregorian.imports)
                Gregorian_uuidv4_fresh Sample.setup
                (Sample.request "uuid-2" "11:00" 30) Sample.now
                Sample.anaHalfHour ltac:(vm_compute; reflexivity)) as Hcancel.
  exact (f_equal fst Hcancel).
Defined.

(** X15 on the campus: the administrator raises the capacity to 50. *)
Lemma updateCanteen_merges_witness :
  getCanteenById
    (snd (updateCanteen Sample.campus (Some "uuid-0") "uuid-1"
            (CanteenBody.mk None None None (Some 50) None)))
    "uuid-1"
  = mkResponse 200
      (JsonCanteen (Canteen.mk "uuid-1" "Velika Menza" "Novi Sad" 50
                               Sample.hours)).
Proof.
  apply (updateCanteen_merges Sample.campus (Some "uuid-0") "uuid-1"
           (CanteenBody.mk None None None (Some 50) None) Sample.canteen);
    vm_compute; reflexivity.
Defined.

(** X17 on the campus: Ana, who has booked 11:00-11:30, asks for 11:30
    and is accepted; the request does not start before the clock, and her
    stored reservation ends when it starts. *)
Lemma accepted_reservation_is_valid_witness :
  Sample.now <= Sample.elevenOClock + 1800000
  /\ (Sample.elevenOClock + 30 * DateFns.millisecondsInMinute
      <= Sample.elevenOClock + 1800000
      \/ Sample.elevenOClock + 1800000 + 30 * DateFns.millisecondsInMinute
         <= Sample.elevenOClock).
Proof.
  assert (statusCode (fst (createReservation Sample.anaBooked
                            (Sample.request "uuid-2" "11:30" 30) Sample.now))
          = 201) as Haccepted by (vm_compute; reflexivity).
  assert (requestStart (Sample.request "uuid-2" "11:30" 30)
          = Some (Sample.elevenOClock + 1800000)) as Hstart
      by (vm_compute; reflexivity).
  destruct (accepted_reservation_is_valid Sample.anaBooked
              (Sample.request "uuid-2" "11:30" 30) Sample.now
              (Sample.elevenOClock + 1800000) Haccepted Hstart)
    as (student & canteen & _ & _ & _ & _ & _ & _ & Hnow & _ & Hapart & _).
  split; [exact Hnow|].
  assert (In Sample.anaHalfHour (reservations Sample.anaBooked)) as Hstored
      by (vm_compute; left; reflexivity).
  assert (startOf Sample.anaHalfHour = Some Sample.elevenOClock) as Hbooked
      by (vm_compute; reflexivity).
  exact (Hapart Sample.anaHalfHour Sample.elevenOClock Hstored eq_refl
                eq_refl Hbooked).
Defined.

(** X18 at half past noon. *)
Lemma isValidTimeFormat_minutes_witness :
  exists minutes,
    minutesOfDay "12:30" = JS.Finite minutes /\ 0 <= minutes < 1440.
Proof.
  apply (isValidTimeFormat_minutes "12:30"). vm_compute. reflexivity.
Defined.

(** The tests of the helpers. *)
Example accepts_valid_time_formats :
  map isValidTimeFormat ["12:00"; "07:30"; "23:59"; "00:00"; "7:30"; "9:00"]
  = [true; true; true; true; true; true].
Proof. vm_compute. reflexivity. Qed.

Example rejects_invalid_time_formats :
  map isValidTimeFormat
      ["25:00"; "24:00"; "12:60"; "12:99"; "12"; "12:0"; "1200"; "abc"]
  = [false; false; false; false; false; false; false; false].
Proof. vm_compute. reflexivity. Qed.

Example isAdmin_of_the_campus :
  map (isAdmin Sample.campus) [Some "uuid-0"; Some "uuid-2"; Some "nobody";
                               None; Some ""]
  = [true; false; false; false; false].
Proof. vm_compute. reflexivity. Qed.

